(** * WellnessReset: the free-slot finder of [CalendarService.ts]

    A shallow embedding of the slot-finding and conflict-detection code of
    [src/services/CalendarService.ts] and of the slot selection of
    [syncCalendar] in [src/screens/HomeScreen.tsx], with the properties the
    specification states about them.

    Conventions of the embedding.
    - A JavaScript [Date] is modelled by its time value ([getTime()]), the
      number of milliseconds since the epoch, an integer of [Z].  The
      [startDate]/[endDate] strings of a [BusyEvent] are modelled by the
      instant [new Date(...)] parses them to.
    - The numbers of a [FreeSlotConfig] are integers.
    - Local calendar arithmetic ([setHours], [setDate], [getDate], ...) is
      done in a time zone at a fixed offset [tz] milliseconds east of UTC
      (local time = UTC + [tz]); a calendar day is then a block of
      86400000 ms and year/month/date agree exactly when the day index does.
    - A [while] loop that the source does not bound is run with fuel; running
      out of fuel is [None], every other outcome is [Some]. *)

From Stdlib Require Import ZArith List Bool String Lia Sorted.
From Stdlib Require Import DecimalString Ascii Permutation.
Import ListNotations.

Local Open Scope Z_scope.

(** ** Data model *)

(** [BusyEvent]: the fields the slot finder reads.  The remaining optional
    fields of the source type (title, exercise, location, ...) are never
    inspected by the code modelled here. *)
Record BusyEvent : Type := mkBusyEvent {
  event_id : string;
  event_startDate : Z;
  event_endDate : Z;
  isAppCreated : bool
}.

Inductive SlotStatus : Type :=
| available
| added.

Record SuggestedSlot : Type := mkSuggestedSlot {
  id : string;
  startDate : Z;
  endDate : Z;
  durationMinutes : Z;
  status : SlotStatus
}.

Record FreeSlotConfig : Type := mkFreeSlotConfig {
  days : Z;
  minMinutes : Z;
  maxMinutes : Z;
  dayStartHour : Z;
  dayEndHour : Z
}.

Definition DEFAULT_FREE_SLOT_CONFIG : FreeSlotConfig :=
  {| days := 3; minMinutes := 15; maxMinutes := 30;
     dayStartHour := 7; dayEndHour := 21 |}.

(** [CONSTS.CALENDAR] of [constants/app.ts], as [syncCalendar] passes it. *)
Definition CALENDAR_CONFIG : FreeSlotConfig :=
  {| days := 1; minMinutes := 15; maxMinutes := 30;
     dayStartHour := 7; dayEndHour := 22 |}.

Definition MIN_FUTURE_BUFFER_MINUTES : Z := 15.

Definition MS_PER_MINUTE : Z := 60000.
Definition MS_PER_HOUR : Z := 3600000.
Definition MS_PER_DAY : Z := 86400000.

(** *** Instants used in the examples: a day that starts at
    1767225600000 ms (2026-01-01T00:00:00Z), read in a zone at offset 0. *)

Definition midnight : Z := 1767225600000.

Definition clockAt (hours minutes seconds : Z) : Z :=
  midnight + hours * MS_PER_HOUR + minutes * MS_PER_MINUTE + seconds * 1000.

Definition meeting (name : string) (starts ends : Z) : BusyEvent :=
  {| event_id := name; event_startDate := starts; event_endDate := ends;
     isAppCreated := false |}.

(** Two meetings, 08:00-09:00 and 10:00-11:00, in start order and the
    other way round. *)
Definition morningSorted : list BusyEvent :=
  [meeting "a" (clockAt 8 0 0) (clockAt 9 0 0);
   meeting "b" (clockAt 10 0 0) (clockAt 11 0 0)].

Definition morningUnsorted : list BusyEvent :=
  [meeting "b" (clockAt 10 0 0) (clockAt 11 0 0);
   meeting "a" (clockAt 8 0 0) (clockAt 9 0 0)].

(** An event that starts at 23:00 the evening before and ends at 08:00. *)
Definition overnight : list BusyEvent :=
  [meeting "night" (clockAt (-1) 0 0) (clockAt 8 0 0)].

(** An event at 23:00-23:30, after the end of the 07:00-22:00 window. *)
Definition lateEvening : list BusyEvent :=
  [meeting "late" (clockAt 23 0 0) (clockAt 23 30 0)].

(** Template-literal rendering of an integral number. *)
Definition showNumber (n : Z) : string := NilZero.string_of_int (Z.to_int n).

(** ** Error monad of the fuel-bounded loops *)

Definition bind {A B : Type} (m : option A) (k : A -> option B) : option B :=
  match m with
  | Some a => k a
  | None => None
  end.

Notation "x <- m ;; k" := (bind m (fun x => k))
  (at level 61, m at next level, right associativity).

(** A computation that reads the wall clock once ([new Date()]): a function of
    the instant the clock shows. *)
Definition Clocked (A : Type) : Type := Z -> A.

Section CalendarService.

(** Offset of local time from UTC, in milliseconds. *)
Variable tz : Z.

(** *** Date utility functions *)

Definition startOfDay (date : Z) : Z := date - (date + tz) mod MS_PER_DAY.

Definition addDays (date daysToAdd : Z) : Z := date + daysToAdd * MS_PER_DAY.

Definition setHour (date hour : Z) : Z := startOfDay date + hour * MS_PER_HOUR.

(** [Math.max(0, Math.round(ms / 60000))]; [Math.round] is
    [floor (x + 1/2)], so halves round up. *)
Definition diffMinutes (start end_ : Z) : Z :=
  Z.max 0 ((end_ - start + 30000) / MS_PER_MINUTE).

(** Index of the local calendar day an instant falls on. *)
Definition dayIndex (date : Z) : Z := (date + tz) / MS_PER_DAY.

Definition isSameDay (value reference : Z) : bool :=
  dayIndex value =? dayIndex reference.

Definition rangesOverlap (startA endA startB endB : Z) : bool :=
  (startA <? endB) && (startB <? endA).

(** *** Slots *)

Definition buildSlot (anchor duration : Z) : SuggestedSlot :=
  {| id := (showNumber anchor ++ "-" ++ showNumber duration)%string;
     startDate := anchor;
     endDate := anchor + duration * 60 * 1000;
     durationMinutes := duration;
     status := available |}.

Definition chooseDuration (gapMinutes : Z) (config : FreeSlotConfig) : option Z :=
  if gapMinutes <? minMinutes config then None
  else if gapMinutes >=? maxMinutes config then Some (maxMinutes config)
  else Some (minMinutes config).

(** The carving [while] loop, written twice in the source (before an event
    and before the end of the window) with the same body.  [slots] is the
    array shared by the whole scan. *)
Fixpoint carveGap (fuel : nat) (config : FreeSlotConfig) (now gapEnd : Z)
    (gapStart remaining : Z) (slots : list SuggestedSlot)
    : option (list SuggestedSlot) :=
  if (remaining >=? minMinutes config) && (Nat.ltb (List.length slots) 10) then
    match fuel with
    | O => None
    | S fuel' =>
      match chooseDuration remaining config with
      | None => Some slots
      | Some slotDuration =>
        if slotDuration =? 0 then Some slots
        else
          let slot := buildSlot gapStart slotDuration in
          let slots' :=
            if startDate slot >=? now then (slots ++ [slot])%list else slots in
          let gapStart' := gapStart + slotDuration * 60000 in
          carveGap fuel' config now gapEnd gapStart'
                   (diffMinutes gapStart' gapEnd) slots'
      end
    end
  else Some slots.

(** [if (gapEnd > cursor) { ...carve... }] *)
Definition fillGap (fuel : nat) (config : FreeSlotConfig) (now : Z)
    (cursor gapEnd : Z) (slots : list SuggestedSlot)
    : option (list SuggestedSlot) :=
  if gapEnd >? cursor then
    carveGap fuel config now gapEnd cursor (diffMinutes cursor gapEnd) slots
  else Some slots.

(** Body of [todaysEvents.forEach]: the state is the day cursor and the
    slot array. *)
Definition eventStep (fuel : nat) (config : FreeSlotConfig) (now : Z)
    (st : Z * list SuggestedSlot) (event : BusyEvent)
    : option (Z * list SuggestedSlot) :=
  let '(cursor, slots) := st in
  let eventStart := event_startDate event in
  let eventEnd := event_endDate event in
  slots' <- fillGap fuel config now cursor eventStart slots ;;
  Some (if eventEnd >? cursor then eventEnd else cursor, slots').

Fixpoint forEachEvent (fuel : nat) (config : FreeSlotConfig) (now : Z)
    (events : list BusyEvent) (st : Z * list SuggestedSlot)
    : option (Z * list SuggestedSlot) :=
  match events with
  | [] => Some st
  | event :: rest =>
    st' <- eventStep fuel config now st event ;;
    forEachEvent fuel config now rest st'
  end.

Definition initialCursor (now windowStart dayOffset : Z) : Z :=
  if dayOffset =? 0 then Z.max now windowStart else windowStart.

Definition todaysEvents (busyEvents : list BusyEvent) (dayStart : Z)
    : list BusyEvent :=
  filter (fun event => isSameDay (event_startDate event) dayStart) busyEvents.

(** One iteration of the loop over [dayOffset]. *)
Definition scanDay (fuel : nat) (busyEvents : list BusyEvent)
    (config : FreeSlotConfig) (now dayOffset : Z) (slots : list SuggestedSlot)
    : option (list SuggestedSlot) :=
  let dayStart := startOfDay (addDays now dayOffset) in
  let windowStart := setHour dayStart (dayStartHour config) in
  let windowEnd := setHour dayStart (dayEndHour config) in
  let cursor := initialCursor now windowStart dayOffset in
  st <- forEachEvent fuel config now (todaysEvents busyEvents dayStart)
                     (cursor, slots) ;;
  fillGap fuel config now (fst st) windowEnd (snd st).

(** [for (dayOffset = start; dayOffset < config.days; dayOffset += 1)], with
    [n] iterations left. *)
Fixpoint scanDays (fuel : nat) (busyEvents : list BusyEvent)
    (config : FreeSlotConfig) (now : Z) (n : nat) (dayOffset : Z)
    (slots : list SuggestedSlot) : option (list SuggestedSlot) :=
  match n with
  | O => Some slots
  | S n' =>
    slots' <- scanDay fuel busyEvents config now dayOffset slots ;;
    scanDays fuel busyEvents config now n' (dayOffset + 1) slots'
  end.

(** [findFreeSlots(busyEvents, config)].  The source takes no [now]: it reads
    the clock itself ([const now = new Date()]), so the result is a
    [Clocked] value. *)
Definition findFreeSlots (fuel : nat) (busyEvents : list BusyEvent)
    (config : FreeSlotConfig) : Clocked (option (list SuggestedSlot)) :=
  fun now =>
    slots <- scanDays fuel busyEvents config now (Z.to_nat (days config)) 0 [] ;;
    Some (firstn 10 slots).

Definition hasConflict (busyEvents : list BusyEvent) (start end_ : Z) : bool :=
  existsb
    (fun event =>
       rangesOverlap start end_ (event_startDate event) (event_endDate event))
    busyEvents.

(** *** The callers' sort, [[...busy].sort((a, b) => a.start - b.start)]
    ([Array.prototype.sort] is stable). *)

Fixpoint insertByStart (event : BusyEvent) (sorted : list BusyEvent)
    : list BusyEvent :=
  match sorted with
  | [] => [event]
  | e :: rest =>
    if event_startDate event <=? event_startDate e then event :: sorted
    else e :: insertByStart event rest
  end.

Fixpoint sortByStart (events : list BusyEvent) : list BusyEvent :=
  match events with
  | [] => []
  | e :: rest => insertByStart e (sortByStart rest)
  end.

(** *** Slot selection of [syncCalendar] (HomeScreen.tsx) *)

Definition minStartOf (now : Z) : Z :=
  now + MIN_FUTURE_BUFFER_MINUTES * 60 * 1000.

(** [new Date(y, m, d, 0, 0, 0, 0)] and [new Date(y, m, d, 23, 59, 59, 999)] *)
Definition startOfToday (now : Z) : Z := startOfDay now.
Definition endOfToday (now : Z) : Z := startOfDay now + MS_PER_DAY - 1.

Definition filterToday (free : list SuggestedSlot) (now : Z)
    : list SuggestedSlot :=
  filter
    (fun slot =>
       (startDate slot >=? minStartOf now)
       && (startDate slot >=? startOfToday now)
       && (endDate slot <=? endOfToday now))
    free.

Definition fallbackSlot (now duration : Z) : SuggestedSlot :=
  {| id := (showNumber (minStartOf now) ++ "-fallback")%string;
     startDate := minStartOf now;
     endDate := minStartOf now + duration * 60000;
     durationMinutes := duration;
     status := available |}.

(** [if (!filtered.length) { ... }] *)
Definition applyFallback (filtered : list SuggestedSlot) (now : Z)
    : list SuggestedSlot :=
  match filtered with
  | [] =>
    let minutesLeft := (endOfToday now - minStartOf now) / 60000 in
    let duration := Z.max 0 (Z.min 30 minutesLeft) in
    if duration >=? 15 then [fallbackSlot now duration] else filtered
  | _ :: _ => filtered
  end.

(** The slots [syncCalendar] goes on to bucket, from the free slots found
    and its own, later reading of the clock. *)
Definition selectTodaysSlots (free : list SuggestedSlot)
    : Clocked (list SuggestedSlot) :=
  fun now => applyFallback (filterToday free now) now.

(** *** The rest of [syncCalendar]: dayparts *)

Definition getHours (date : Z) : Z := ((date + tz) mod MS_PER_DAY) / MS_PER_HOUR.

Definition getMinutes (date : Z) : Z :=
  ((date + tz) mod MS_PER_HOUR) / MS_PER_MINUTE.

Inductive Daypart : Type :=
| morning
| afternoon
| evening.

Definition MORNING_END : Z := 12.
Definition AFTERNOON_END : Z := 18.

Definition bucketOf (slot : SuggestedSlot) : Daypart :=
  let hour := getHours (startDate slot) in
  if hour <? MORNING_END then morning
  else if hour <? AFTERNOON_END then afternoon
  else evening.

Definition inDaypart (part : Daypart) (slot : SuggestedSlot) : bool :=
  match bucketOf slot, part with
  | morning, morning | afternoon, afternoon | evening, evening => true
  | _, _ => false
  end.

(** The accumulator of the [reduce]: one array per daypart. *)
Record Buckets : Type := mkBuckets {
  inMorning : list SuggestedSlot;
  inAfternoon : list SuggestedSlot;
  inEvening : list SuggestedSlot
}.

Definition pushBucket (acc : Buckets) (slot : SuggestedSlot) : Buckets :=
  match bucketOf slot with
  | morning =>
    {| inMorning := (inMorning acc ++ [slot])%list;
       inAfternoon := inAfternoon acc; inEvening := inEvening acc |}
  | afternoon =>
    {| inMorning := inMorning acc;
       inAfternoon := (inAfternoon acc ++ [slot])%list;
       inEvening := inEvening acc |}
  | evening =>
    {| inMorning := inMorning acc; inAfternoon := inAfternoon acc;
       inEvening := (inEvening acc ++ [slot])%list |}
  end.

Definition byBucket (filtered : list SuggestedSlot) : Buckets :=
  fold_left pushBucket filtered
            {| inMorning := []; inAfternoon := []; inEvening := [] |}.

(** [[...morning.slice(0, 2), ...afternoon.slice(0, 2), ...evening.slice(0, 2)]] *)
Definition condense (filtered : list SuggestedSlot) : list SuggestedSlot :=
  let buckets := byBucket filtered in
  (firstn 2 (inMorning buckets) ++ firstn 2 (inAfternoon buckets)
   ++ firstn 2 (inEvening buckets))%list.

(** The slots [syncCalendar] hands to [setSlots] once permission is granted
    and the events are fetched, from the fetched events and its two
    readings of the clock: the one inside [findFreeSlots] and its own, later
    one.  [syncCalendar] below has the branches before that. *)
Definition syncCalendarSlots (fuel : nat) (busy : list BusyEvent)
    (clock1 clock2 : Z) : option (list SuggestedSlot) :=
  let sortedEvents := sortByStart busy in
  free <- findFreeSlots fuel sortedEvents CALENDAR_CONFIG clock1 ;;
  Some (condense (selectTodaysSlots free clock2)).

(** What a run of [syncCalendar] leaves on the screen: the permission
    error, the error of its [catch] branch, or the slots it hands to
    [setSlots]. *)
Inductive SyncOutcome : Type :=
| errorPermissionsDenied
| errorUnableToSync
| slotsSet (slots : list SuggestedSlot).

(** [syncCalendar()].  [permitted] is what [ensurePermissions] resolves to
    and [fetched] what [fetchBusyEvents] resolves to, [None] when the call
    rejects, which lands in the [catch] branch; without permission the
    function returns before it fetches. *)
Definition syncCalendar (fuel : nat) (permitted : option bool)
    (fetched : option (list BusyEvent)) (clock1 clock2 : Z)
    : option SyncOutcome :=
  match permitted with
  | None => Some errorUnableToSync
  | Some false => Some errorPermissionsDenied
  | Some true =>
    match fetched with
    | None => Some errorUnableToSync
    | Some busy =>
      slots <- syncCalendarSlots fuel busy clock1 clock2 ;;
      Some (slotsSet slots)
    end
  end.

(** *** The suggestion card (ScheduleSuggestions) *)

(** The slot a card passes to [onAdd], with the duration picked on the card:
    [{...slot, durationMinutes, endDate: start + duration * 60000}]. *)
Definition withDuration (slot : SuggestedSlot) (selectedDuration : Z)
    : SuggestedSlot :=
  {| id := id slot;
     startDate := startDate slot;
     endDate := startDate slot + selectedDuration * 60000;
     durationMinutes := selectedDuration;
     status := status slot |}.

(** *** Adding and moving a slot (HomeScreen) *)

(** Truthiness of an optional string: defined and not empty. *)
Definition truthy (value : option string) : bool :=
  match value with
  | Some text => negb (String.eqb text EmptyString)
  | None => false
  end.

(** What [handleAddSlot] ends up doing: one of its alerts, or the call of
    [addWellnessEvent]. *)
Inductive AddOutcome : Type :=
| alertAlreadyAdded
| alertChooseExercise
| alertTooLate
| alertTodayOnly
| alertConflict
| callAddWellnessEvent.

(** [handleAddSlot(slot, exercise)]; [addedId] is
    [addedEventIdsBySlot[slot.id]] and [busyEvents] the state of the screen. *)
Definition handleAddSlot (addedId : option string)
    (busyEvents : list BusyEvent) (slot : SuggestedSlot)
    (exercise : option string) : Clocked AddOutcome :=
  fun now =>
    let start := startDate slot in
    let end_ := endDate slot in
    if truthy addedId then alertAlreadyAdded
    else if negb (truthy exercise) then alertChooseExercise
    else if start <? now then alertTooLate
    else if (start <? startOfToday now) || (end_ >? endOfToday now)
         then alertTodayOnly
    else if hasConflict busyEvents start end_ then alertConflict
    else callAddWellnessEvent.

(** [date.setHours(hours, minutes, 0, 0)] *)
Definition setHoursMinutes (date hours minutes : Z) : Z :=
  startOfDay date + hours * MS_PER_HOUR + minutes * MS_PER_MINUTE.

Inductive PickOutcome : Type :=
| pickIgnored
| pickDismissed
| alertFutureValidation
| alertPickAlreadyAdded
| alertPickConflict
| slotsUpdated (slots : list SuggestedSlot).

(** [handleTimePicked(_event, date)]: [existing] is
    [addedEventIdsBySlot[editingSlot.id]], [prev] the slots on screen. *)
Definition handleTimePicked (editingSlot : option SuggestedSlot)
    (date : option Z) (existing : option string)
    (busyEvents : list BusyEvent) (prev : list SuggestedSlot)
    : Clocked PickOutcome :=
  fun now =>
    match editingSlot with
    | None => pickIgnored
    | Some editing =>
      match date with
      | None => pickDismissed
      | Some picked =>
        let newStart :=
          setHoursMinutes (startDate editing) (getHours picked)
                          (getMinutes picked) in
        let newEnd := newStart + durationMinutes editing * 60000 in
        if newStart <? now then alertFutureValidation
        else if truthy existing then alertPickAlreadyAdded
        else if hasConflict busyEvents newStart newEnd then alertPickConflict
        else
          let updatedSlot :=
            {| id := id editing; startDate := newStart; endDate := newEnd;
               durationMinutes := durationMinutes editing;
               status := status editing |} in
          slotsUpdated
            (map (fun s => if String.eqb (id s) (id editing)
                           then updatedSlot else s) prev)
      end
    end.

(** *** Moods and exercises ([types/mood.ts]) *)

Inductive MoodKey : Type :=
| Calm
| Stressed
| Energetic.

(** [MOOD_THEMES[key].exercises] *)
Definition exercisesOf (key : MoodKey) : list string :=
  match key with
  | Calm => ["Breathwork"; "Light Stretch"; "Calm Walk"]%string
  | Stressed => ["Box Breathing"; "Slow Walk"; "Neck Release"]%string
  | Energetic => ["HIIT Burst"; "Dance Break"; "Power Walk"]%string
  end.

(** [Object.keys(MOOD_THEMES)], in insertion order. *)
Definition MOOD_KEYS : list MoodKey := [Calm; Stressed; Energetic].

(** [exercises.includes(exercise)] *)
Definition listsExercise (exercise : string) (key : MoodKey) : bool :=
  existsb (String.eqb exercise) (exercisesOf key).

(** [moodForExercise] of HomeScreen; [mood] is the mood on screen. *)
Definition moodForExercise (mood : MoodKey) (exercise : option string)
    : MoodKey :=
  match exercise with
  | Some name =>
    if String.eqb name EmptyString then mood
    else match find (listsExercise name) MOOD_KEYS with
         | Some key => key
         | None => mood
         end
  | None => mood
  end.

(** [deriveMoodFromExercise] of BusyList. *)
Definition deriveMoodFromExercise (mood : MoodKey) (exercise : option string)
    (fallbackMood : option MoodKey) : MoodKey :=
  let fallback := match fallbackMood with Some m => m | None => mood end in
  match exercise with
  | Some name =>
    if String.eqb name EmptyString then fallback
    else match find (listsExercise name) MOOD_KEYS with
         | Some key => key
         | None => fallback
         end
  | None => fallback
  end.

(** *** Choosing the calendar to write to ([addWellnessEvent]) *)

Record Calendar : Type := mkCalendar {
  calendar_id : string;
  allowsModifications : option bool;
  isPrimary : option bool
}.

(** [cal.allowsModifications !== false] *)
Definition modifiable (cal : Calendar) : bool :=
  match allowsModifications cal with
  | Some false => false
  | _ => true
  end.

Definition primary (cal : Calendar) : bool :=
  match isPrimary cal with
  | Some true => true
  | _ => false
  end.

(** [calendars.find(writable && primary) || calendars.find(writable)] *)
Definition writableCalendar (calendars : list Calendar) : option Calendar :=
  match find (fun cal => modifiable cal && primary cal) calendars with
  | Some cal => Some cal
  | None => find modifiable calendars
  end.

(** The [calendarId] the saved details end up with, if any.  [calendars] is
    what [findCalendars()] resolves to, [None] when it throws. *)
Definition targetCalendarId (calendarId : option string)
    (calendars : option (list Calendar)) : option string :=
  let target :=
    if truthy calendarId then calendarId
    else match calendars with
         | Some found =>
           match writableCalendar found with
           | Some cal => Some (calendar_id cal)
           | None => calendarId
           end
         | None => calendarId
         end in
  if truthy target then target else None.

(** *** Event notes and their metadata line *)

(** Text that the code splits, trims and searches: a sequence of UTF-16
    code units. *)
Definition jsText : Type := list N.

Definition lit (text : string) : jsText :=
  map N_of_ascii (list_ascii_of_string text).

Definition EVENT_TITLE : jsText := lit "Wellness reset".
Definition EVENT_NOTES : jsText :=
  lit "Scheduled via Wellness app. Adjust or move as needed for your day.".
Definition META_PREFIX : jsText := lit "WellnessMeta:".

Definition LINE_FEED : N := 10%N.

(** White space and line terminators, as [String.prototype.trim] strips
    them. *)
Definition isWhiteSpace (c : N) : bool :=
  existsb (N.eqb c)
          [9; 10; 11; 12; 13; 32; 160; 5760; 8232; 8233; 8239; 8287; 12288;
           65279]%N
  || ((8192 <=? c)%N && (c <=? 8202)%N).

Fixpoint trimStart (text : jsText) : jsText :=
  match text with
  | [] => []
  | c :: rest => if isWhiteSpace c then trimStart rest else text
  end.

Definition trimEnd (text : jsText) : jsText := rev (trimStart (rev text)).

Definition trim (text : jsText) : jsText := trimEnd (trimStart text).

Fixpoint startsWith (prefix text : jsText) : bool :=
  match prefix, text with
  | [], _ => true
  | _ :: _, [] => false
  | p :: prefix', c :: text' => N.eqb p c && startsWith prefix' text'
  end.

(** [a === b] on texts *)
Fixpoint textEq (a b : jsText) : bool :=
  match a, b with
  | [], [] => true
  | x :: a', y :: b' => N.eqb x y && textEq a' b'
  | _, _ => false
  end.

(** [text.includes(needle)] *)
Fixpoint includes (needle text : jsText) : bool :=
  startsWith needle text
  || match text with
     | [] => false
     | _ :: rest => includes needle rest
     end.

(** [text.replace(pattern, replacement)] with a string pattern: the first
    occurrence only. *)
Fixpoint replaceFirst (pattern replacement text : jsText) : jsText :=
  if startsWith pattern text
  then (replacement ++ skipn (List.length pattern) text)%list
  else match text with
       | [] => []
       | c :: rest => c :: replaceFirst pattern replacement rest
       end.

(** [text.split('\n')] *)
Fixpoint splitLines (text : jsText) : list jsText :=
  match text with
  | [] => [[]]
  | c :: rest =>
    if N.eqb c LINE_FEED then [] :: splitLines rest
    else match splitLines rest with
         | line :: lines => (c :: line) :: lines
         | [] => [[c]]
         end
  end.

(** [parts.join('\n')] *)
Fixpoint joinLines (parts : list jsText) : jsText :=
  match parts with
  | [] => []
  | [part] => part
  | part :: rest => (part ++ LINE_FEED :: joinLines rest)%list
  end.

(** [filter(Boolean)] on optional texts: the defined, non-empty ones. *)
Fixpoint definedTexts (parts : list (option jsText)) : list jsText :=
  match parts with
  | [] => []
  | Some (c :: text) :: rest => (c :: text) :: definedTexts rest
  | _ :: rest => definedTexts rest
  end.

(** The object [parseMeta] returns and [addWellnessEvent] serializes. *)
Record WellnessMeta : Type := mkWellnessMeta {
  meta_exercise : option string;
  meta_exerciseMood : option string;
  meta_slotId : option string;
  meta_userMood : option string
}.

(** A calendar event as [fetchAllEvents] returns it. *)
Record CalendarEvent : Type := mkCalendarEvent {
  raw_id : string;
  raw_startDate : Z;
  raw_endDate : option Z;
  raw_title : jsText;
  raw_notes : option jsText;
  raw_description : option jsText
}.

(** A [BusyEvent] with the optional metadata fields of the source type. *)
Record FetchedEvent : Type := mkFetchedEvent {
  busyEvent : BusyEvent;
  fetched_slotId : option string;
  fetched_exercise : option string;
  fetched_exerciseMood : option string;
  fetched_userMood : option string
}.

Section Json.

(** [JSON.stringify] on a metadata object, and [JSON.parse] read through
    the four metadata fields: [None] when it throws or yields a falsy
    value. *)
Variable jsonStringify : WellnessMeta -> jsText.
Variable jsonParse : jsText -> option WellnessMeta.

(** The [meta] line of [addWellnessEvent], if any field is set. *)
Definition metaLine (meta : WellnessMeta) : option jsText :=
  if truthy (meta_exercise meta) || truthy (meta_exerciseMood meta)
     || truthy (meta_slotId meta) || truthy (meta_userMood meta)
  then Some (META_PREFIX ++ jsonStringify meta)%list
  else None.

(** [[notes ?? EVENT_NOTES, meta].filter(Boolean).join('\n')] *)
Definition mergedNotes (notes : option jsText) (meta : WellnessMeta)
    : jsText :=
  let base := match notes with Some text => text | None => EVENT_NOTES end in
  joinLines (definedTexts [Some base; metaLine meta]).

Definition parseMeta (notes : option jsText) : option WellnessMeta :=
  match notes with
  | None => None
  | Some [] => None
  | Some text =>
    match find (startsWith META_PREFIX) (map trim (splitLines text)) with
    | None => None
    | Some line => jsonParse (trim (replaceFirst META_PREFIX [] line))
    end
  end.

(** The callback of [events.map] in [fetchBusyEvents]. *)
Definition toBusyEvent (event : CalendarEvent) : FetchedEvent :=
  let meta :=
    parseMeta (match raw_notes event with
               | Some text => Some text
               | None => raw_description event
               end) in
  let isApp :=
    textEq (raw_title event) EVENT_TITLE
    || match raw_notes event with
       | Some text => includes (lit "Wellness app") text
       | None => false
       end
    || match meta with Some _ => true | None => false end in
  {| busyEvent :=
       {| event_id := raw_id event;
          event_startDate := raw_startDate event;
          event_endDate := match raw_endDate event with
                           | Some ends => ends
                           | None => raw_startDate event
                           end;
          isAppCreated := isApp |};
     fetched_slotId := match meta with Some m => meta_slotId m | None => None end;
     fetched_exercise :=
       match meta with Some m => meta_exercise m | None => None end;
     fetched_exerciseMood :=
       match meta with Some m => meta_exerciseMood m | None => None end;
     fetched_userMood :=
       match meta with Some m => meta_userMood m | None => None end |}.

End Json.

(** *** Which slots are already in the calendar (HomeScreen) *)

(** The writes of the [reduce], latest first: one pair for every event
    that is app-created and has a truthy slot id.  [getAdded] looks a key
    up among them; [readAdded] below reads a key as the object does, with
    what it inherits from [Object.prototype]. *)
Definition addedEventIdsBySlot (busyEvents : list FetchedEvent)
    : list (string * string) :=
  fold_left
    (fun acc event =>
       if isAppCreated (busyEvent event) && truthy (fetched_slotId event)
       then match fetched_slotId event with
            | Some key => (key, event_id (busyEvent event)) :: acc
            | None => acc
            end
       else acc)
    busyEvents [].

(** The value last written under [key], if any: [addedEventIdsBySlot[key]]
    at every key that names no property of [Object.prototype]. *)
Fixpoint getAdded (acc : list (string * string)) (key : string)
    : option string :=
  match acc with
  | [] => None
  | (k, value) :: rest =>
    if String.eqb key k then Some value else getAdded rest key
  end.

(** The property names of [Object.prototype], which the object literal
    [{}] inherits (ECMAScript, with the legacy names of its Annex B). *)
Definition OBJECT_PROTOTYPE_NAMES : list string :=
  ["constructor"; "hasOwnProperty"; "isPrototypeOf"; "propertyIsEnumerable";
   "toLocaleString"; "toString"; "valueOf"; "__proto__";
   "__defineGetter__"; "__defineSetter__"; "__lookupGetter__";
   "__lookupSetter__"]%string.

(** What reading a property of the object gives: the event id written
    under that name, a function or object inherited from the prototype, or
    [undefined]. *)
Inductive PropertyRead : Type :=
| readId (eventId : string)
| readInherited
| readUndefined.

(** [addedEventIdsBySlot[key]] on the object the [reduce] builds from [{}].
    An assignment of a string under ["__proto__"] calls the inherited
    setter, which ignores it and leaves no own property, so that name always
    reads as the prototype; under every other name the assignment makes an
    own property, which a read finds before an inherited one. *)
Definition readAdded (busyEvents : list FetchedEvent) (key : string)
    : PropertyRead :=
  if String.eqb key "__proto__" then readInherited
  else match getAdded (addedEventIdsBySlot busyEvents) key with
       | Some eventId => readId eventId
       | None =>
         if existsb (String.eqb key) OBJECT_PROTOTYPE_NAMES
         then readInherited else readUndefined
       end.

(** Truthiness of what was read: objects and functions are truthy, a string
    unless it is empty. *)
Definition truthyRead (value : PropertyRead) : bool :=
  match value with
  | readId eventId => negb (String.eqb eventId EmptyString)
  | readInherited => true
  | readUndefined => false
  end.

(** *** A metadata object and its JSON text, for the examples *)

Definition exampleMeta : WellnessMeta :=
  {| meta_exercise := Some "Breathwork"%string;
     meta_exerciseMood := Some "Calm"%string;
     meta_slotId := Some "1767250800000-30"%string;
     meta_userMood := None |}.

Definition quoted (text : string) : jsText := (34%N :: lit text ++ [34%N])%list.

(** The text [JSON.stringify] gives for [exampleMeta]. *)
Definition exampleJson : jsText :=
  (lit "{" ++ quoted "exercise" ++ lit ":" ++ quoted "Breathwork" ++ lit ","
   ++ quoted "exerciseMood" ++ lit ":" ++ quoted "Calm" ++ lit ","
   ++ quoted "slotId" ++ lit ":" ++ quoted "1767250800000-30" ++ lit "}")%list.

(** [JSON.stringify] and [JSON.parse] as far as the examples go: on
    [exampleMeta] and its text. *)
Definition exampleStringify (meta : WellnessMeta) : jsText := exampleJson.

Definition exampleParse (text : jsText) : option WellnessMeta :=
  if textEq text exampleJson then Some exampleMeta else None.

(** The event is app-created and carries [key] as its slot id. *)
Definition carriesSlot (key : string) (event : FetchedEvent) : bool :=
  isAppCreated (busyEvent event) && truthy (fetched_slotId event)
  && match fetched_slotId event with
     | Some k => String.eqb key k
     | None => false
     end.

(** ** Well-formed configurations *)

(** The precondition the specification puts on a [FreeSlotConfig]. *)
Definition WellFormed (config : FreeSlotConfig) : Prop :=
  0 < minMinutes config /\ 0 < maxMinutes config
  /\ minMinutes config <= maxMinutes config
  /\ dayStartHour config < dayEndHour config
  /\ 0 <= days config.

(** Hours that stay inside the calendar day. *)
Definition HoursWithinDay (config : FreeSlotConfig) : Prop :=
  0 <= dayStartHour config /\ dayEndHour config <= 24.

Definition wholeMinute (instant : Z) : Prop := instant mod MS_PER_MINUTE = 0.

(** The order [fetchBusyEvents] and [syncCalendar] put the events in. *)
Definition sortedByStart (events : list BusyEvent) : Prop :=
  StronglySorted
    (fun a b => event_startDate a <= event_startDate b) events.

(** The event is over by the midnight that ends the day it starts on. *)
Definition endsWithinStartDay (b : BusyEvent) : Prop :=
  event_endDate b <= startOfDay (event_startDate b) + MS_PER_DAY.

(** The slot lies wholly before or wholly after the event. *)
Definition clearOf (s : SuggestedSlot) (b : BusyEvent) : Prop :=
  endDate s <= event_startDate b \/ event_endDate b <= startDate s.

(** The slots come one after the other: each has a positive length, ends
    no later than the next one starts, and none ends after [bound]. *)
Definition slotChain (slots : list SuggestedSlot) (bound : Z) : Prop :=
  StronglySorted (fun a b => endDate a <= startDate b) slots
  /\ Forall (fun s => startDate s < endDate s /\ endDate s <= bound) slots.

(** The event starts no later than the window of its own day ends. *)
Definition startsByWindowEnd (config : FreeSlotConfig) (b : BusyEvent)
    : Prop :=
  event_startDate b
  <= setHour (startOfDay (event_startDate b)) (dayEndHour config).

(** ** Basic facts *)

Lemma bind_Some {A B : Type} (m : option A) (k : A -> option B) (b : B) :
  bind m k = Some b -> exists a, m = Some a /\ k a = Some b.
Proof.
  destruct m as [a|]; simpl; intros H; [exists a; auto | discriminate].
Qed.

Lemma In_firstn {A : Type} (n : nat) (l : list A) (x : A) :
  In x (firstn n l) -> In x l.
Proof.
  intros Hx. rewrite <- (firstn_skipn n l). apply in_or_app. left. exact Hx.
Qed.

Lemma chooseDuration_Some (r d : Z) (config : FreeSlotConfig) :
  chooseDuration r config = Some d ->
  minMinutes config <= r
  /\ ((d = maxMinutes config /\ maxMinutes config <= r)
      \/ (d = minMinutes config /\ r < maxMinutes config)).
Proof.
  unfold chooseDuration.
  destruct (r <? minMinutes config) eqn:Hmin; [discriminate|].
  destruct (r >=? maxMinutes config) eqn:Hmax; intros [= <-]; lia.
Qed.

Lemma diffMinutes_nonneg (a b : Z) : 0 <= diffMinutes a b.
Proof. unfold diffMinutes. lia. Qed.

Lemma diffMinutes_advance (g gapEnd d : Z) :
  0 < diffMinutes g gapEnd ->
  diffMinutes (g + d * 60000) gapEnd = Z.max 0 (diffMinutes g gapEnd - d).
Proof.
  unfold diffMinutes, MS_PER_MINUTE. intros H.
  replace (gapEnd - (g + d * 60000) + 30000)
    with ((gapEnd - g + 30000) + (- d) * 60000) by ring.
  rewrite Z.div_add by lia. lia.
Qed.

Lemma diffMinutes_aligned (g gapEnd : Z) :
  (gapEnd - g) mod 60000 = 0 -> g <= gapEnd ->
  diffMinutes g gapEnd * 60000 = gapEnd - g.
Proof.
  unfold diffMinutes, MS_PER_MINUTE. intros Hmod Hle.
  pose proof (Z.div_mod (gapEnd - g) 60000 ltac:(lia)) as Hdm.
  rewrite Hmod in Hdm.
  set (k := (gapEnd - g) / 60000) in *.
  replace (gapEnd - g + 30000) with (30000 + k * 60000) by lia.
  rewrite Z.div_add by lia.
  replace (30000 / 60000) with 0 by reflexivity. lia.
Qed.

(** *** The carving loop: a generic invariant *)

Section CarveInvariant.

Variables (config : FreeSlotConfig) (now gapEnd : Z).
Variable P : Z -> Z -> Prop.
Variable Q : SuggestedSlot -> Prop.

Hypothesis step :
  forall g r d,
    P g r -> minMinutes config <= r ->
    chooseDuration r config = Some d -> d <> 0 ->
    (now <= g -> Q (buildSlot g d))
    /\ P (g + d * 60000) (diffMinutes (g + d * 60000) gapEnd).

Lemma carveGap_invariant (fuel : nat) :
  forall gapStart remaining slots slots',
    P gapStart remaining ->
    carveGap fuel config now gapEnd gapStart remaining slots = Some slots' ->
    exists new, slots' = (slots ++ new)%list /\ Forall Q new.
Proof.
  induction fuel as [|fuel IH]; intros gapStart remaining slots slots' HP; simpl.
  - destruct (_ && _); [discriminate|].
    intros [= <-]. exists []. rewrite app_nil_r. auto.
  - destruct ((remaining >=? minMinutes config)
                && Nat.ltb (List.length slots) 10) eqn:Hguard.
    2:{ intros [= <-]. exists []. rewrite app_nil_r. auto. }
    apply andb_prop in Hguard as [Hrem _].
    destruct (chooseDuration remaining config) as [d|] eqn:Hd.
    2:{ intros [= <-]. exists []. rewrite app_nil_r. auto. }
    destruct (d =? 0) eqn:Hd0.
    { intros [= <-]. exists []. rewrite app_nil_r. auto. }
    apply Z.eqb_neq in Hd0.
    destruct (step gapStart remaining d HP ltac:(lia) Hd Hd0) as [HQ HP'].
    intros Hrun. apply IH in Hrun; [|exact HP'].
    destruct Hrun as (new & -> & Hnew).
    destruct (gapStart >=? now) eqn:Hnow.
    + exists (buildSlot gapStart d :: new). rewrite <- app_assoc. simpl.
      split; [reflexivity|]. constructor; [apply HQ; lia | exact Hnew].
    + exists new. auto.
Qed.

End CarveInvariant.

(** The shared array never grows past ten entries inside a loop. *)
Lemma carveGap_length (fuel : nat) (config : FreeSlotConfig) (now gapEnd : Z) :
  forall gapStart remaining slots slots',
    (List.length slots <= 10)%nat ->
    carveGap fuel config now gapEnd gapStart remaining slots = Some slots' ->
    (List.length slots' <= 10)%nat.
Proof.
  induction fuel as [|fuel IH]; intros gapStart remaining slots slots' Hlen;
    simpl.
  - destruct (_ && _); [discriminate|]. intros [= <-]. exact Hlen.
  - destruct ((remaining >=? minMinutes config)
                && Nat.ltb (List.length slots) 10) eqn:Hguard.
    2:{ intros [= <-]. exact Hlen. }
    apply andb_prop in Hguard as [_ Hlt]. apply Nat.ltb_lt in Hlt.
    destruct (chooseDuration remaining config) as [d|].
    2:{ intros [= <-]. exact Hlen. }
    destruct (d =? 0). { intros [= <-]. exact Hlen. }
    apply IH.
    destruct (gapStart >=? now); [|exact Hlen].
    rewrite length_app. simpl. lia.
Qed.

(** A slot as the loop builds it: anchored at or after [now], with one of
    the two configured durations. *)
Definition carved (config : FreeSlotConfig) (now : Z) (s : SuggestedSlot)
    : Prop :=
  exists g d,
    s = buildSlot g d /\ now <= g
    /\ (d = minMinutes config \/ d = maxMinutes config).

Lemma carveGap_carved (fuel : nat) (config : FreeSlotConfig)
    (now gapEnd gapStart remaining : Z) (slots slots' : list SuggestedSlot) :
  carveGap fuel config now gapEnd gapStart remaining slots = Some slots' ->
  exists new, slots' = (slots ++ new)%list /\ Forall (carved config now) new.
Proof.
  apply (carveGap_invariant config now gapEnd (fun _ _ => True)); [|exact I].
  intros g r d _ _ Hd _. split; [|exact I].
  intros Hg. exists g, d. apply chooseDuration_Some in Hd. intuition.
Qed.

(** *** Lifting through the event walk and the day loop *)

Lemma fillGap_carved (fuel : nat) (config : FreeSlotConfig)
    (now cursor gapEnd : Z) (slots slots' : list SuggestedSlot) :
  fillGap fuel config now cursor gapEnd slots = Some slots' ->
  exists new, slots' = (slots ++ new)%list /\ Forall (carved config now) new.
Proof.
  unfold fillGap. destruct (gapEnd >? cursor).
  - apply carveGap_carved.
  - intros [= <-]. exists []. rewrite app_nil_r. auto.
Qed.

Lemma fillGap_length (fuel : nat) (config : FreeSlotConfig)
    (now cursor gapEnd : Z) (slots slots' : list SuggestedSlot) :
  (List.length slots <= 10)%nat ->
  fillGap fuel config now cursor gapEnd slots = Some slots' ->
  (List.length slots' <= 10)%nat.
Proof.
  unfold fillGap. intros Hlen. destruct (gapEnd >? cursor).
  - apply carveGap_length. exact Hlen.
  - intros [= <-]. exact Hlen.
Qed.

Lemma forEachEvent_carved (fuel : nat) (config : FreeSlotConfig) (now : Z)
    (events : list BusyEvent) :
  forall st st',
    forEachEvent fuel config now events st = Some st' ->
    exists new,
      snd st' = (snd st ++ new)%list /\ Forall (carved config now) new.
Proof.
  induction events as [|event rest IH]; intros st st'; simpl.
  - intros [= <-]. exists []. rewrite app_nil_r. auto.
  - intros Hrun. apply bind_Some in Hrun as (st1 & Hstep & Hrest).
    destruct st as [cursor slots]. unfold eventStep in Hstep.
    apply bind_Some in Hstep as (slots1 & Hfill & [= <-]).
    apply fillGap_carved in Hfill as (new1 & -> & Hnew1).
    apply IH in Hrest as (new2 & -> & Hnew2). simpl.
    exists (new1 ++ new2)%list. rewrite app_assoc. split; [reflexivity|].
    apply Forall_app. auto.
Qed.

Lemma forEachEvent_length (fuel : nat) (config : FreeSlotConfig) (now : Z)
    (events : list BusyEvent) :
  forall st st',
    (List.length (snd st) <= 10)%nat ->
    forEachEvent fuel config now events st = Some st' ->
    (List.length (snd st') <= 10)%nat.
Proof.
  induction events as [|event rest IH]; intros st st' Hlen; simpl.
  - intros [= <-]. exact Hlen.
  - intros Hrun. apply bind_Some in Hrun as (st1 & Hstep & Hrest).
    destruct st as [cursor slots]. unfold eventStep in Hstep.
    apply bind_Some in Hstep as (slots1 & Hfill & [= <-]).
    simpl in Hlen. eapply IH; [|exact Hrest]. simpl.
    apply (fillGap_length _ _ _ _ _ _ _ Hlen Hfill).
Qed.

Lemma scanDay_carved (fuel : nat) (busyEvents : list BusyEvent)
    (config : FreeSlotConfig) (now dayOffset : Z)
    (slots slots' : list SuggestedSlot) :
  scanDay fuel busyEvents config now dayOffset slots = Some slots' ->
  exists new, slots' = (slots ++ new)%list /\ Forall (carved config now) new.
Proof.
  unfold scanDay. intros Hrun.
  apply bind_Some in Hrun as (st & Hwalk & Hfill).
  apply forEachEvent_carved in Hwalk as (new1 & Hsnd & Hnew1).
  apply fillGap_carved in Hfill as (new2 & -> & Hnew2).
  simpl in Hsnd. rewrite Hsnd.
  exists (new1 ++ new2)%list. rewrite app_assoc. split; [reflexivity|].
  apply Forall_app. auto.
Qed.

Lemma scanDay_length (fuel : nat) (busyEvents : list BusyEvent)
    (config : FreeSlotConfig) (now dayOffset : Z)
    (slots slots' : list SuggestedSlot) :
  (List.length slots <= 10)%nat ->
  scanDay fuel busyEvents config now dayOffset slots = Some slots' ->
  (List.length slots' <= 10)%nat.
Proof.
  unfold scanDay. intros Hlen Hrun.
  apply bind_Some in Hrun as (st & Hwalk & Hfill).
  apply forEachEvent_length in Hwalk; [|exact Hlen].
  apply (fillGap_length _ _ _ _ _ _ _ Hwalk Hfill).
Qed.

Lemma scanDays_carved (fuel : nat) (busyEvents : list BusyEvent)
    (config : FreeSlotConfig) (now : Z) (n : nat) :
  forall dayOffset slots slots',
    scanDays fuel busyEvents config now n dayOffset slots = Some slots' ->
    exists new, slots' = (slots ++ new)%list /\ Forall (carved config now) new.
Proof.
  induction n as [|n IH]; intros dayOffset slots slots'; simpl.
  - intros [= <-]. exists []. rewrite app_nil_r. auto.
  - intros Hrun. apply bind_Some in Hrun as (slots1 & Hday & Hrest).
    apply scanDay_carved in Hday as (new1 & -> & Hnew1).
    apply IH in Hrest as (new2 & -> & Hnew2).
    exists (new1 ++ new2)%list. rewrite app_assoc. split; [reflexivity|].
    apply Forall_app. auto.
Qed.

Lemma scanDays_length (fuel : nat) (busyEvents : list BusyEvent)
    (config : FreeSlotConfig) (now : Z) (n : nat) :
  forall dayOffset slots slots',
    (List.length slots <= 10)%nat ->
    scanDays fuel busyEvents config now n dayOffset slots = Some slots' ->
    (List.length slots' <= 10)%nat.
Proof.
  induction n as [|n IH]; intros dayOffset slots slots' Hlen; simpl.
  - intros [= <-]. exact Hlen.
  - intros Hrun. apply bind_Some in Hrun as (slots1 & Hday & Hrest).
    apply (IH _ _ _ (scanDay_length _ _ _ _ _ _ _ Hlen Hday) Hrest).
Qed.

Lemma findFreeSlots_carved (fuel : nat) (busyEvents : list BusyEvent)
    (config : FreeSlotConfig) (now : Z) (slots : list SuggestedSlot) :
  findFreeSlots fuel busyEvents config now = Some slots ->
  Forall (carved config now) slots.
Proof.
  unfold findFreeSlots. generalize 10%nat. intros cap Hrun.
  apply bind_Some in Hrun as (all & Hscan & [= <-]).
  apply scanDays_carved in Hscan as (new & -> & Hnew).
  rewrite app_nil_l. apply Forall_forall. intros s Hs. apply In_firstn in Hs.
  revert s Hs. apply Forall_forall. exact Hnew.
Qed.

(** *** Fuel: more of it never changes a result *)

Lemma carveGap_fuel_mono (config : FreeSlotConfig) (now gapEnd : Z)
    (fuel : nat) :
  forall fuel' gapStart remaining slots slots',
    (fuel <= fuel')%nat ->
    carveGap fuel config now gapEnd gapStart remaining slots = Some slots' ->
    carveGap fuel' config now gapEnd gapStart remaining slots = Some slots'.
Proof.
  induction fuel as [|fuel IH]; intros fuel' gapStart remaining slots slots' Hle.
  - simpl. destruct ((remaining >=? minMinutes config)
                       && Nat.ltb (List.length slots) 10) eqn:Hguard;
      [discriminate|].
    intros [= <-]. destruct fuel'; simpl; rewrite Hguard; reflexivity.
  - destruct fuel' as [|fuel']; [lia|]. simpl.
    destruct (_ && _); [|auto].
    destruct (chooseDuration remaining config) as [d|]; [|auto].
    destruct (d =? 0); [auto|].
    apply IH. lia.
Qed.

Lemma fillGap_fuel_mono (config : FreeSlotConfig) (now cursor gapEnd : Z)
    (fuel fuel' : nat) (slots slots' : list SuggestedSlot) :
  (fuel <= fuel')%nat ->
  fillGap fuel config now cursor gapEnd slots = Some slots' ->
  fillGap fuel' config now cursor gapEnd slots = Some slots'.
Proof.
  unfold fillGap. intros Hle. destruct (gapEnd >? cursor); [|auto].
  apply carveGap_fuel_mono. exact Hle.
Qed.

Lemma forEachEvent_fuel_mono (config : FreeSlotConfig) (now : Z)
    (fuel fuel' : nat) (events : list BusyEvent) :
  (fuel <= fuel')%nat ->
  forall st st',
    forEachEvent fuel config now events st = Some st' ->
    forEachEvent fuel' config now events st = Some st'.
Proof.
  intros Hle. induction events as [|event rest IH]; intros st st'; simpl;
    [auto|].
  intros Hrun. apply bind_Some in Hrun as (st1 & Hstep & Hrest).
  destruct st as [cursor slots]. unfold eventStep in *.
  apply bind_Some in Hstep as (slots1 & Hfill & [= <-]).
  rewrite (fillGap_fuel_mono _ _ _ _ _ _ _ _ Hle Hfill). simpl.
  apply IH. exact Hrest.
Qed.

Lemma scanDay_fuel_mono (busyEvents : list BusyEvent)
    (config : FreeSlotConfig) (now dayOffset : Z) (fuel fuel' : nat)
    (slots slots' : list SuggestedSlot) :
  (fuel <= fuel')%nat ->
  scanDay fuel busyEvents config now dayOffset slots = Some slots' ->
  scanDay fuel' busyEvents config now dayOffset slots = Some slots'.
Proof.
  unfold scanDay. intros Hle Hrun.
  apply bind_Some in Hrun as (st & Hwalk & Hfill).
  rewrite (forEachEvent_fuel_mono _ _ _ _ _ Hle _ _ Hwalk). simpl.
  apply (fillGap_fuel_mono _ _ _ _ _ _ _ _ Hle Hfill).
Qed.

Lemma scanDays_fuel_mono (busyEvents : list BusyEvent)
    (config : FreeSlotConfig) (now : Z) (fuel fuel' : nat) (n : nat) :
  (fuel <= fuel')%nat ->
  forall dayOffset slots slots',
    scanDays fuel busyEvents config now n dayOffset slots = Some slots' ->
    scanDays fuel' busyEvents config now n dayOffset slots = Some slots'.
Proof.
  intros Hle. induction n as [|n IH]; intros dayOffset slots slots'; simpl;
    [auto|].
  intros Hrun. apply bind_Some in Hrun as (slots1 & Hday & Hrest).
  rewrite (scanDay_fuel_mono _ _ _ _ _ _ _ _ Hle Hday). simpl.
  apply IH. exact Hrest.
Qed.

Lemma findFreeSlots_fuel_mono (busyEvents : list BusyEvent)
    (config : FreeSlotConfig) (now : Z) (fuel fuel' : nat)
    (slots : list SuggestedSlot) :
  (fuel <= fuel')%nat ->
  findFreeSlots fuel busyEvents config now = Some slots ->
  findFreeSlots fuel' busyEvents config now = Some slots.
Proof.
  unfold findFreeSlots. intros Hle Hrun.
  apply bind_Some in Hrun as (all & Hscan & Hout).
  rewrite (scanDays_fuel_mono _ _ _ _ _ _ Hle _ _ _ Hscan). exact Hout.
Qed.

Lemma findFreeSlots_fuel_irrelevant (busyEvents : list BusyEvent)
    (config : FreeSlotConfig) (now : Z) (fuel1 fuel2 : nat)
    (slots1 slots2 : list SuggestedSlot) :
  findFreeSlots fuel1 busyEvents config now = Some slots1 ->
  findFreeSlots fuel2 busyEvents config now = Some slots2 ->
  slots1 = slots2.
Proof.
  intros H1 H2.
  apply (findFreeSlots_fuel_mono _ _ _ _ (Nat.max fuel1 fuel2)) in H1; [|lia].
  apply (findFreeSlots_fuel_mono _ _ _ _ (Nat.max fuel1 fuel2)) in H2; [|lia].
  congruence.
Qed.

(** *** Termination of the loops under positive durations *)

Lemma carveGap_total (config : FreeSlotConfig) (now gapEnd : Z) :
  0 < minMinutes config -> 0 < maxMinutes config ->
  forall fuel gapStart slots,
    (Z.to_nat (diffMinutes gapStart gapEnd) <= fuel)%nat ->
    exists slots',
      carveGap fuel config now gapEnd gapStart (diffMinutes gapStart gapEnd)
               slots = Some slots'.
Proof.
  intros Hmin Hmax.
  induction fuel as [|fuel IH]; intros gapStart slots Hfuel; simpl.
  - destruct (diffMinutes gapStart gapEnd >=? minMinutes config) eqn:Hrem;
      simpl; [|eauto].
    apply Z.geb_le in Hrem. lia.
  - destruct ((diffMinutes gapStart gapEnd >=? minMinutes config)
                && Nat.ltb (List.length slots) 10) eqn:Hguard; [|eauto].
    apply andb_prop in Hguard as [Hrem _]. apply Z.geb_le in Hrem.
    destruct (chooseDuration _ config) as [d|] eqn:Hd; [|eauto].
    destruct (d =? 0); [eauto|].
    apply IH.
    rewrite diffMinutes_advance by lia.
    apply chooseDuration_Some in Hd. lia.
Qed.

Lemma fillGap_total (config : FreeSlotConfig) (now cursor gapEnd : Z)
    (slots : list SuggestedSlot) :
  0 < minMinutes config -> 0 < maxMinutes config ->
  exists fuel slots', fillGap fuel config now cursor gapEnd slots = Some slots'.
Proof.
  intros Hmin Hmax. unfold fillGap.
  exists (Z.to_nat (diffMinutes cursor gapEnd)).
  destruct (gapEnd >? cursor); [|eauto].
  apply carveGap_total; auto.
Qed.

Lemma forEachEvent_total (config : FreeSlotConfig) (now : Z)
    (events : list BusyEvent) :
  0 < minMinutes config -> 0 < maxMinutes config ->
  forall st, exists fuel st', forEachEvent fuel config now events st = Some st'.
Proof.
  intros Hmin Hmax.
  induction events as [|event rest IH]; intros st; simpl.
  - exists O. eauto.
  - destruct st as [cursor slots].
    destruct (fillGap_total config now cursor (event_startDate event) slots
                Hmin Hmax) as (fuel1 & slots1 & Hfill).
    destruct (IH (if event_endDate event >? cursor
                  then event_endDate event else cursor, slots1))
      as (fuel2 & st' & Hrest).
    exists (Nat.max fuel1 fuel2), st'. unfold eventStep.
    rewrite (fillGap_fuel_mono _ _ _ _ fuel1 _ _ _ (Nat.le_max_l _ _) Hfill).
    simpl.
    apply (forEachEvent_fuel_mono _ _ fuel2); [lia | exact Hrest].
Qed.

Lemma scanDay_total (busyEvents : list BusyEvent) (config : FreeSlotConfig)
    (now dayOffset : Z) (slots : list SuggestedSlot) :
  0 < minMinutes config -> 0 < maxMinutes config ->
  exists fuel slots',
    scanDay fuel busyEvents config now dayOffset slots = Some slots'.
Proof.
  intros Hmin Hmax. unfold scanDay.
  set (dayStart := startOfDay (addDays now dayOffset)).
  destruct (forEachEvent_total config now (todaysEvents busyEvents dayStart)
              Hmin Hmax
              (initialCursor now (setHour dayStart (dayStartHour config))
                             dayOffset, slots))
    as (fuel1 & st & Hwalk).
  destruct (fillGap_total config now (fst st)
              (setHour dayStart (dayEndHour config)) (snd st) Hmin Hmax)
    as (fuel2 & slots' & Hfill).
  exists (Nat.max fuel1 fuel2), slots'.
  rewrite (forEachEvent_fuel_mono _ _ fuel1 _ _ (Nat.le_max_l _ _) _ _ Hwalk).
  simpl.
  apply (fillGap_fuel_mono _ _ _ _ fuel2); [lia | exact Hfill].
Qed.

Lemma scanDays_total (busyEvents : list BusyEvent) (config : FreeSlotConfig)
    (now : Z) (n : nat) :
  0 < minMinutes config -> 0 < maxMinutes config ->
  forall dayOffset slots,
    exists fuel slots',
      scanDays fuel busyEvents config now n dayOffset slots = Some slots'.
Proof.
  intros Hmin Hmax.
  induction n as [|n IH]; intros dayOffset slots; simpl.
  - exists O. eauto.
  - destruct (scanDay_total busyEvents config now dayOffset slots Hmin Hmax)
      as (fuel1 & slots1 & Hday).
    destruct (IH (dayOffset + 1) slots1) as (fuel2 & slots' & Hrest).
    exists (Nat.max fuel1 fuel2), slots'.
    rewrite (scanDay_fuel_mono _ _ _ _ fuel1 _ _ _ (Nat.le_max_l _ _) Hday).
    simpl.
    apply (scanDays_fuel_mono _ _ _ fuel2); [lia | exact Hrest].
Qed.

(** *** [hasConflict] as a proposition *)

Lemma rangesOverlap_true (startA endA startB endB : Z) :
  rangesOverlap startA endA startB endB = true <->
  startA < endB /\ startB < endA.
Proof.
  unfold rangesOverlap. rewrite andb_true_iff, !Z.ltb_lt. tauto.
Qed.

Lemma hasConflict_true (busyEvents : list BusyEvent) (start end_ : Z) :
  hasConflict busyEvents start end_ = true <->
  exists b, In b busyEvents
            /\ event_startDate b < end_ /\ start < event_endDate b.
Proof.
  unfold hasConflict. rewrite existsb_exists.
  split; intros (b & Hin & Hb); exists b; split; auto.
  - apply rangesOverlap_true in Hb. tauto.
  - apply rangesOverlap_true. tauto.
Qed.

(** ** Conflict detection *)

(** C2. [hasConflict busy start end] is true exactly when some event [b] of
    [busy] has [b.start < end] and [start < b.end]: half-open overlap.  A
    range that only touches an event at either endpoint does not conflict;
    in particular an event 10:00-10:30 does not conflict with 10:30-11:00. *)
Theorem hasConflict_half_open_overlap :
  (forall busyEvents start end_,
      hasConflict busyEvents start end_ = true <->
      exists b, In b busyEvents
                /\ event_startDate b < end_ /\ start < event_endDate b)
  /\ (forall b start end_,
         start = event_endDate b \/ end_ = event_startDate b ->
         hasConflict [b] start end_ = false)
  /\ (forall midnight name app,
         hasConflict
           [mkBusyEvent name (midnight + 10 * MS_PER_HOUR)
                        (midnight + 10 * MS_PER_HOUR + 30 * MS_PER_MINUTE) app]
           (midnight + 10 * MS_PER_HOUR + 30 * MS_PER_MINUTE)
           (midnight + 11 * MS_PER_HOUR) = false).
Proof.
  split; [exact hasConflict_true|].
  assert (Htouch : forall b start end_,
             start = event_endDate b \/ end_ = event_startDate b ->
             hasConflict [b] start end_ = false).
  { intros b start end_ Hedge. unfold hasConflict, rangesOverlap. simpl.
    rewrite orb_false_r. apply andb_false_iff.
    destruct Hedge as [-> | ->]; [left | right]; apply Z.ltb_irrefl. }
  split; [exact Htouch|].
  intros midnight name app. apply Htouch. left. reflexivity.
Qed.

(** ** Greedy carving *)

Lemma carveGap_step (fuel : nat) (config : FreeSlotConfig)
    (now gapEnd g r d : Z) (slots : list SuggestedSlot) :
  minMinutes config <= r -> (List.length slots < 10)%nat ->
  chooseDuration r config = Some d -> d <> 0 ->
  carveGap (S fuel) config now gapEnd g r slots =
  carveGap fuel config now gapEnd (g + d * 60000)
           (diffMinutes (g + d * 60000) gapEnd)
           (if g >=? now then (slots ++ [buildSlot g d])%list else slots).
Proof.
  intros Hr Hlen Hd Hd0. simpl.
  replace (r >=? minMinutes config) with true by (symmetry; apply Z.geb_le; lia).
  replace (Nat.ltb (List.length slots) 10) with true
    by (symmetry; apply Nat.ltb_lt; lia).
  simpl. rewrite Hd.
  replace (d =? 0) with false by (symmetry; apply Z.eqb_neq; exact Hd0).
  reflexivity.
Qed.

Lemma carveGap_stop (fuel : nat) (config : FreeSlotConfig)
    (now gapEnd g r : Z) (slots : list SuggestedSlot) :
  r < minMinutes config ->
  carveGap fuel config now gapEnd g r slots = Some slots.
Proof.
  intros Hr.
  assert (Hguard : (r >=? minMinutes config) = false).
  { destruct (r >=? minMinutes config) eqn:E; [|reflexivity].
    apply Z.geb_le in E. lia. }
  destruct fuel; simpl; rewrite Hguard; reflexivity.
Qed.

Lemma carveGap_None_at_zero (config : FreeSlotConfig)
    (now gapEnd g r : Z) (slots slots' : list SuggestedSlot) :
  minMinutes config <= r -> (List.length slots < 10)%nat ->
  carveGap 0 config now gapEnd g r slots <> Some slots'.
Proof.
  intros Hr Hlen. simpl.
  replace (r >=? minMinutes config) with true by (symmetry; apply Z.geb_le; lia).
  replace (Nat.ltb (List.length slots) 10) with true
    by (symmetry; apply Nat.ltb_lt; lia).
  discriminate.
Qed.

(** The first slot of a run of the loop that is entered with room for a
    maximal slot. *)
Lemma carveGap_first_max (fuel : nat) (config : FreeSlotConfig)
    (now gapEnd g r : Z) (slots slots' : list SuggestedSlot) :
  0 < minMinutes config -> minMinutes config <= maxMinutes config ->
  maxMinutes config <= r -> (List.length slots < 10)%nat -> now <= g ->
  carveGap fuel config now gapEnd g r slots = Some slots' ->
  exists fuel',
    fuel = S fuel'
    /\ carveGap fuel' config now gapEnd (g + maxMinutes config * 60000)
         (diffMinutes (g + maxMinutes config * 60000) gapEnd)
         (slots ++ [buildSlot g (maxMinutes config)])%list = Some slots'.
Proof.
  intros Hmin Hle Hr Hlen Hnow Hrun.
  destruct fuel as [|fuel'].
  { exfalso. revert Hrun. apply carveGap_None_at_zero; lia. }
  exists fuel'. split; [reflexivity|].
  rewrite (carveGap_step fuel' config now gapEnd g r (maxMinutes config))
    in Hrun; try lia.
  - replace (g >=? now) with true in Hrun by (symmetry; apply Z.geb_le; lia).
    exact Hrun.
  - unfold chooseDuration.
    replace (r <? minMinutes config) with false
      by (symmetry; apply Z.ltb_ge; lia).
    replace (r >=? maxMinutes config) with true
      by (symmetry; apply Z.geb_le; lia).
    reflexivity.
Qed.

(** *** Calendar days *)

Lemma startOfDay_boundary (date : Z) :
  (startOfDay date + tz) mod MS_PER_DAY = 0.
Proof.
  unfold startOfDay, MS_PER_DAY.
  pose proof (Z.div_mod (date + tz) 86400000 ltac:(lia)) as Hdm.
  replace (date - (date + tz) mod 86400000 + tz)
    with (0 + ((date + tz) / 86400000) * 86400000) by lia.
  rewrite Z.mod_add by lia. reflexivity.
Qed.

Lemma startOfDay_of_boundary (date : Z) :
  (date + tz) mod MS_PER_DAY = 0 -> startOfDay date = date.
Proof. unfold startOfDay. intros ->. lia. Qed.

Lemma startOfDay_idempotent (date : Z) :
  startOfDay (startOfDay date) = startOfDay date.
Proof. apply startOfDay_of_boundary, startOfDay_boundary. Qed.

Lemma setHour_startOfDay (date hour : Z) :
  setHour (startOfDay date) hour = startOfDay date + hour * MS_PER_HOUR.
Proof. unfold setHour. rewrite startOfDay_idempotent. reflexivity. Qed.

Lemma startOfDay_bounds (date : Z) :
  startOfDay date <= date < startOfDay date + MS_PER_DAY.
Proof.
  unfold startOfDay, MS_PER_DAY.
  pose proof (Z.mod_pos_bound (date + tz) 86400000 ltac:(lia)). lia.
Qed.

(** The specification's example: nothing busy, 15/30 minutes, window
    07:00-22:00, the clock at 07:00. *)
Lemma findFreeSlots_example_seven (fuel : nat) (now : Z)
    (slots : list SuggestedSlot) :
  (now + tz) mod MS_PER_DAY = 7 * MS_PER_HOUR ->
  findFreeSlots fuel [] CALENDAR_CONFIG now = Some slots ->
  exists rest,
    slots = buildSlot now 30 :: buildSlot (now + 30 * MS_PER_MINUTE) 30 :: rest.
Proof.
  intros Hseven. unfold findFreeSlots.
  change (Z.to_nat (days CALENDAR_CONFIG)) with 1%nat.
  cbn [scanDays]. unfold scanDay, todaysEvents.
  cbn [filter forEachEvent bind fst snd].
  assert (Hday : startOfDay (addDays now 0) = now - 7 * MS_PER_HOUR).
  { unfold startOfDay, addDays. rewrite Z.mul_0_l, Z.add_0_r, Hseven.
    reflexivity. }
  rewrite !setHour_startOfDay, Hday.
  change (dayStartHour CALENDAR_CONFIG) with 7.
  change (dayEndHour CALENDAR_CONFIG) with 22.
  replace (now - 7 * MS_PER_HOUR + 7 * MS_PER_HOUR) with now by ring.
  unfold initialCursor. cbn [Z.eqb]. rewrite Z.max_id.
  unfold fillGap.
  replace (now - 7 * MS_PER_HOUR + 22 * MS_PER_HOUR >? now) with true
    by (symmetry; apply Z.gtb_lt; unfold MS_PER_HOUR; lia).
  assert (Hrem : diffMinutes now (now - 7 * MS_PER_HOUR + 22 * MS_PER_HOUR)
                 = 900).
  { unfold diffMinutes, MS_PER_HOUR, MS_PER_MINUTE.
    replace (now - 7 * 3600000 + 22 * 3600000 - now + 30000) with 54030000
      by ring. reflexivity. }
  set (gapEnd := now - 7 * MS_PER_HOUR + 22 * MS_PER_HOUR) in *.
  rewrite Hrem. intros Hrun.
  apply bind_Some in Hrun as (all & Hrun & Hout).
  apply bind_Some in Hrun as (all' & Hrun & [= ->]).
  apply carveGap_first_max in Hrun as (fuel1 & _ & Hrun);
    try (cbn; lia).
  change (maxMinutes CALENDAR_CONFIG) with 30 in Hrun.
  rewrite diffMinutes_advance, Hrem in Hrun by lia.
  apply carveGap_first_max in Hrun as (fuel2 & _ & Hrun);
    try (cbn; lia).
  apply carveGap_carved in Hrun as (new & -> & _).
  exists (firstn 8 new). injection Hout as <-. reflexivity.
Qed.

(** On a gap of whole minutes the loop is greedy, longest first, left to
    right.  With positive durations and [minMinutes <= maxMinutes], for the
    [m] minutes from [g] to [g + m * 60000]: nothing is carved when
    [m < minMinutes]; otherwise one turn of the loop emits at [g] the slot
    of [maxMinutes] when [m >= maxMinutes] and of [minMinutes] when not
    (unless it starts before [now]) and goes on, right of that slot, with
    the minutes that are left. *)
Lemma carving_whole_minute_gaps (fuel : nat) (config : FreeSlotConfig)
    (now g m : Z) (slots : list SuggestedSlot) :
  0 < minMinutes config -> minMinutes config <= maxMinutes config -> 0 < m ->
  let gapEnd := g + m * 60000 in
  let d := if m >=? maxMinutes config then maxMinutes config
           else minMinutes config in
  (m < minMinutes config -> fillGap fuel config now g gapEnd slots = Some slots)
  /\ (minMinutes config <= m -> (List.length slots < 10)%nat ->
      fillGap (S fuel) config now g gapEnd slots
      = carveGap fuel config now gapEnd (g + d * 60000) (m - d)
                 (if g >=? now then (slots ++ [buildSlot g d])%list
                  else slots)).
Proof.
  intros Hmin Hle Hm gapEnd d.
  assert (Hgap : diffMinutes g gapEnd = m).
  { pose proof (diffMinutes_aligned g gapEnd) as Ha. unfold gapEnd in *.
    replace (g + m * 60000 - g) with (m * 60000) in Ha by lia.
    rewrite Z.mod_mul in Ha by lia. specialize (Ha eq_refl ltac:(lia)). lia. }
  assert (Hguard : (gapEnd >? g) = true).
  { unfold gapEnd. destruct (Z.gtb_spec (g + m * 60000) g); [reflexivity|lia]. }
  unfold fillGap. rewrite Hguard, Hgap. split.
  - intros Hlow. apply carveGap_stop. exact Hlow.
  - intros Hr Hlen.
    assert (Hd : chooseDuration m config = Some d /\ 0 < d <= m).
    { unfold chooseDuration, d.
      replace (m <? minMinutes config) with false
        by (symmetry; apply Z.ltb_ge; lia).
      destruct (m >=? maxMinutes config) eqn:E; [|split; [reflexivity|lia]].
      apply Z.geb_le in E. split; [reflexivity|lia]. }
    destruct Hd as (Hd & Hpos).
    rewrite (carveGap_step fuel config now gapEnd g m d slots Hr Hlen Hd)
      by lia.
    rewrite diffMinutes_advance by lia. rewrite Hgap.
    rewrite Z.max_r by lia. reflexivity.
Qed.

(** Every returned slot has one of the two configured durations and ends
    that many minutes after it starts. *)
Lemma slots_have_configured_duration (fuel : nat)
    (busyEvents : list BusyEvent) (config : FreeSlotConfig) (now : Z)
    (slots : list SuggestedSlot) :
  findFreeSlots fuel busyEvents config now = Some slots ->
  forall s,
    In s slots ->
    (durationMinutes s = minMinutes config
     \/ durationMinutes s = maxMinutes config)
    /\ endDate s = startDate s + durationMinutes s * MS_PER_MINUTE.
Proof.
  intros Hrun s Hs. apply findFreeSlots_carved in Hrun.
  rewrite Forall_forall in Hrun.
  destruct (Hrun s Hs) as (g & d & -> & _ & Hd).
  cbn [buildSlot startDate endDate durationMinutes]. unfold MS_PER_MINUTE.
  split; [exact Hd | lia].
Qed.

(** ** Determinism and identifiers *)

Lemma carved_id_determined (config1 config2 : FreeSlotConfig)
    (now1 now2 : Z) (s1 s2 : SuggestedSlot) :
  carved config1 now1 s1 -> carved config2 now2 s2 ->
  startDate s1 = startDate s2 -> durationMinutes s1 = durationMinutes s2 ->
  s1 = s2.
Proof.
  intros (g1 & d1 & -> & _) (g2 & d2 & -> & _). simpl.
  intros -> ->. reflexivity.
Qed.

(** C5, as the code has it.  [findFreeSlots] reads [now] from the clock;
    its result is a function of the busy list, the configuration and that
    reading: two runs on the same three return the same list, identifiers
    included, and any two slots with the same start and duration carry the
    same identifier, whatever the busy lists, configurations and clock
    readings of the runs they come from. *)
Theorem findFreeSlots_deterministic_in_clock
    (fuel1 fuel2 : nat) (busy1 busy2 : list BusyEvent)
    (config1 config2 : FreeSlotConfig) (clock1 clock2 : Z)
    (slots1 slots2 : list SuggestedSlot) :
  findFreeSlots fuel1 busy1 config1 clock1 = Some slots1 ->
  findFreeSlots fuel2 busy2 config2 clock2 = Some slots2 ->
  (busy1 = busy2 -> config1 = config2 -> clock1 = clock2 -> slots1 = slots2)
  /\ (forall s1 s2,
         In s1 slots1 -> In s2 slots2 ->
         startDate s1 = startDate s2 ->
         durationMinutes s1 = durationMinutes s2 ->
         id s1 = id s2).
Proof.
  intros Hrun1 Hrun2. split.
  - intros -> -> ->.
    apply (findFreeSlots_fuel_irrelevant _ _ _ _ _ _ _ Hrun1 Hrun2).
  - intros s1 s2 Hin1 Hin2 Hstart Hdur.
    apply findFreeSlots_carved in Hrun1, Hrun2.
    rewrite Forall_forall in Hrun1, Hrun2.
    rewrite (carved_id_determined _ _ _ _ s1 s2
               (Hrun1 _ Hin1) (Hrun2 _ Hin2) Hstart Hdur).
    reflexivity.
Qed.

(** ** Past time *)

(** C7. On day offset 0 the walk of the day starts with the cursor at
    [max now windowStart], on every other day offset at [windowStart], and
    no returned slot starts before [now]. *)
Theorem past_time_never_offered (fuel : nat) (busyEvents : list BusyEvent)
    (config : FreeSlotConfig) (now : Z) :
  (forall dayOffset slots,
      let dayStart := startOfDay (addDays now dayOffset) in
      let windowStart := setHour dayStart (dayStartHour config) in
      let windowEnd := setHour dayStart (dayEndHour config) in
      let cursor :=
        if dayOffset =? 0 then Z.max now windowStart else windowStart in
      scanDay fuel busyEvents config now dayOffset slots =
      (st <- forEachEvent fuel config now (todaysEvents busyEvents dayStart)
                          (cursor, slots) ;;
       fillGap fuel config now (fst st) windowEnd (snd st)))
  /\ (forall windowStart, initialCursor now windowStart 0 = Z.max now windowStart)
  /\ (forall windowStart dayOffset,
         dayOffset <> 0 -> initialCursor now windowStart dayOffset = windowStart)
  /\ (forall slots,
         findFreeSlots fuel busyEvents config now = Some slots ->
         forall slot, In slot slots -> now <= startDate slot).
Proof.
  repeat split.
  - intros windowStart dayOffset Hoff. unfold initialCursor.
    apply Z.eqb_neq in Hoff. rewrite Hoff. reflexivity.
  - intros slots Hrun slot Hin.
    apply findFreeSlots_carved in Hrun. rewrite Forall_forall in Hrun.
    destruct (Hrun slot Hin) as (g & d & -> & Hg & _). exact Hg.
Qed.

(** ** The cap *)

(** C8. The returned list never has more than 10 slots; the shared array
    already stops at 10 inside the loops, over all the days scanned. *)
Theorem findFreeSlots_at_most_ten (fuel : nat) (busyEvents : list BusyEvent)
    (config : FreeSlotConfig) (now : Z) (slots : list SuggestedSlot) :
  findFreeSlots fuel busyEvents config now = Some slots ->
  (List.length slots <= 10)%nat
  /\ scanDays fuel busyEvents config now (Z.to_nat (days config)) 0 []
     = Some slots.
Proof.
  unfold findFreeSlots. intros Hrun.
  apply bind_Some in Hrun as (all & Hscan & Hout).
  assert (Hlen : (List.length all <= 10)%nat).
  { eapply scanDays_length; [|exact Hscan]. simpl. lia. }
  cbv beta in Hout. rewrite firstn_all2 in Hout by exact Hlen.
  injection Hout as <-. split; assumption.
Qed.

(** ** Totality *)

(** C9. With a well-formed configuration [findFreeSlots] returns for every
    busy list and every clock reading: some amount of fuel is enough, and
    the result is the same with any larger amount.  Each carving loop
    terminates on its own, and [hasConflict], a structural recursion over
    the busy list, always answers. *)
Theorem findFreeSlots_total (busyEvents : list BusyEvent)
    (config : FreeSlotConfig) (now : Z) :
  WellFormed config ->
  (exists fuel slots,
      findFreeSlots fuel busyEvents config now = Some slots
      /\ forall fuel', (fuel <= fuel')%nat ->
                       findFreeSlots fuel' busyEvents config now = Some slots)
  /\ (forall cursor gapEnd slots,
         exists fuel slots',
           fillGap fuel config now cursor gapEnd slots = Some slots')
  /\ (forall start end_,
         exists answer, hasConflict busyEvents start end_ = answer).
Proof.
  intros (Hmin & Hmax & _). split; [|split].
  - destruct (scanDays_total busyEvents config now (Z.to_nat (days config))
                Hmin Hmax 0 []) as (fuel & all & Hscan).
    exists fuel, (firstn 10 all).
    assert (Hrun : findFreeSlots fuel busyEvents config now
                   = Some (firstn 10 all)).
    { unfold findFreeSlots. rewrite Hscan. reflexivity. }
    split; [exact Hrun|].
    intros fuel' Hle. apply (findFreeSlots_fuel_mono _ _ _ fuel); assumption.
  - intros cursor gapEnd slots. apply fillGap_total; assumption.
  - intros start end_. eexists. reflexivity.
Qed.

(** ** The fallback of [syncCalendar] *)

(** C10, as the code has it.  When no slot survives the filter for today
    and at least 15 whole minutes lie between [now + 15 min] and the end of
    the day (23:59:59.999), exactly one slot is synthesized: it starts at
    [now + 15 min] and lasts the minutes left, capped at 30; it ends at or
    before the end of the day.  With fewer than 15 minutes left nothing is
    synthesized. *)
Theorem fallback_slot_capped (free : list SuggestedSlot) (now : Z) :
  filterToday free now = [] ->
  let minutesLeft := (endOfToday now - minStartOf now) / 60000 in
  (15 <= minutesLeft ->
   exists slot,
     selectTodaysSlots free now = [slot]
     /\ startDate slot = now + 15 * MS_PER_MINUTE
     /\ durationMinutes slot = Z.min 30 minutesLeft
     /\ endDate slot = startDate slot + durationMinutes slot * MS_PER_MINUTE
     /\ endDate slot <= endOfToday now)
  /\ (minutesLeft < 15 -> selectTodaysSlots free now = []).
Proof.
  intros Hnone minutesLeft. unfold selectTodaysSlots. rewrite Hnone.
  unfold applyFallback. fold minutesLeft. split; intros Hleft.
  - replace (Z.max 0 (Z.min 30 minutesLeft) >=? 15) with true
      by (symmetry; apply Z.geb_le; lia).
    replace (Z.max 0 (Z.min 30 minutesLeft)) with (Z.min 30 minutesLeft)
      by lia.
    eexists. split; [reflexivity|].
    unfold fallbackSlot, minStartOf, MIN_FUTURE_BUFFER_MINUTES, MS_PER_MINUTE.
    cbn [startDate endDate durationMinutes].
    repeat split; try lia.
    assert (minutesLeft * 60000 <= endOfToday now - minStartOf now).
    { unfold minutesLeft.
      pose proof (Z.mul_div_le (endOfToday now - minStartOf now) 60000
                    ltac:(lia)). lia. }
    unfold minStartOf, MIN_FUTURE_BUFFER_MINUTES in *. lia.
  - destruct (Z.max 0 (Z.min 30 minutesLeft) >=? 15) eqn:E; [|reflexivity].
    apply Z.geb_le in E. lia.
Qed.

(** ** Slots and busy events *)

Lemma hasConflict_single_false (b : BusyEvent) (s : SuggestedSlot) :
  hasConflict [b] (startDate s) (endDate s) = false <-> clearOf s b.
Proof.
  unfold hasConflict, rangesOverlap, clearOf. simpl. rewrite orb_false_r.
  rewrite andb_false_iff, !Z.ltb_ge. tauto.
Qed.

Lemma diffMinutes_pos_le (g gapEnd : Z) : 0 < diffMinutes g gapEnd -> g <= gapEnd.
Proof.
  unfold diffMinutes, MS_PER_MINUTE. intros Hpos.
  assert (Hq : 0 < (gapEnd - g + 30000) / 60000) by lia.
  destruct (Z_lt_le_dec (gapEnd - g + 30000) 60000) as [Hlt|Hge]; [|lia].
  destruct (Z_lt_le_dec (gapEnd - g + 30000) 0) as [Hneg|Hnn].
  - pose proof (Z.div_lt_upper_bound (gapEnd - g + 30000) 60000 0
                  ltac:(lia) ltac:(lia)). lia.
  - rewrite Z.div_small in Hq by lia. lia.
Qed.

Lemma StronglySorted_filter {A : Type} (R : A -> A -> Prop) (f : A -> bool)
    (l : list A) :
  StronglySorted R l -> StronglySorted R (filter f l).
Proof.
  induction 1 as [|a l Hsorted IH Hall]; simpl; [constructor|].
  destruct (f a); [|exact IH].
  constructor; [exact IH|].
  rewrite Forall_forall in *. intros x Hx. apply filter_In in Hx as [Hx _].
  auto.
Qed.

(** With every instant on a whole minute the loop stays inside its gap. *)
Lemma carveGap_within (config : FreeSlotConfig) (now gapEnd g0 : Z)
    (fuel : nat) (slots slots' : list SuggestedSlot) :
  0 < minMinutes config -> 0 < maxMinutes config ->
  (gapEnd - g0) mod 60000 = 0 ->
  carveGap fuel config now gapEnd g0 (diffMinutes g0 gapEnd) slots
  = Some slots' ->
  exists new,
    slots' = (slots ++ new)%list
    /\ Forall (fun s => g0 <= startDate s /\ startDate s < endDate s
                        /\ endDate s <= gapEnd) new.
Proof.
  intros Hmin Hmax Hmod.
  apply (carveGap_invariant config now gapEnd
           (fun g r => (gapEnd - g) mod 60000 = 0
                       /\ r = diffMinutes g gapEnd /\ g0 <= g)).
  2:{ repeat split; [exact Hmod | lia]. }
  intros g r d (Hg & -> & Hg0) Hr Hd Hd0.
  apply chooseDuration_Some in Hd as [_ Hd].
  assert (Hle : g <= gapEnd) by (apply diffMinutes_pos_le; lia).
  pose proof (diffMinutes_aligned g gapEnd Hg Hle) as Hexact.
  split.
  - intros _. cbn [buildSlot startDate endDate]. lia.
  - repeat split; [|lia].
    replace (gapEnd - (g + d * 60000)) with (gapEnd - g + (- d) * 60000)
      by ring.
    rewrite Z.mod_add by lia. exact Hg.
Qed.

Lemma fillGap_within (config : FreeSlotConfig) (now cursor gapEnd : Z)
    (fuel : nat) (slots slots' : list SuggestedSlot) :
  0 < minMinutes config -> 0 < maxMinutes config ->
  wholeMinute cursor -> wholeMinute gapEnd ->
  fillGap fuel config now cursor gapEnd slots = Some slots' ->
  exists new,
    slots' = (slots ++ new)%list
    /\ Forall (fun s => cursor <= startDate s /\ startDate s < endDate s
                        /\ endDate s <= gapEnd) new.
Proof.
  intros Hmin Hmax Hc He. unfold fillGap.
  destruct (gapEnd >? cursor).
  - apply carveGap_within; auto.
    unfold wholeMinute, MS_PER_MINUTE in *.
    rewrite Zminus_mod, Hc, He. reflexivity.
  - intros [= <-]. exists []. rewrite app_nil_r. auto.
Qed.

(** The walk over a day's events, when they come in start order. *)
Lemma forEachEvent_clear (config : FreeSlotConfig) (now hi : Z) (fuel : nat) :
  0 < minMinutes config -> 0 < maxMinutes config ->
  forall events,
    sortedByStart events ->
    Forall (fun e => wholeMinute (event_startDate e)
                     /\ wholeMinute (event_endDate e)
                     /\ event_startDate e <= hi) events ->
    forall cursor slots cursor' slots',
      wholeMinute cursor ->
      forEachEvent fuel config now events (cursor, slots)
      = Some (cursor', slots') ->
      cursor <= cursor' /\ wholeMinute cursor'
      /\ Forall (fun e => event_endDate e <= cursor') events
      /\ exists new,
           slots' = (slots ++ new)%list
           /\ Forall (fun s => cursor <= startDate s
                               /\ startDate s < endDate s
                               /\ endDate s <= hi
                               /\ Forall (clearOf s) events) new.
Proof.
  intros Hmin Hmax.
  induction events as [|e rest IH];
    intros Hsorted Hev cursor slots cursor' slots' Hcursor; simpl.
  - intros [= <- <-]. repeat split; auto; try lia.
    exists []. rewrite app_nil_r. auto.
  - intros Hrun. apply bind_Some in Hrun as (st1 & Hstep & Hrest).
    unfold eventStep in Hstep.
    apply bind_Some in Hstep as (slots1 & Hfill & [= <-]).
    apply StronglySorted_inv in Hsorted as [Hsorted Hafter].
    apply Forall_cons_iff in Hev as [(Hes & Hee & Hehi) Hev].
    apply fillGap_within in Hfill as (new1 & -> & Hnew1); auto.
    set (cursor1 := if event_endDate e >? cursor
                    then event_endDate e else cursor) in *.
    assert (Hc1 : cursor <= cursor1 /\ event_endDate e <= cursor1
                  /\ wholeMinute cursor1).
    { unfold cursor1.
      destruct (Z.gtb_spec (event_endDate e) cursor);
        repeat split; auto; lia. }
    destruct Hc1 as (Hc1 & He1 & Hw1).
    destruct (IH Hsorted Hev _ _ _ _ Hw1 Hrest)
      as (Hle & Hw' & Hends & new2 & -> & Hnew2).
    repeat split; auto; try lia.
    + constructor; [lia | exact Hends].
    + exists (new1 ++ new2)%list. rewrite app_assoc. split; [reflexivity|].
      apply Forall_app. split.
      * apply Forall_impl with (2 := Hnew1).
        intros s (Hs1 & Hs2 & Hs3). repeat split; auto; try lia.
        constructor; [left; exact Hs3|].
        apply Forall_impl with (2 := Hafter).
        intros b Hb. left. lia.
      * apply Forall_impl with (2 := Hnew2).
        intros s (Hs1 & Hs2 & Hs3 & Hs4). repeat split; auto; try lia.
        constructor; [right; lia | exact Hs4].
Qed.

(** *** Day indices *)

Lemma startOfDay_dayIndex (date : Z) :
  startOfDay date = dayIndex date * MS_PER_DAY - tz.
Proof.
  unfold startOfDay, dayIndex, MS_PER_DAY.
  pose proof (Z.div_mod (date + tz) 86400000 ltac:(lia)). lia.
Qed.

Lemma dayIndex_startOfDay (date : Z) :
  dayIndex (startOfDay date) = dayIndex date.
Proof.
  rewrite startOfDay_dayIndex. unfold dayIndex at 1, MS_PER_DAY.
  replace (dayIndex date * 86400000 - tz + tz)
    with (0 + dayIndex date * 86400000) by ring.
  rewrite Z.div_add by lia. reflexivity.
Qed.

Lemma tz_whole_startOfDay (date : Z) :
  wholeMinute tz -> wholeMinute (startOfDay date).
Proof.
  unfold wholeMinute, MS_PER_MINUTE. intros Htz.
  rewrite startOfDay_dayIndex. unfold MS_PER_DAY.
  pose proof (Z.div_mod tz 60000 ltac:(lia)) as Hdm. rewrite Htz in Hdm.
  replace (dayIndex date * 86400000 - tz)
    with (0 + (dayIndex date * 1440 - tz / 60000) * 60000) by lia.
  rewrite Z.mod_add by lia. reflexivity.
Qed.

Lemma wholeMinute_add_hours (instant hour : Z) :
  wholeMinute instant -> wholeMinute (instant + hour * MS_PER_HOUR).
Proof.
  unfold wholeMinute, MS_PER_MINUTE, MS_PER_HOUR. intros Hi.
  replace (instant + hour * 3600000) with (instant + (hour * 60) * 60000)
    by ring.
  rewrite Z.mod_add by lia. exact Hi.
Qed.

Lemma sameDay_before_next_midnight (value dayStart : Z) :
  (dayStart + tz) mod MS_PER_DAY = 0 ->
  isSameDay value dayStart = true ->
  dayStart <= value < dayStart + MS_PER_DAY.
Proof.
  intros Hboundary Hsame. apply Z.eqb_eq in Hsame.
  pose proof (startOfDay_bounds value) as Hbounds.
  rewrite startOfDay_dayIndex, Hsame, <- startOfDay_dayIndex in Hbounds.
  rewrite (startOfDay_of_boundary dayStart Hboundary) in Hbounds.
  exact Hbounds.
Qed.

(** A slot inside one calendar day is clear of every event that starts on
    another day and is over by its own midnight. *)
Lemma clearOf_other_days (busyEvents : list BusyEvent) (dayStart : Z)
    (s : SuggestedSlot) :
  (dayStart + tz) mod MS_PER_DAY = 0 ->
  Forall endsWithinStartDay busyEvents ->
  dayStart <= startDate s -> endDate s <= dayStart + MS_PER_DAY ->
  Forall (clearOf s) (todaysEvents busyEvents dayStart) ->
  Forall (clearOf s) busyEvents.
Proof.
  intros Hboundary Hends Hlo Hhi Htoday.
  rewrite Forall_forall in *. intros b Hb.
  destruct (isSameDay (event_startDate b) dayStart) eqn:Hsame.
  - apply Htoday. apply filter_In. auto.
  - apply Z.eqb_neq in Hsame.
    pose proof (Hends b Hb) as Hend. unfold endsWithinStartDay in Hend.
    pose proof (startOfDay_bounds (event_startDate b)) as Hbounds.
    rewrite startOfDay_dayIndex in Hend, Hbounds.
    pose proof (startOfDay_of_boundary dayStart Hboundary) as Hds.
    rewrite startOfDay_dayIndex in Hds.
    unfold clearOf, MS_PER_DAY in *. lia.
Qed.

Lemma scanDay_clear (fuel : nat) (busyEvents : list BusyEvent)
    (config : FreeSlotConfig) (now dayOffset : Z)
    (slots slots' : list SuggestedSlot) :
  0 < minMinutes config -> 0 < maxMinutes config ->
  HoursWithinDay config ->
  wholeMinute tz -> wholeMinute now ->
  sortedByStart busyEvents ->
  Forall (fun b => wholeMinute (event_startDate b)
                   /\ wholeMinute (event_endDate b)) busyEvents ->
  Forall endsWithinStartDay busyEvents ->
  scanDay fuel busyEvents config now dayOffset slots = Some slots' ->
  exists new,
    slots' = (slots ++ new)%list
    /\ Forall (fun s => Forall (clearOf s) busyEvents) new.
Proof.
  intros Hmin Hmax [Hh0 Hh24] Htz Hnow Hsorted Hwhole Hends.
  unfold scanDay. rewrite !setHour_startOfDay.
  set (dayStart := startOfDay (addDays now dayOffset)).
  set (windowStart := dayStart + dayStartHour config * MS_PER_HOUR).
  set (windowEnd := dayStart + dayEndHour config * MS_PER_HOUR).
  assert (Hboundary : (dayStart + tz) mod MS_PER_DAY = 0)
    by apply startOfDay_boundary.
  assert (Hds : wholeMinute dayStart) by (apply tz_whole_startOfDay; exact Htz).
  assert (Hws : wholeMinute windowStart)
    by (apply wholeMinute_add_hours; exact Hds).
  assert (Hwe : wholeMinute windowEnd)
    by (apply wholeMinute_add_hours; exact Hds).
  assert (Hcur : wholeMinute (initialCursor now windowStart dayOffset)
                 /\ dayStart <= initialCursor now windowStart dayOffset).
  { assert (Hlo : dayStart <= windowStart)
      by (unfold windowStart, MS_PER_HOUR; lia).
    unfold initialCursor.
    destruct (dayOffset =? 0); [|split; [exact Hws | exact Hlo]].
    destruct (Z.max_spec now windowStart) as [[Hlt ->] | [Hge ->]];
      split; auto; lia. }
  destruct Hcur as [Hcur Hcurlo].
  intros Hrun. apply bind_Some in Hrun as ([cursor' slots1] & Hwalk & Hfill).
  cbn [fst snd] in Hfill.
  apply (forEachEvent_clear config now (dayStart + MS_PER_DAY)) in Hwalk; auto.
  2:{ apply StronglySorted_filter. exact Hsorted. }
  2:{ apply Forall_forall. intros e He. apply filter_In in He as [He Hsame].
      rewrite Forall_forall in Hwhole. destruct (Hwhole e He) as [Hs He'].
      pose proof (sameDay_before_next_midnight _ _ Hboundary Hsame).
      repeat split; auto. lia. }
  destruct Hwalk as (Hle & Hw' & Hover & new1 & -> & Hnew1).
  apply fillGap_within in Hfill as (new2 & -> & Hnew2); auto.
  exists (new1 ++ new2)%list. rewrite app_assoc. split; [reflexivity|].
  apply Forall_app. split.
  - apply Forall_impl with (2 := Hnew1).
    intros s (Hs1 & Hs2 & Hs3 & Hs4).
    apply (clearOf_other_days busyEvents dayStart); auto. lia.
  - apply Forall_impl with (2 := Hnew2).
    intros s (Hs1 & Hs2 & Hs3).
    apply (clearOf_other_days busyEvents dayStart); auto.
    + lia.
    + unfold windowEnd, MS_PER_HOUR, MS_PER_DAY in *. lia.
    + apply Forall_impl with (2 := Hover).
      intros e He. right. lia.
Qed.

Lemma scanDays_clear (fuel : nat) (busyEvents : list BusyEvent)
    (config : FreeSlotConfig) (now : Z) (n : nat) :
  0 < minMinutes config -> 0 < maxMinutes config ->
  HoursWithinDay config ->
  wholeMinute tz -> wholeMinute now ->
  sortedByStart busyEvents ->
  Forall (fun b => wholeMinute (event_startDate b)
                   /\ wholeMinute (event_endDate b)) busyEvents ->
  Forall endsWithinStartDay busyEvents ->
  forall dayOffset slots slots',
    scanDays fuel busyEvents config now n dayOffset slots = Some slots' ->
    exists new,
      slots' = (slots ++ new)%list
      /\ Forall (fun s => Forall (clearOf s) busyEvents) new.
Proof.
  intros Hmin Hmax Hhours Htz Hnow Hsorted Hwhole Hends.
  induction n as [|n IH]; intros dayOffset slots slots'; simpl.
  - intros [= <-]. exists []. rewrite app_nil_r. auto.
  - intros Hrun. apply bind_Some in Hrun as (slots1 & Hday & Hrest).
    apply scanDay_clear in Hday as (new1 & -> & Hnew1); auto.
    apply IH in Hrest as (new2 & -> & Hnew2).
    exists (new1 ++ new2)%list. rewrite app_assoc. split; [reflexivity|].
    apply Forall_app. auto.
Qed.

(** C1, as the code has it.  The walk takes the events in the order of the
    list and looks, for each day, only at the events that start on it.  For
    a busy list in start order whose events are each over by the midnight
    that ends their start day, hours within 0..24, positive durations, and
    the clock, the zone offset and every event boundary on a whole minute,
    no returned slot overlaps any event of the list. *)
Theorem slots_clear_of_sorted_busy (fuel : nat) (busyEvents : list BusyEvent)
    (config : FreeSlotConfig) (now : Z) (slots : list SuggestedSlot) :
  0 < minMinutes config -> 0 < maxMinutes config ->
  HoursWithinDay config ->
  wholeMinute tz -> wholeMinute now ->
  sortedByStart busyEvents ->
  Forall (fun b => wholeMinute (event_startDate b)
                   /\ wholeMinute (event_endDate b)) busyEvents ->
  Forall endsWithinStartDay busyEvents ->
  findFreeSlots fuel busyEvents config now = Some slots ->
  forall s b,
    In s slots -> In b busyEvents ->
    hasConflict [b] (startDate s) (endDate s) = false.
Proof.
  intros Hmin Hmax Hhours Htz Hnow Hsorted Hwhole Hends.
  unfold findFreeSlots. generalize 10%nat. intros cap Hrun.
  apply bind_Some in Hrun as (all & Hscan & [= <-]).
  apply scanDays_clear in Hscan as (new & -> & Hnew); auto.
  intros s b Hs Hb. apply In_firstn in Hs. rewrite app_nil_l in Hs.
  apply hasConflict_single_false.
  rewrite Forall_forall in Hnew. specialize (Hnew s Hs).
  rewrite Forall_forall in Hnew. auto.
Qed.

(** ** Order of the busy list *)

Lemma insertByStart_head (e : BusyEvent) (l : list BusyEvent) :
  Forall (fun b => event_startDate e <= event_startDate b) l ->
  insertByStart e l = e :: l.
Proof.
  destruct l as [|y l]; simpl; [reflexivity|].
  intros Hall. apply Forall_inv in Hall.
  apply Z.leb_le in Hall. rewrite Hall. reflexivity.
Qed.

Lemma insertByStart_In (e x : BusyEvent) (l : list BusyEvent) :
  In x (insertByStart e l) <-> x = e \/ In x l.
Proof.
  induction l as [|y l IH]; simpl.
  - intuition.
  - destruct (event_startDate e <=? event_startDate y); simpl.
    + intuition.
    + rewrite IH. intuition.
Qed.

Lemma insertByStart_sorted (e : BusyEvent) (l : list BusyEvent) :
  sortedByStart l -> sortedByStart (insertByStart e l).
Proof.
  unfold sortedByStart.
  induction l as [|y l IH]; simpl; intros Hsorted.
  - constructor; constructor.
  - pose proof (StronglySorted_inv Hsorted) as [Hl Hy].
    destruct (Z.leb_spec (event_startDate e) (event_startDate y)).
    + constructor; [exact Hsorted|].
      constructor; [assumption|].
      apply Forall_impl with (2 := Hy). intros b Hb. lia.
    + constructor; [apply IH; exact Hl|].
      apply Forall_forall. intros x Hx.
      apply insertByStart_In in Hx as [-> | Hx]; [lia|].
      rewrite Forall_forall in Hy. auto.
Qed.

Lemma sortByStart_sorted (l : list BusyEvent) : sortedByStart (sortByStart l).
Proof.
  induction l as [|e l IH]; simpl.
  - constructor.
  - apply insertByStart_sorted. exact IH.
Qed.

Lemma sortByStart_of_sorted (l : list BusyEvent) :
  sortedByStart l -> sortByStart l = l.
Proof.
  unfold sortedByStart.
  induction l as [|e l IH]; simpl; intros Hsorted; [reflexivity|].
  apply StronglySorted_inv in Hsorted as [Hl He].
  rewrite (IH Hl). apply insertByStart_head. exact He.
Qed.

Lemma filter_insertByStart (f : BusyEvent -> bool) (e : BusyEvent)
    (l : list BusyEvent) :
  sortedByStart l ->
  filter f (insertByStart e l)
  = if f e then insertByStart e (filter f l) else filter f l.
Proof.
  unfold sortedByStart.
  induction l as [|y l IH]; intros Hsorted.
  - simpl. destruct (f e); reflexivity.
  - pose proof (StronglySorted_inv Hsorted) as [Hl Hy].
    cbn [insertByStart].
    destruct (Z.leb_spec (event_startDate e) (event_startDate y)) as [Hle|Hgt].
    + cbn [filter]. destruct (f e); [|reflexivity].
      symmetry. apply insertByStart_head.
      apply Forall_forall. intros b Hb.
      assert (Hin : In b (y :: l)).
      { destruct (f y); [|right; apply filter_In in Hb; tauto].
        destruct Hb as [<- | Hb]; [left; reflexivity|].
        right. apply filter_In in Hb. tauto. }
      destruct Hin as [<- | Hin]; [exact Hle|].
      rewrite Forall_forall in Hy. specialize (Hy b Hin). lia.
    + cbn [filter]. rewrite (IH Hl).
      destruct (f y), (f e); try reflexivity.
      cbn [insertByStart].
      destruct (Z.leb_spec (event_startDate e) (event_startDate y));
        [lia | reflexivity].
Qed.

(** The stable sort commutes with taking the events of one day. *)
Lemma filter_sortByStart (f : BusyEvent -> bool) (l : list BusyEvent) :
  filter f (sortByStart l) = sortByStart (filter f l).
Proof.
  induction l as [|e l IH]; [reflexivity|].
  cbn [sortByStart filter].
  rewrite filter_insertByStart by apply sortByStart_sorted.
  rewrite IH. destruct (f e); reflexivity.
Qed.

Lemma scanDays_same_days (fuel : nat) (busy1 busy2 : list BusyEvent)
    (config : FreeSlotConfig) (now : Z) (n : nat) :
  forall dayOffset slots,
    (forall offset,
        dayOffset <= offset < dayOffset + Z.of_nat n ->
        todaysEvents busy1 (startOfDay (addDays now offset))
        = todaysEvents busy2 (startOfDay (addDays now offset))) ->
    scanDays fuel busy1 config now n dayOffset slots
    = scanDays fuel busy2 config now n dayOffset slots.
Proof.
  induction n as [|n IH]; intros dayOffset slots Hsame; [reflexivity|].
  cbn [scanDays]. unfold scanDay.
  rewrite (Hsame dayOffset) by lia.
  destruct (forEachEvent _ _ _ _ _) as [st|]; [|reflexivity].
  cbn [bind]. destruct (fillGap _ _ _ _ _ _) as [slots1|]; [|reflexivity].
  cbn [bind]. apply IH. intros offset Hoff. apply Hsame. lia.
Qed.

(** C6, as the code has it.  [findFreeSlots] does not sort: it walks each
    day's events in the order the busy list has them, and its result depends
    on the list only through these per-day sublists.  When the events of
    every scanned day already appear in start order in the list, and so for
    every sorted list, the result equals the result on the stably sorted
    list. *)
Theorem findFreeSlots_sorted_days_invariant (fuel : nat)
    (busyEvents : list BusyEvent) (config : FreeSlotConfig) (now : Z) :
  (forall dayOffset,
      0 <= dayOffset < days config ->
      sortedByStart
        (todaysEvents busyEvents (startOfDay (addDays now dayOffset)))) ->
  findFreeSlots fuel (sortByStart busyEvents) config now
  = findFreeSlots fuel busyEvents config now.
Proof.
  intros Hdays. unfold findFreeSlots.
  rewrite (scanDays_same_days fuel (sortByStart busyEvents) busyEvents);
    [reflexivity|].
  intros offset Hoff. unfold todaysEvents.
  rewrite filter_sortByStart. apply sortByStart_of_sorted.
  apply Hdays. lia.
Qed.

(** * Further properties of the code *)

(** ** Where the slots of a scan start *)

Lemma carveGap_from (fuel : nat) (config : FreeSlotConfig)
    (now gapEnd g0 remaining : Z) (slots slots' : list SuggestedSlot) :
  0 < minMinutes config -> 0 < maxMinutes config ->
  carveGap fuel config now gapEnd g0 remaining slots = Some slots' ->
  exists new,
    slots' = (slots ++ new)%list /\ Forall (fun s => g0 <= startDate s) new.
Proof.
  intros Hmin Hmax.
  apply (carveGap_invariant config now gapEnd (fun g _ => g0 <= g));
    [|lia].
  intros g r d Hg _ Hd _. apply chooseDuration_Some in Hd.
  split; [intros _; exact Hg | lia].
Qed.

Lemma fillGap_from (fuel : nat) (config : FreeSlotConfig)
    (now cursor gapEnd : Z) (slots slots' : list SuggestedSlot) :
  0 < minMinutes config -> 0 < maxMinutes config ->
  fillGap fuel config now cursor gapEnd slots = Some slots' ->
  exists new,
    slots' = (slots ++ new)%list /\ Forall (fun s => cursor <= startDate s) new.
Proof.
  intros Hmin Hmax. unfold fillGap. destruct (gapEnd >? cursor).
  - apply carveGap_from; assumption.
  - intros [= <-]. exists []. rewrite app_nil_r. auto.
Qed.

Lemma forEachEvent_from (fuel : nat) (config : FreeSlotConfig) (now : Z)
    (events : list BusyEvent) :
  0 < minMinutes config -> 0 < maxMinutes config ->
  forall cursor slots st',
    forEachEvent fuel config now events (cursor, slots) = Some st' ->
    cursor <= fst st'
    /\ exists new,
         snd st' = (slots ++ new)%list
         /\ Forall (fun s => cursor <= startDate s) new.
Proof.
  intros Hmin Hmax.
  induction events as [|e rest IH]; intros cursor slots st'; simpl.
  - intros [= <-]. split; [simpl; lia|].
    exists []. rewrite app_nil_r. auto.
  - intros Hrun. apply bind_Some in Hrun as (st1 & Hstep & Hrest).
    unfold eventStep in Hstep.
    apply bind_Some in Hstep as (slots1 & Hfill & [= <-]).
    apply fillGap_from in Hfill as (new1 & -> & Hnew1); auto.
    apply IH in Hrest as (Hle & new2 & -> & Hnew2).
    assert (Hc : cursor <= (if event_endDate e >? cursor
                            then event_endDate e else cursor)).
    { destruct (Z.gtb_spec (event_endDate e) cursor); lia. }
    split; [lia|].
    exists (new1 ++ new2)%list. rewrite app_assoc. split; [reflexivity|].
    apply Forall_app. split; [exact Hnew1|].
    apply Forall_impl with (2 := Hnew2). intros s Hs. lia.
Qed.

Lemma scanDay_from (fuel : nat) (busyEvents : list BusyEvent)
    (config : FreeSlotConfig) (now dayOffset : Z)
    (slots slots' : list SuggestedSlot) :
  0 < minMinutes config -> 0 < maxMinutes config ->
  scanDay fuel busyEvents config now dayOffset slots = Some slots' ->
  exists new,
    slots' = (slots ++ new)%list
    /\ Forall (fun s =>
                 setHour (startOfDay (addDays now dayOffset))
                         (dayStartHour config) <= startDate s) new.
Proof.
  intros Hmin Hmax. unfold scanDay.
  set (windowStart := setHour (startOfDay (addDays now dayOffset))
                              (dayStartHour config)).
  assert (Hcur : windowStart <= initialCursor now windowStart dayOffset).
  { unfold initialCursor. destruct (dayOffset =? 0); lia. }
  intros Hrun. apply bind_Some in Hrun as ([cursor' slots1] & Hwalk & Hfill).
  apply forEachEvent_from in Hwalk as (Hle & new1 & Hsnd & Hnew1); auto.
  cbn [fst snd] in *. subst slots1.
  apply fillGap_from in Hfill as (new2 & -> & Hnew2); auto.
  exists (new1 ++ new2)%list. rewrite app_assoc. split; [reflexivity|].
  apply Forall_app. split.
  - apply Forall_impl with (2 := Hnew1). intros s Hs. lia.
  - apply Forall_impl with (2 := Hnew2). intros s Hs. lia.
Qed.

Lemma scanDays_from (fuel : nat) (busyEvents : list BusyEvent)
    (config : FreeSlotConfig) (now : Z) (n : nat) :
  0 < minMinutes config -> 0 < maxMinutes config ->
  forall dayOffset slots slots',
    scanDays fuel busyEvents config now n dayOffset slots = Some slots' ->
    exists new,
      slots' = (slots ++ new)%list
      /\ Forall (fun s =>
                   exists offset,
                     dayOffset <= offset < dayOffset + Z.of_nat n
                     /\ setHour (startOfDay (addDays now offset))
                                (dayStartHour config) <= startDate s) new.
Proof.
  intros Hmin Hmax.
  induction n as [|n IH]; intros dayOffset slots slots'.
  - simpl. intros [= <-]. exists []. rewrite app_nil_r. auto.
  - cbn [scanDays]. intros Hrun.
    apply bind_Some in Hrun as (slots1 & Hday & Hrest).
    apply scanDay_from in Hday as (new1 & -> & Hnew1); auto.
    apply IH in Hrest as (new2 & -> & Hnew2).
    exists (new1 ++ new2)%list. rewrite app_assoc. split; [reflexivity|].
    apply Forall_app. split.
    + apply Forall_impl with (2 := Hnew1). intros s Hs.
      exists dayOffset. split; [lia | exact Hs].
    + apply Forall_impl with (2 := Hnew2). intros s (offset & Hoff & Hs).
      exists offset. split; [lia | exact Hs].
Qed.

(** X1. With positive durations every returned slot starts at or after the
    window start of one of the scanned days, whatever the busy list and the
    clock. *)
Theorem slots_start_after_a_window_start (fuel : nat)
    (busyEvents : list BusyEvent) (config : FreeSlotConfig) (now : Z)
    (slots : list SuggestedSlot) :
  0 < minMinutes config -> 0 < maxMinutes config ->
  findFreeSlots fuel busyEvents config now = Some slots ->
  forall s,
    In s slots ->
    exists dayOffset,
      0 <= dayOffset < days config
      /\ setHour (startOfDay (addDays now dayOffset)) (dayStartHour config)
         <= startDate s.
Proof.
  intros Hmin Hmax. unfold findFreeSlots. generalize 10%nat. intros cap Hrun.
  apply bind_Some in Hrun as (all & Hscan & [= <-]).
  apply scanDays_from in Hscan as (new & -> & Hnew); auto.
  intros s Hs. apply In_firstn in Hs. rewrite app_nil_l in Hs.
  rewrite Forall_forall in Hnew.
  destruct (Hnew s Hs) as (offset & Hoff & Hle).
  exists offset. split; [lia | exact Hle].
Qed.

(** ** Slots inside the window *)

Lemma forEachEvent_span (config : FreeSlotConfig) (now hi : Z) (fuel : nat) :
  0 < minMinutes config -> 0 < maxMinutes config ->
  forall events,
    Forall (fun e => wholeMinute (event_startDate e)
                     /\ wholeMinute (event_endDate e)
                     /\ event_startDate e <= hi) events ->
    forall cursor slots cursor' slots',
      wholeMinute cursor ->
      forEachEvent fuel config now events (cursor, slots)
      = Some (cursor', slots') ->
      cursor <= cursor' /\ wholeMinute cursor'
      /\ exists new,
           slots' = (slots ++ new)%list
           /\ Forall (fun s => cursor <= startDate s
                               /\ startDate s < endDate s
                               /\ endDate s <= hi) new.
Proof.
  intros Hmin Hmax.
  induction events as [|e rest IH];
    intros Hev cursor slots cursor' slots' Hcursor; simpl.
  - intros [= <- <-]. repeat split; auto; try lia.
    exists []. rewrite app_nil_r. auto.
  - intros Hrun. apply bind_Some in Hrun as (st1 & Hstep & Hrest).
    unfold eventStep in Hstep.
    apply bind_Some in Hstep as (slots1 & Hfill & [= <-]).
    apply Forall_cons_iff in Hev as [(Hes & Hee & Hehi) Hev].
    apply fillGap_within in Hfill as (new1 & -> & Hnew1); auto.
    set (cursor1 := if event_endDate e >? cursor
                    then event_endDate e else cursor) in *.
    assert (Hc1 : cursor <= cursor1 /\ wholeMinute cursor1).
    { unfold cursor1.
      destruct (Z.gtb_spec (event_endDate e) cursor); split; auto; lia. }
    destruct Hc1 as (Hc1 & Hw1).
    destruct (IH Hev _ _ _ _ Hw1 Hrest) as (Hle & Hw' & new2 & -> & Hnew2).
    repeat split; auto; try lia.
    exists (new1 ++ new2)%list. rewrite app_assoc. split; [reflexivity|].
    apply Forall_app. split.
    + apply Forall_impl with (2 := Hnew1).
      intros s (Hs1 & Hs2 & Hs3). repeat split; auto; lia.
    + apply Forall_impl with (2 := Hnew2).
      intros s (Hs1 & Hs2 & Hs3). repeat split; auto; lia.
Qed.

Lemma sameDay_startOfDay (value dayStart : Z) :
  (dayStart + tz) mod MS_PER_DAY = 0 ->
  isSameDay value dayStart = true ->
  startOfDay value = dayStart.
Proof.
  intros Hboundary Hsame. apply Z.eqb_eq in Hsame.
  rewrite startOfDay_dayIndex, Hsame, <- startOfDay_dayIndex.
  apply startOfDay_of_boundary. exact Hboundary.
Qed.

Lemma initialCursor_whole (now windowStart dayOffset : Z) :
  wholeMinute now -> wholeMinute windowStart ->
  wholeMinute (initialCursor now windowStart dayOffset)
  /\ windowStart <= initialCursor now windowStart dayOffset.
Proof.
  intros Hnow Hws. unfold initialCursor.
  destruct (dayOffset =? 0); [|split; [exact Hws | lia]].
  destruct (Z.max_spec now windowStart) as [[Hlt ->] | [Hge ->]];
    split; auto; lia.
Qed.

Lemma scanDay_window (fuel : nat) (busyEvents : list BusyEvent)
    (config : FreeSlotConfig) (now dayOffset : Z)
    (slots slots' : list SuggestedSlot) :
  0 < minMinutes config -> 0 < maxMinutes config ->
  wholeMinute tz -> wholeMinute now ->
  Forall (fun b => wholeMinute (event_startDate b)
                   /\ wholeMinute (event_endDate b)) busyEvents ->
  Forall (startsByWindowEnd config) busyEvents ->
  scanDay fuel busyEvents config now dayOffset slots = Some slots' ->
  exists new,
    slots' = (slots ++ new)%list
    /\ Forall (fun s =>
                 setHour (startOfDay (addDays now dayOffset))
                         (dayStartHour config) <= startDate s
                 /\ startDate s < endDate s
                 /\ endDate s <= setHour (startOfDay (addDays now dayOffset))
                                         (dayEndHour config)) new.
Proof.
  intros Hmin Hmax Htz Hnow Hwhole Hstarts. unfold scanDay.
  set (dayStart := startOfDay (addDays now dayOffset)).
  assert (Hboundary : (dayStart + tz) mod MS_PER_DAY = 0)
    by apply startOfDay_boundary.
  assert (Hds : wholeMinute dayStart) by (apply tz_whole_startOfDay; exact Htz).
  unfold dayStart at 2 3 4 5. rewrite !setHour_startOfDay. fold dayStart.
  set (windowStart := dayStart + dayStartHour config * MS_PER_HOUR).
  set (windowEnd := dayStart + dayEndHour config * MS_PER_HOUR).
  assert (Hws : wholeMinute windowStart)
    by (apply wholeMinute_add_hours; exact Hds).
  assert (Hwe : wholeMinute windowEnd)
    by (apply wholeMinute_add_hours; exact Hds).
  destruct (initialCursor_whole now windowStart dayOffset Hnow Hws)
    as [Hcur Hcurlo].
  intros Hrun. apply bind_Some in Hrun as ([cursor' slots1] & Hwalk & Hfill).
  cbn [fst snd] in Hfill.
  apply (forEachEvent_span config now windowEnd) in Hwalk; auto.
  2:{ apply Forall_forall. intros e He. apply filter_In in He as [He Hsame].
      rewrite Forall_forall in Hwhole, Hstarts.
      destruct (Hwhole e He) as [Hs He'].
      pose proof (Hstarts e He) as Hstart. unfold startsByWindowEnd in Hstart.
      rewrite setHour_startOfDay in Hstart.
      rewrite (sameDay_startOfDay _ _ Hboundary Hsame) in Hstart.
      repeat split; auto. }
  destruct Hwalk as (Hle & Hw' & new1 & -> & Hnew1).
  apply fillGap_within in Hfill as (new2 & -> & Hnew2); auto.
  exists (new1 ++ new2)%list. rewrite app_assoc. split; [reflexivity|].
  apply Forall_app. split.
  - apply Forall_impl with (2 := Hnew1).
    intros s (Hs1 & Hs2 & Hs3). repeat split; auto; lia.
  - apply Forall_impl with (2 := Hnew2).
    intros s (Hs1 & Hs2 & Hs3). repeat split; auto; lia.
Qed.

(** X2. When every instant is on a whole minute and no event starts after
    the window of its own day has ended, every returned slot lies inside the
    window of one of the scanned days. *)
Theorem slots_within_window (fuel : nat) (busyEvents : list BusyEvent)
    (config : FreeSlotConfig) (now : Z) (slots : list SuggestedSlot) :
  0 < minMinutes config -> 0 < maxMinutes config ->
  wholeMinute tz -> wholeMinute now ->
  Forall (fun b => wholeMinute (event_startDate b)
                   /\ wholeMinute (event_endDate b)) busyEvents ->
  Forall (startsByWindowEnd config) busyEvents ->
  findFreeSlots fuel busyEvents config now = Some slots ->
  forall s,
    In s slots ->
    exists dayOffset,
      0 <= dayOffset < days config
      /\ setHour (startOfDay (addDays now dayOffset)) (dayStartHour config)
         <= startDate s
      /\ startDate s < endDate s
      /\ endDate s
         <= setHour (startOfDay (addDays now dayOffset)) (dayEndHour config).
Proof.
  intros Hmin Hmax Htz Hnow Hwhole Hstarts.
  unfold findFreeSlots. generalize 10%nat. intros cap Hrun.
  apply bind_Some in Hrun as (all & Hscan & [= <-]).
  assert (Hgen : forall n dayOffset acc acc',
             scanDays fuel busyEvents config now n dayOffset acc = Some acc' ->
             exists new,
               acc' = (acc ++ new)%list
               /\ Forall (fun s =>
                    exists offset,
                      dayOffset <= offset < dayOffset + Z.of_nat n
                      /\ setHour (startOfDay (addDays now offset))
                                 (dayStartHour config) <= startDate s
                      /\ startDate s < endDate s
                      /\ endDate s
                         <= setHour (startOfDay (addDays now offset))
                                    (dayEndHour config)) new).
  { induction n as [|n IH]; intros dayOffset acc acc'.
    - simpl. intros [= <-]. exists []. rewrite app_nil_r. auto.
    - cbn [scanDays]. intros Hrun.
      apply bind_Some in Hrun as (acc1 & Hday & Hrest).
      apply scanDay_window in Hday as (new1 & -> & Hnew1); auto.
      apply IH in Hrest as (new2 & -> & Hnew2).
      exists (new1 ++ new2)%list. rewrite app_assoc. split; [reflexivity|].
      apply Forall_app. split.
      + apply Forall_impl with (2 := Hnew1). intros s Hs.
        exists dayOffset. split; [lia | exact Hs].
      + apply Forall_impl with (2 := Hnew2). intros s (offset & Hoff & Hs).
        exists offset. split; [lia | exact Hs]. }
  apply Hgen in Hscan as (new & -> & Hnew).
  intros s Hs. apply In_firstn in Hs. rewrite app_nil_l in Hs.
  rewrite Forall_forall in Hnew.
  destruct (Hnew s Hs) as (offset & Hoff & Hbounds).
  exists offset. split; [lia | exact Hbounds].
Qed.

(** ** Slots do not run into each other *)

Lemma StronglySorted_snoc {A : Type} (R : A -> A -> Prop) (l : list A)
    (x : A) :
  StronglySorted R l -> Forall (fun a => R a x) l ->
  StronglySorted R (l ++ [x]).
Proof.
  induction 1 as [|a l Hsorted IH Hall]; intros Hx; simpl.
  - constructor; constructor.
  - apply Forall_cons_iff in Hx as [Hax Hx].
    constructor; [apply IH; exact Hx|].
    apply Forall_app. split; [exact Hall | constructor; [exact Hax | constructor]].
Qed.

Lemma StronglySorted_firstn {A : Type} (R : A -> A -> Prop) (n : nat)
    (l : list A) :
  StronglySorted R l -> StronglySorted R (firstn n l).
Proof.
  intros Hsorted. revert n.
  induction Hsorted as [|a l Hsorted IH Hall]; intros [|n]; simpl;
    try constructor.
  - apply IH.
  - rewrite Forall_forall in *. intros x Hx. apply In_firstn in Hx. auto.
Qed.

Lemma slotChain_weaken (slots : list SuggestedSlot) (bound bound' : Z) :
  bound <= bound' -> slotChain slots bound -> slotChain slots bound'.
Proof.
  intros Hle [Hsorted Hall]. split; [exact Hsorted|].
  apply Forall_impl with (2 := Hall). intros s Hs. lia.
Qed.

Lemma slotChain_snoc (slots : list SuggestedSlot) (bound : Z)
    (s : SuggestedSlot) :
  slotChain slots bound -> bound <= startDate s -> startDate s < endDate s ->
  slotChain (slots ++ [s]) (endDate s).
Proof.
  intros [Hsorted Hall] Hlo Hlen. split.
  - apply StronglySorted_snoc; [exact Hsorted|].
    apply Forall_impl with (2 := Hall). intros a Ha. lia.
  - apply Forall_app. split.
    + apply Forall_impl with (2 := Hall). intros a Ha. lia.
    + constructor; [lia | constructor].
Qed.

Lemma carveGap_chain (config : FreeSlotConfig) (now gapEnd : Z) :
  0 < minMinutes config -> 0 < maxMinutes config ->
  forall fuel g slots slots',
    (gapEnd - g) mod 60000 = 0 ->
    slotChain slots g ->
    carveGap fuel config now gapEnd g (diffMinutes g gapEnd) slots
    = Some slots' ->
    slotChain slots' (Z.max g gapEnd).
Proof.
  intros Hmin Hmax.
  induction fuel as [|fuel IH]; intros g slots slots' Hmod Hchain; simpl.
  - destruct (_ && _); [discriminate|]. intros [= <-].
    apply (slotChain_weaken _ g); [lia | exact Hchain].
  - destruct ((diffMinutes g gapEnd >=? minMinutes config)
                && Nat.ltb (List.length slots) 10) eqn:Hguard.
    2:{ intros [= <-]. apply (slotChain_weaken _ g); [lia | exact Hchain]. }
    apply andb_prop in Hguard as [Hrem _]. apply Z.geb_le in Hrem.
    destruct (chooseDuration _ config) as [d|] eqn:Hd.
    2:{ intros [= <-]. apply (slotChain_weaken _ g); [lia | exact Hchain]. }
    destruct (d =? 0).
    { intros [= <-]. apply (slotChain_weaken _ g); [lia | exact Hchain]. }
    apply chooseDuration_Some in Hd as [_ Hd].
    assert (Hle : g <= gapEnd) by (apply diffMinutes_pos_le; lia).
    pose proof (diffMinutes_aligned g gapEnd Hmod Hle) as Hexact.
    intros Hrun. apply IH in Hrun.
    + replace (Z.max g gapEnd) with (Z.max (g + d * 60000) gapEnd) by lia.
      exact Hrun.
    + replace (gapEnd - (g + d * 60000)) with (gapEnd - g + (- d) * 60000)
        by ring.
      rewrite Z.mod_add by lia. exact Hmod.
    + destruct (g >=? now).
      * replace (g + d * 60000) with (endDate (buildSlot g d))
          by (cbn [buildSlot endDate]; lia).
        apply (slotChain_snoc _ g); [exact Hchain | | ];
          cbn [buildSlot startDate endDate]; lia.
      * apply (slotChain_weaken _ g); [lia | exact Hchain].
Qed.

Lemma fillGap_chain (config : FreeSlotConfig) (now cursor gapEnd : Z)
    (fuel : nat) (slots slots' : list SuggestedSlot) :
  0 < minMinutes config -> 0 < maxMinutes config ->
  wholeMinute cursor -> wholeMinute gapEnd ->
  slotChain slots cursor ->
  fillGap fuel config now cursor gapEnd slots = Some slots' ->
  slotChain slots' (Z.max cursor gapEnd).
Proof.
  intros Hmin Hmax Hc He Hchain. unfold fillGap.
  destruct (gapEnd >? cursor).
  - apply carveGap_chain; auto.
    unfold wholeMinute, MS_PER_MINUTE in *.
    rewrite Zminus_mod, Hc, He. reflexivity.
  - intros [= <-]. apply (slotChain_weaken _ cursor); [lia | exact Hchain].
Qed.

Lemma forEachEvent_chain (config : FreeSlotConfig) (now : Z) (fuel : nat) :
  0 < minMinutes config -> 0 < maxMinutes config ->
  forall events,
    Forall (fun e => wholeMinute (event_startDate e)
                     /\ wholeMinute (event_endDate e)
                     /\ event_startDate e <= event_endDate e) events ->
    forall cursor slots cursor' slots',
      wholeMinute cursor -> slotChain slots cursor ->
      forEachEvent fuel config now events (cursor, slots)
      = Some (cursor', slots') ->
      wholeMinute cursor' /\ slotChain slots' cursor'.
Proof.
  intros Hmin Hmax.
  induction events as [|e rest IH];
    intros Hev cursor slots cursor' slots' Hcursor Hchain; simpl.
  - intros [= <- <-]. auto.
  - intros Hrun. apply bind_Some in Hrun as (st1 & Hstep & Hrest).
    unfold eventStep in Hstep.
    apply bind_Some in Hstep as (slots1 & Hfill & [= <-]).
    apply Forall_cons_iff in Hev as [(Hes & Hee & Hproper) Hev].
    apply fillGap_chain in Hfill; auto.
    apply (IH Hev) in Hrest; [exact Hrest | |].
    + destruct (Z.gtb_spec (event_endDate e) cursor); assumption.
    + apply (slotChain_weaken _ (Z.max cursor (event_startDate e)));
        [|exact Hfill].
      destruct (Z.gtb_spec (event_endDate e) cursor); lia.
Qed.

Lemma startOfDay_next_day (now dayOffset : Z) :
  startOfDay (addDays now (dayOffset + 1))
  = startOfDay (addDays now dayOffset) + MS_PER_DAY.
Proof.
  unfold startOfDay, addDays, MS_PER_DAY.
  replace (now + (dayOffset + 1) * 86400000 + tz)
    with (now + dayOffset * 86400000 + tz + 1 * 86400000) by ring.
  rewrite Z.mod_add by lia. ring.
Qed.

Lemma scanDay_chain (fuel : nat) (busyEvents : list BusyEvent)
    (config : FreeSlotConfig) (now dayOffset : Z)
    (slots slots' : list SuggestedSlot) :
  0 < minMinutes config -> 0 < maxMinutes config ->
  HoursWithinDay config ->
  wholeMinute tz -> wholeMinute now ->
  Forall (fun b => wholeMinute (event_startDate b)
                   /\ wholeMinute (event_endDate b)
                   /\ event_startDate b <= event_endDate b) busyEvents ->
  slotChain slots (startOfDay (addDays now dayOffset)) ->
  scanDay fuel busyEvents config now dayOffset slots = Some slots' ->
  slotChain slots' (startOfDay (addDays now dayOffset) + MS_PER_DAY).
Proof.
  intros Hmin Hmax [Hh0 Hh24] Htz Hnow Hev Hchain. unfold scanDay.
  set (dayStart := startOfDay (addDays now dayOffset)) in *.
  assert (Hboundary : (dayStart + tz) mod MS_PER_DAY = 0)
    by apply startOfDay_boundary.
  assert (Hds : wholeMinute dayStart) by (apply tz_whole_startOfDay; exact Htz).
  rewrite (setHour_startOfDay (addDays now dayOffset) (dayStartHour config)
           : setHour dayStart _ = _).
  rewrite (setHour_startOfDay (addDays now dayOffset) (dayEndHour config)
           : setHour dayStart _ = _).
  set (windowStart := dayStart + dayStartHour config * MS_PER_HOUR).
  set (windowEnd := dayStart + dayEndHour config * MS_PER_HOUR).
  assert (Hws : wholeMinute windowStart)
    by (apply wholeMinute_add_hours; exact Hds).
  assert (Hwe : wholeMinute windowEnd)
    by (apply wholeMinute_add_hours; exact Hds).
  assert (Hlo : dayStart <= windowStart)
    by (unfold windowStart, MS_PER_HOUR; lia).
  assert (Hhi : windowEnd <= dayStart + MS_PER_DAY)
    by (unfold windowEnd, MS_PER_HOUR, MS_PER_DAY; lia).
  destruct (initialCursor_whole now windowStart dayOffset Hnow Hws)
    as [Hcur Hcurlo].
  assert (Htoday : Forall (fun e => wholeMinute (event_startDate e)
                                    /\ wholeMinute (event_endDate e)
                                    /\ event_startDate e <= event_endDate e)
                          (todaysEvents busyEvents dayStart)).
  { apply Forall_forall. intros e He. apply filter_In in He as [He _].
    rewrite Forall_forall in Hev. auto. }
  intros Hrun. apply bind_Some in Hrun as ([cursor' slots1] & Hwalk & Hfill).
  cbn [fst snd] in Hfill.
  pose proof Hwalk as Hspan.
  apply (forEachEvent_chain config now fuel Hmin Hmax _ Htoday) in Hwalk;
    [|exact Hcur|].
  2:{ apply (slotChain_weaken _ dayStart);
        [exact (Z.le_trans _ _ _ Hlo Hcurlo) | exact Hchain]. }
  destruct Hwalk as [Hw' Hchain1].
  apply (forEachEvent_span config now (dayStart + MS_PER_DAY)) in Hspan; auto.
  2:{ apply Forall_forall. intros e He.
      pose proof He as He'. apply filter_In in He' as [_ Hsame].
      rewrite Forall_forall in Htoday. destruct (Htoday e He) as (H1 & H2 & _).
      pose proof (sameDay_before_next_midnight _ _ Hboundary Hsame).
      repeat split; auto. lia. }
  destruct Hspan as (_ & _ & new1 & -> & Hnew1).
  pose proof Hfill as Hfill'.
  apply fillGap_chain in Hfill; auto.
  apply fillGap_within in Hfill' as (new2 & -> & Hnew2); auto.
  destruct Hfill as [Hsorted Hall]. split; [exact Hsorted|].
  destruct Hchain as [_ Hold].
  rewrite Forall_forall in Hall.
  apply Forall_app. split; [apply Forall_app; split|].
  - apply Forall_impl with (2 := Hold). intros s Hs.
    unfold MS_PER_DAY. lia.
  - apply Forall_impl with (2 := Hnew1). intros s Hs.
    lia.
  - apply Forall_impl with (2 := Hnew2). intros s Hs.
    lia.
Qed.

(** X3. With every instant on a whole minute, positive durations, hours
    within 0..24 and events that do not end before they start, the returned
    slots come in time order and do not overlap each other: each has a
    positive length and ends no later than every later slot of the list
    starts; this holds for the busy list in any order. *)
Theorem slots_do_not_overlap_each_other (fuel : nat)
    (busyEvents : list BusyEvent) (config : FreeSlotConfig) (now : Z)
    (slots : list SuggestedSlot) :
  0 < minMinutes config -> 0 < maxMinutes config ->
  HoursWithinDay config ->
  wholeMinute tz -> wholeMinute now ->
  Forall (fun b => wholeMinute (event_startDate b)
                   /\ wholeMinute (event_endDate b)
                   /\ event_startDate b <= event_endDate b) busyEvents ->
  findFreeSlots fuel busyEvents config now = Some slots ->
  StronglySorted (fun a b => endDate a <= startDate b) slots
  /\ Forall (fun s => startDate s < endDate s) slots.
Proof.
  intros Hmin Hmax Hhours Htz Hnow Hev.
  unfold findFreeSlots. generalize 10%nat. intros cap Hrun.
  apply bind_Some in Hrun as (all & Hscan & [= <-]).
  assert (Hgen : forall n dayOffset acc acc',
             slotChain acc (startOfDay (addDays now dayOffset)) ->
             scanDays fuel busyEvents config now n dayOffset acc = Some acc' ->
             exists bound, slotChain acc' bound).
  { induction n as [|n IH]; intros dayOffset acc acc' Hchain.
    - simpl. intros [= <-]. eauto.
    - cbn [scanDays]. intros Hrun.
      apply bind_Some in Hrun as (acc1 & Hday & Hrest).
      apply scanDay_chain in Hday; auto.
      rewrite <- startOfDay_next_day in Hday.
      apply (IH _ _ _ Hday Hrest). }
  destruct (Hgen (Z.to_nat (days config)) 0 [] all)
    as (bound & Hsorted & Hall); [|exact Hscan|].
  { split; constructor. }
  split.
  - apply StronglySorted_firstn. exact Hsorted.
  - apply Forall_forall. intros s Hs. apply In_firstn in Hs.
    rewrite Forall_forall in Hall. apply Hall in Hs. lia.
Qed.

(** ** The callers' sort and the order of the busy list *)

Lemma sortByStart_In (x : BusyEvent) (l : list BusyEvent) :
  In x (sortByStart l) <-> In x l.
Proof.
  induction l as [|e l IH]; simpl; [tauto|].
  rewrite insertByStart_In, IH. intuition.
Qed.

Lemma insertByStart_perm (e : BusyEvent) (l : list BusyEvent) :
  Permutation (e :: l) (insertByStart e l).
Proof.
  induction l as [|y l IH]; simpl; [apply Permutation_refl|].
  destruct (event_startDate e <=? event_startDate y);
    [apply Permutation_refl|].
  eapply perm_trans; [apply perm_swap|]. apply perm_skip. exact IH.
Qed.

(** X4. The sort the callers apply before [findFreeSlots] returns the same
    events in non-decreasing start order, keeps events with equal start in
    the order they came in, and leaves a list already in order as it is. *)
Theorem sortByStart_stable_sort (events : list BusyEvent) :
  sortedByStart (sortByStart events)
  /\ Permutation events (sortByStart events)
  /\ (forall start,
         filter (fun e => event_startDate e =? start) (sortByStart events)
         = filter (fun e => event_startDate e =? start) events)
  /\ sortByStart (sortByStart events) = sortByStart events.
Proof.
  split; [apply sortByStart_sorted|]. split; [|split].
  - induction events as [|e l IH]; simpl; [constructor|].
    eapply perm_trans; [apply perm_skip; exact IH|].
    apply insertByStart_perm.
  - intros start. rewrite filter_sortByStart. apply sortByStart_of_sorted.
    unfold sortedByStart.
    induction events as [|e l IH]; simpl; [constructor|].
    destruct (Z.eqb_spec (event_startDate e) start) as [He|He]; [|exact IH].
    constructor; [exact IH|].
    apply Forall_forall. intros b Hb. apply filter_In in Hb as [_ Hb].
    apply Z.eqb_eq in Hb. lia.
  - apply sortByStart_of_sorted, sortByStart_sorted.
Qed.

(** X5. [hasConflict] does not depend on the order of the busy list, so it
    answers the same on the fetched list and on its sorted copy; and a range
    inside a conflict-free range is conflict-free. *)
Theorem hasConflict_order_and_shrinking (busyEvents : list BusyEvent)
    (start end_ : Z) :
  (forall reordered,
      Permutation busyEvents reordered ->
      hasConflict reordered start end_ = hasConflict busyEvents start end_)
  /\ hasConflict (sortByStart busyEvents) start end_
     = hasConflict busyEvents start end_
  /\ (forall start' end',
         start <= start' -> end' <= end_ ->
         hasConflict busyEvents start end_ = false ->
         hasConflict busyEvents start' end' = false).
Proof.
  assert (Hperm : forall l1 l2,
             (forall x, In x l1 <-> In x l2) ->
             hasConflict l2 start end_ = hasConflict l1 start end_).
  { intros l1 l2 Hin. apply eq_true_iff_eq. rewrite !hasConflict_true.
    split; intros (b & Hb & Hover); exists b; split; auto; apply Hin; auto. }
  split; [|split].
  - intros reordered Hp. apply Hperm. intros x. split.
    + apply Permutation_in. exact Hp.
    + apply Permutation_in. apply Permutation_sym. exact Hp.
  - apply Hperm. intros x. symmetry. apply sortByStart_In.
  - intros start' end' Hs He Hfree.
    destruct (hasConflict busyEvents start' end') eqn:Hc; [|reflexivity].
    apply hasConflict_true in Hc as (b & Hb & H1 & H2).
    assert (Hyes : hasConflict busyEvents start end_ = true).
    { apply hasConflict_true. exists b. repeat split; auto; lia. }
    congruence.
Qed.

(** ** What [syncCalendar] shows *)

Lemma fold_pushBucket (slots : list SuggestedSlot) :
  forall acc,
    fold_left pushBucket slots acc
    = {| inMorning := (inMorning acc ++ filter (inDaypart morning) slots)%list;
         inAfternoon :=
           (inAfternoon acc ++ filter (inDaypart afternoon) slots)%list;
         inEvening :=
           (inEvening acc ++ filter (inDaypart evening) slots)%list |}.
Proof.
  induction slots as [|s slots IH]; intros [m a e]; simpl.
  - rewrite !app_nil_r. reflexivity.
  - rewrite IH. unfold pushBucket, inDaypart.
    destruct (bucketOf s); simpl; rewrite <- ?app_assoc; reflexivity.
Qed.

Lemma condense_filter (filtered : list SuggestedSlot) :
  condense filtered
  = (firstn 2 (filter (inDaypart morning) filtered)
     ++ firstn 2 (filter (inDaypart afternoon) filtered)
     ++ firstn 2 (filter (inDaypart evening) filtered))%list.
Proof. unfold condense, byBucket. rewrite fold_pushBucket. reflexivity. Qed.

Lemma condense_In (filtered : list SuggestedSlot) (s : SuggestedSlot) :
  In s (condense filtered) -> In s filtered.
Proof.
  rewrite condense_filter. generalize 2%nat. intros n Hs.
  repeat (apply in_app_or in Hs as [Hs|Hs]);
    apply In_firstn in Hs; apply filter_In in Hs; tauto.
Qed.

Lemma condense_keeps_head (s : SuggestedSlot) (rest : list SuggestedSlot) :
  In s (condense (s :: rest)).
Proof.
  rewrite condense_filter.
  assert (Hfirst : forall part,
             inDaypart part s = true ->
             In s (firstn 2 (filter (inDaypart part) (s :: rest)))).
  { intros part Hpart. cbn [filter]. rewrite Hpart. left. reflexivity. }
  destruct (bucketOf s) eqn:Hb.
  - apply in_or_app. left. apply Hfirst. unfold inDaypart. rewrite Hb.
    reflexivity.
  - apply in_or_app. right. apply in_or_app. left. apply Hfirst.
    unfold inDaypart. rewrite Hb. reflexivity.
  - apply in_or_app. right. apply in_or_app. right. apply Hfirst.
    unfold inDaypart. rewrite Hb. reflexivity.
Qed.

Lemma condense_nonempty (filtered : list SuggestedSlot) :
  filtered <> [] -> condense filtered <> [].
Proof.
  destruct filtered as [|s rest]; [congruence|]. intros _ Hnil.
  pose proof (condense_keeps_head s rest) as Hin.
  rewrite Hnil in Hin. exact Hin.
Qed.

(** X6. The reduce over dayparts keeps, for the morning, the afternoon and
    the evening in this order, the first two slots of the list whose start
    hour falls in that part: at most six slots, never none when there was
    one to begin with. *)
Theorem condense_keeps_two_per_daypart (filtered : list SuggestedSlot) :
  condense filtered
  = (firstn 2 (filter (inDaypart morning) filtered)
     ++ firstn 2 (filter (inDaypart afternoon) filtered)
     ++ firstn 2 (filter (inDaypart evening) filtered))%list
  /\ (List.length (condense filtered) <= 6)%nat
  /\ (forall part,
         (List.length (filter (inDaypart part) (condense filtered)) <= 2)%nat)
  /\ (filtered <> [] -> condense filtered <> []).
Proof.
  split; [apply condense_filter|].
  assert (Hpart : forall p q l,
             filter (inDaypart p) (firstn 2 (filter (inDaypart q) l))
             = if match p, q with
                  | morning, morning | afternoon, afternoon
                  | evening, evening => true
                  | _, _ => false
                  end
               then firstn 2 (filter (inDaypart q) l) else []).
  { intros p q l. generalize 2%nat. intros n.
    assert (Hall : Forall (fun s => inDaypart q s = true)
                          (firstn n (filter (inDaypart q) l))).
    { apply Forall_forall. intros s Hs. apply In_firstn in Hs.
      apply filter_In in Hs. tauto. }
    induction Hall as [|s rest Hs Hall IH].
    - destruct p, q; reflexivity.
    - cbn [filter]. rewrite IH. unfold inDaypart in *.
      destruct p, q, (bucketOf s); try discriminate; reflexivity. }
  split; [|split].
  - rewrite condense_filter, !length_app.
    pose proof (firstn_le_length 2 (filter (inDaypart morning) filtered)).
    pose proof (firstn_le_length 2 (filter (inDaypart afternoon) filtered)).
    pose proof (firstn_le_length 2 (filter (inDaypart evening) filtered)).
    lia.
  - intros part. rewrite condense_filter, !filter_app, !Hpart, !length_app.
    pose proof (firstn_le_length 2 (filter (inDaypart morning) filtered)).
    pose proof (firstn_le_length 2 (filter (inDaypart afternoon) filtered)).
    pose proof (firstn_le_length 2 (filter (inDaypart evening) filtered)).
    destruct part; cbn [List.length]; lia.
  - apply condense_nonempty.
Qed.

Lemma selectTodaysSlots_cases (free : list SuggestedSlot) (now : Z)
    (s : SuggestedSlot) :
  In s (selectTodaysSlots free now) ->
  In s (filterToday free now)
  \/ (filterToday free now = []
      /\ exists duration,
           s = fallbackSlot now duration /\ 15 <= duration <= 30
           /\ duration <= (endOfToday now - minStartOf now) / 60000).
Proof.
  unfold selectTodaysSlots, applyFallback.
  destruct (filterToday free now) as [|x rest] eqn:Hf; [|auto].
  set (minutesLeft := (endOfToday now - minStartOf now) / 60000).
  destruct (Z.max 0 (Z.min 30 minutesLeft) >=? 15) eqn:Hd;
    [|intros []].
  apply Z.geb_le in Hd. intros [<- | []]. right. split; [reflexivity|].
  exists (Z.max 0 (Z.min 30 minutesLeft)). split; [reflexivity|]. lia.
Qed.

Lemma selected_slot_facts (fuel : nat) (sortedEvents : list BusyEvent)
    (clock1 clock2 : Z) (free : list SuggestedSlot) (s : SuggestedSlot) :
  findFreeSlots fuel sortedEvents CALENDAR_CONFIG clock1 = Some free ->
  In s (selectTodaysSlots free clock2) ->
  clock2 + 15 * MS_PER_MINUTE <= startDate s
  /\ startOfToday clock2 <= startDate s
  /\ endDate s <= endOfToday clock2
  /\ 15 <= durationMinutes s <= 30
  /\ endDate s = startDate s + durationMinutes s * MS_PER_MINUTE.
Proof.
  intros Hfree Hs.
  apply selectTodaysSlots_cases in Hs
    as [Hs | (_ & duration & -> & Hd & Hleft)].
  - apply filter_In in Hs as [Hin Hkeep].
    apply andb_prop in Hkeep as [Hkeep Hend].
    apply andb_prop in Hkeep as [Hmin Htoday].
    apply Z.geb_le in Hmin, Htoday. apply Z.leb_le in Hend.
    unfold minStartOf, MIN_FUTURE_BUFFER_MINUTES in Hmin.
    destruct (slots_have_configured_duration _ _ _ _ _ Hfree s Hin)
      as [Hdur Hlen].
    change (minMinutes CALENDAR_CONFIG) with 15 in Hdur.
    change (maxMinutes CALENDAR_CONFIG) with 30 in Hdur.
    unfold MS_PER_MINUTE in *. repeat split; try lia.
  - cbn [fallbackSlot startDate endDate durationMinutes].
    pose proof (startOfDay_bounds clock2) as Hday.
    pose proof (Z.mul_div_le (endOfToday clock2 - minStartOf clock2) 60000
                  ltac:(lia)) as Hfloor.
    unfold startOfToday, minStartOf, MIN_FUTURE_BUFFER_MINUTES,
      MS_PER_MINUTE in *.
    repeat split; try lia.
Qed.

(** X7. Every slot [syncCalendar] puts on screen starts at least 15 minutes
    after the clock reading of its filter, starts and ends today, lasts
    between 15 and 30 minutes, and ends that many minutes after it starts. *)
Theorem synced_slots_are_ahead_today_and_short (fuel : nat)
    (busy : list BusyEvent) (clock1 clock2 : Z)
    (slots : list SuggestedSlot) :
  syncCalendarSlots fuel busy clock1 clock2 = Some slots ->
  forall s,
    In s slots ->
    clock2 + 15 * MS_PER_MINUTE <= startDate s
    /\ startOfToday clock2 <= startDate s
    /\ endDate s <= endOfToday clock2
    /\ 15 <= durationMinutes s <= 30
    /\ endDate s = startDate s + durationMinutes s * MS_PER_MINUTE.
Proof.
  unfold syncCalendarSlots. intros Hrun.
  apply bind_Some in Hrun as (free & Hfree & [= <-]).
  intros s Hs. apply condense_In in Hs.
  apply (selected_slot_facts _ _ _ _ _ _ Hfree Hs).
Qed.

(** X8. [syncCalendar] always comes to an end.  Without permission it
    leaves the permission error and sets no slots; when the permission
    request or the fetch fails it leaves the sync error and sets no slots;
    with permission and the events fetched it sets slots, and at least one
    of them, whatever the calendar holds, as long as 15 whole minutes lie
    between 15 minutes from now and the end of the day. *)
Theorem sync_shows_a_slot_while_time_remains (permitted : option bool)
    (fetched : option (list BusyEvent)) (clock1 clock2 : Z) :
  exists fuel outcome,
    (forall fuel',
        (fuel <= fuel')%nat ->
        syncCalendar fuel' permitted fetched clock1 clock2 = Some outcome)
    /\ match permitted, fetched with
       | Some true, Some _ =>
         exists slots,
           outcome = slotsSet slots
           /\ (15 <= (endOfToday clock2 - minStartOf clock2) / 60000 ->
               slots <> [])
       | Some false, _ => outcome = errorPermissionsDenied
       | _, _ => outcome = errorUnableToSync
       end.
Proof.
  destruct permitted as [[|]|].
  - destruct fetched as [busy|].
    + destruct (scanDays_total (sortByStart busy) CALENDAR_CONFIG clock1
                  (Z.to_nat (days CALENDAR_CONFIG))
                  ltac:(cbn; lia) ltac:(cbn; lia) 0 [])
        as (fuel & all & Hscan).
      set (free := firstn 10 all).
      assert (Hfree : findFreeSlots fuel (sortByStart busy) CALENDAR_CONFIG
                                    clock1 = Some free).
      { unfold findFreeSlots. rewrite Hscan. reflexivity. }
      exists fuel, (slotsSet (condense (selectTodaysSlots free clock2))).
      split.
      * intros fuel' Hfuel. unfold syncCalendar, syncCalendarSlots.
        rewrite (findFreeSlots_fuel_mono _ _ _ _ _ _ Hfuel Hfree).
        reflexivity.
      * eexists. split; [reflexivity|]. intros Hleft.
        apply condense_nonempty. unfold selectTodaysSlots, applyFallback.
        destruct (filterToday free clock2); [|discriminate].
        replace (Z.max 0 (Z.min 30 ((endOfToday clock2 - minStartOf clock2)
                                    / 60000)) >=? 15)
          with true by (symmetry; apply Z.geb_le; lia).
        discriminate.
    + exists 0%nat, errorUnableToSync. split; reflexivity.
  - exists 0%nat, errorPermissionsDenied. split; reflexivity.
  - exists 0%nat, errorUnableToSync. split; reflexivity.
Qed.

(** X9. With the clock of the scan, the zone offset and every event
    boundary on a whole minute, and every event over by the midnight that
    ends its start day, each slot [syncCalendar] shows is clear of every
    fetched event, in whatever order they were fetched, unless it is the
    fallback slot, which is made up without looking at the calendar. *)
Theorem synced_slots_clear_unless_fallback (fuel : nat)
    (busy : list BusyEvent) (clock1 clock2 : Z)
    (slots : list SuggestedSlot) :
  wholeMinute tz -> wholeMinute clock1 ->
  Forall (fun b => wholeMinute (event_startDate b)
                   /\ wholeMinute (event_endDate b)) busy ->
  Forall endsWithinStartDay busy ->
  syncCalendarSlots fuel busy clock1 clock2 = Some slots ->
  forall s,
    In s slots ->
    (forall b, In b busy -> hasConflict [b] (startDate s) (endDate s) = false)
    \/ s = fallbackSlot clock2 (durationMinutes s).
Proof.
  intros Htz Hclock Hwhole Hends. unfold syncCalendarSlots. intros Hrun.
  apply bind_Some in Hrun as (free & Hfree & [= <-]).
  intros s Hs. apply condense_In in Hs.
  apply selectTodaysSlots_cases in Hs as [Hs | (_ & duration & -> & _)];
    [left | right; reflexivity].
  apply filter_In in Hs as [Hin _].
  revert Hfree. unfold findFreeSlots. generalize 10%nat. intros cap Hfree.
  apply bind_Some in Hfree as (all & Hscan & [= <-]).
  apply In_firstn in Hin.
  apply scanDays_clear in Hscan as (new & -> & Hnew); try (cbn; lia); auto.
  - rewrite app_nil_l in Hin. rewrite Forall_forall in Hnew.
    specialize (Hnew s Hin). rewrite Forall_forall in Hnew.
    intros b Hb. apply (proj2 (hasConflict_single_false b s)). apply Hnew.
    apply (proj2 (sortByStart_In b busy)). exact Hb.
  - split; cbn; lia.
  - apply sortByStart_sorted.
  - apply Forall_forall. intros b Hb.
    apply (proj1 (sortByStart_In b busy)) in Hb.
    rewrite Forall_forall in Hwhole. exact (Hwhole b Hb).
  - apply Forall_forall. intros b Hb.
    apply (proj1 (sortByStart_In b busy)) in Hb.
    rewrite Forall_forall in Hends. exact (Hends b Hb).
Qed.

(** ** Rounding of gaps *)

(** X10. [diffMinutes] is never negative, is 0 when the end is not after
    the start, and for a gap that runs forward it is within half a minute of
    the true length: it may count up to 30 s more than there is. *)
Theorem diffMinutes_within_half_minute (start end_ : Z) :
  0 <= diffMinutes start end_
  /\ (end_ <= start -> diffMinutes start end_ = 0)
  /\ (start <= end_ ->
      - 30000 < diffMinutes start end_ * 60000 - (end_ - start) <= 30000).
Proof.
  unfold diffMinutes, MS_PER_MINUTE.
  pose proof (Z.div_mod (end_ - start + 30000) 60000 ltac:(lia)) as Hdm.
  pose proof (Z.mod_pos_bound (end_ - start + 30000) 60000 ltac:(lia)) as Hb.
  repeat split; try lia.
Qed.

(** ** Adding a slot *)

Lemma hasConflict_false_clear (busyEvents : list BusyEvent)
    (slot : SuggestedSlot) :
  hasConflict busyEvents (startDate slot) (endDate slot) = false <->
  forall b, In b busyEvents -> clearOf slot b.
Proof.
  split.
  - intros Hfree b Hb. unfold clearOf.
    destruct (Z_le_gt_dec (endDate slot) (event_startDate b)); [auto|].
    destruct (Z_le_gt_dec (event_endDate b) (startDate slot)); [auto|].
    assert (Hyes : hasConflict busyEvents (startDate slot) (endDate slot)
                   = true).
    { apply hasConflict_true. exists b. repeat split; auto; lia. }
    congruence.
  - intros Hclear.
    destruct (hasConflict busyEvents (startDate slot) (endDate slot)) eqn:Hc;
      [|reflexivity].
    apply hasConflict_true in Hc as (b & Hb & H1 & H2).
    destruct (Hclear b Hb); lia.
Qed.

(** X11. [handleAddSlot] writes to the calendar exactly when the slot is
    not already added, an exercise is chosen, the slot does not start before
    now, it starts and ends today, and it lies wholly before or after every
    busy event on screen; in every other case it only alerts. *)
Theorem handleAddSlot_writes_only_valid_slots (addedId : option string)
    (busyEvents : list BusyEvent) (slot : SuggestedSlot)
    (exercise : option string) (now : Z) :
  handleAddSlot addedId busyEvents slot exercise now = callAddWellnessEvent
  <-> truthy addedId = false
      /\ truthy exercise = true
      /\ now <= startDate slot
      /\ startOfToday now <= startDate slot
      /\ endDate slot <= endOfToday now
      /\ forall b, In b busyEvents -> clearOf slot b.
Proof.
  unfold handleAddSlot. rewrite <- hasConflict_false_clear.
  destruct (truthy addedId); [split; [discriminate | intros (H & _); discriminate]|].
  destruct (truthy exercise); cbn [negb];
    [|split; [discriminate | intros (_ & H & _); discriminate]].
  destruct (Z.ltb_spec (startDate slot) now);
    [split; [discriminate | intros (_ & _ & H' & _); lia]|].
  destruct (Z.ltb_spec (startDate slot) (startOfToday now)); cbn [orb];
    [split; [discriminate | intros (_ & _ & _ & H' & _); lia]|].
  destruct (Z.gtb_spec (endDate slot) (endOfToday now));
    [split; [discriminate | intros (_ & _ & _ & _ & H' & _); lia]|].
  destruct (hasConflict busyEvents (startDate slot) (endDate slot));
    [split; [discriminate | intros (_ & _ & _ & _ & _ & H'); discriminate]|].
  split; [|reflexivity]. intros _. repeat split; auto; lia.
Qed.

(** X12. A slot shown by [syncCalendar], sent from its card with 15 minutes
    picked and an exercise chosen, meets neither the too-late nor the
    today-only alert of [handleAddSlot] during the next 15 minutes of the
    same day: [handleAddSlot] raises the already-added alert when an event
    id is recorded for the slot, if not the conflict alert when the slot
    overlaps an event on screen, and writes the event if not. *)
Theorem synced_slot_stays_addable (fuel : nat) (busy : list BusyEvent)
    (clock1 clock2 clock3 : Z) (slots : list SuggestedSlot)
    (s : SuggestedSlot) (addedId : option string)
    (onScreen : list BusyEvent) (exercise : string) :
  syncCalendarSlots fuel busy clock1 clock2 = Some slots ->
  In s slots ->
  clock3 <= clock2 + 15 * MS_PER_MINUTE ->
  startOfDay clock3 = startOfDay clock2 ->
  exercise <> EmptyString ->
  handleAddSlot addedId onScreen (withDuration s 15) (Some exercise) clock3
  = if truthy addedId then alertAlreadyAdded
    else if hasConflict onScreen (startDate s) (startDate s + 15 * 60000)
         then alertConflict else callAddWellnessEvent.
Proof.
  intros Hsync Hs Hsoon Hday Hex.
  unfold syncCalendarSlots in Hsync.
  apply bind_Some in Hsync as (free & Hfree & [= <-]).
  apply condense_In in Hs.
  destruct (selected_slot_facts _ _ _ _ _ _ Hfree Hs)
    as (Hahead & Htoday & Hend & Hdur & Hlen).
  unfold handleAddSlot. destruct (truthy addedId); [reflexivity|].
  cbn [truthy withDuration startDate endDate].
  replace (String.eqb exercise EmptyString) with false
    by (symmetry; apply String.eqb_neq; exact Hex).
  cbn [negb].
  unfold startOfToday, endOfToday, MS_PER_MINUTE in *. rewrite Hday.
  replace (startDate s <? clock3) with false
    by (symmetry; apply Z.ltb_ge; lia).
  replace (startDate s <? startOfDay clock2) with false
    by (symmetry; apply Z.ltb_ge; lia).
  replace (startDate s + 15 * 60000 >? startOfDay clock2 + MS_PER_DAY - 1)
    with false.
  - reflexivity.
  - symmetry. destruct (Z.gtb_spec (startDate s + 15 * 60000)
                                   (startOfDay clock2 + MS_PER_DAY - 1));
      [lia | reflexivity].
Qed.

(** ** Moving a slot *)

Lemma getHours_range (date : Z) : 0 <= getHours date < 24.
Proof.
  unfold getHours, MS_PER_DAY, MS_PER_HOUR.
  pose proof (Z.mod_pos_bound (date + tz) 86400000 ltac:(lia)) as Hb.
  split.
  - apply Z.div_pos; lia.
  - apply Z.div_lt_upper_bound; lia.
Qed.

Lemma getMinutes_range (date : Z) : 0 <= getMinutes date < 60.
Proof.
  unfold getMinutes, MS_PER_MINUTE, MS_PER_HOUR.
  pose proof (Z.mod_pos_bound (date + tz) 3600000 ltac:(lia)) as Hb.
  split.
  - apply Z.div_pos; lia.
  - apply Z.div_lt_upper_bound; lia.
Qed.

Lemma setHoursMinutes_clock (date hours minutes : Z) :
  0 <= hours < 24 -> 0 <= minutes < 60 ->
  startOfDay (setHoursMinutes date hours minutes) = startOfDay date
  /\ getHours (setHoursMinutes date hours minutes) = hours
  /\ getMinutes (setHoursMinutes date hours minutes) = minutes.
Proof.
  intros Hh Hm.
  pose proof (startOfDay_boundary date) as Hboundary.
  unfold setHoursMinutes, getHours, getMinutes.
  set (dayStart := startOfDay date) in *.
  assert (Hday : exists q, dayStart + tz = q * MS_PER_DAY).
  { exists ((dayStart + tz) / MS_PER_DAY).
    pose proof (Z.div_mod (dayStart + tz) MS_PER_DAY ltac:(discriminate)).
    lia. }
  destruct Hday as (q & Hq).
  assert (Hmod : (dayStart + hours * MS_PER_HOUR + minutes * MS_PER_MINUTE
                  + tz) mod MS_PER_DAY
                 = hours * MS_PER_HOUR + minutes * MS_PER_MINUTE).
  { replace (dayStart + hours * MS_PER_HOUR + minutes * MS_PER_MINUTE + tz)
      with (hours * MS_PER_HOUR + minutes * MS_PER_MINUTE + q * MS_PER_DAY)
      by lia.
    rewrite Z.mod_add by discriminate.
    apply Z.mod_small. unfold MS_PER_HOUR, MS_PER_MINUTE, MS_PER_DAY. lia. }
  split; [|split].
  - unfold startOfDay at 1. rewrite Hmod. lia.
  - rewrite Hmod. unfold MS_PER_HOUR, MS_PER_MINUTE.
    replace (hours * 3600000 + minutes * 60000)
      with (minutes * 60000 + hours * 3600000) by ring.
    rewrite Z.div_add by lia. rewrite Z.div_small by lia. lia.
  - replace (dayStart + hours * MS_PER_HOUR + minutes * MS_PER_MINUTE + tz)
      with (minutes * MS_PER_MINUTE + (hours + q * 24) * MS_PER_HOUR)
      by (unfold MS_PER_HOUR, MS_PER_DAY in *; lia).
    rewrite Z.mod_add by discriminate.
    rewrite Z.mod_small by (unfold MS_PER_HOUR, MS_PER_MINUTE; lia).
    unfold MS_PER_MINUTE. apply Z.div_mul. lia.
Qed.

(** X13. When [handleTimePicked] accepts a new time, the list on screen is
    the one before with every slot of the edited id replaced by the moved
    slot and every other slot left as it was, in place; so it keeps its
    length and its ids.  The moved slot keeps the id, the duration and the
    status of the edited one, stays on the calendar day it was on, starts
    at the picked hour and minute with the seconds at zero, ends its
    duration later, does not start before now and overlaps no busy event;
    and no event id is recorded for the edited slot. *)
Theorem handleTimePicked_moves_within_the_day (editing : SuggestedSlot)
    (picked : Z) (existing : option string) (busyEvents : list BusyEvent)
    (prev slots : list SuggestedSlot) (now : Z) :
  handleTimePicked (Some editing) (Some picked) existing busyEvents prev now
  = slotsUpdated slots ->
  exists moved,
    slots = map (fun s => if String.eqb (id s) (id editing) then moved else s)
                prev
    /\ List.length slots = List.length prev
    /\ map id slots = map id prev
    /\ id moved = id editing
    /\ durationMinutes moved = durationMinutes editing
    /\ status moved = status editing
    /\ startOfDay (startDate moved) = startOfDay (startDate editing)
    /\ getHours (startDate moved) = getHours picked
    /\ getMinutes (startDate moved) = getMinutes picked
    /\ (startDate moved + tz) mod MS_PER_MINUTE = 0
    /\ endDate moved = startDate moved + durationMinutes moved * MS_PER_MINUTE
    /\ now <= startDate moved
    /\ truthy existing = false
    /\ hasConflict busyEvents (startDate moved) (endDate moved) = false.
Proof.
  unfold handleTimePicked.
  set (newStart := setHoursMinutes (startDate editing) (getHours picked)
                                   (getMinutes picked)).
  destruct (Z.ltb_spec newStart now) as [|Hnow]; [discriminate|].
  destruct (truthy existing); [discriminate|].
  destruct (hasConflict busyEvents newStart
                        (newStart + durationMinutes editing * 60000))
    eqn:Hfree; [discriminate|].
  intros [= <-].
  destruct (setHoursMinutes_clock (startDate editing) (getHours picked)
              (getMinutes picked) (getHours_range picked)
              (getMinutes_range picked)) as (Hday & Hh & Hm).
  fold newStart in Hday, Hh, Hm.
  assert (Hzero : (newStart + tz) mod MS_PER_MINUTE = 0).
  { pose proof (startOfDay_boundary (startDate editing)) as Hboundary.
    apply Z.mod_divide in Hboundary; [|discriminate].
    destruct Hboundary as (q & Hq).
    unfold newStart, setHoursMinutes.
    replace (startOfDay (startDate editing) + getHours picked * MS_PER_HOUR
             + getMinutes picked * MS_PER_MINUTE + tz)
      with ((q * 1440 + getHours picked * 60 + getMinutes picked)
            * MS_PER_MINUTE)
      by (unfold MS_PER_DAY, MS_PER_HOUR, MS_PER_MINUTE in *; lia).
    apply Z.mod_mul. discriminate. }
  eexists. split; [reflexivity|].
  cbn [id startDate endDate durationMinutes status].
  split; [apply length_map|]. split.
  - rewrite map_map. apply map_ext_in. intros a _.
    destruct (String.eqb_spec (id a) (id editing)) as [He|He];
      [symmetry; exact He | reflexivity].
  - unfold MS_PER_MINUTE in *. repeat split; auto.
Qed.

(** ** Moods and exercises *)

Lemma listsExercise_false (name : string) (key : MoodKey) :
  ~ In name (exercisesOf key) -> listsExercise name key = false.
Proof.
  intros Hnot. unfold listsExercise.
  destruct (existsb (String.eqb name) (exercisesOf key)) eqn:He;
    [|reflexivity].
  apply existsb_exists in He as (x & Hx & Heq).
  apply String.eqb_eq in Heq. subst x. contradiction.
Qed.

(** X14. An exercise listed under a mood is mapped back to that mood by
    [moodForExercise] and by [deriveMoodFromExercise], whatever the mood on
    screen; an exercise listed nowhere, an empty one or none at all gives
    the mood on screen, or the fallback mood when one is passed. *)
Theorem exercise_maps_back_to_its_mood (mood : MoodKey)
    (fallbackMood : option MoodKey) :
  (forall key exercise,
      In exercise (exercisesOf key) ->
      moodForExercise mood (Some exercise) = key
      /\ deriveMoodFromExercise mood (Some exercise) fallbackMood = key)
  /\ (forall exercise,
         (forall key, ~ In exercise (exercisesOf key)) ->
         moodForExercise mood (Some exercise) = mood
         /\ deriveMoodFromExercise mood (Some exercise) fallbackMood
            = match fallbackMood with Some m => m | None => mood end)
  /\ moodForExercise mood None = mood
  /\ moodForExercise mood (Some EmptyString) = mood.
Proof.
  split; [|split; [|split; reflexivity]].
  - intros key exercise Hin.
    destruct key; cbn [exercisesOf In] in Hin;
      destruct Hin as [<- | [<- | [<- | []]]]; split; reflexivity.
  - intros exercise Hnone.
    unfold moodForExercise, deriveMoodFromExercise, MOOD_KEYS. cbn [find].
    rewrite !listsExercise_false by apply Hnone.
    destruct (String.eqb exercise EmptyString); split; reflexivity.
Qed.

(** ** The calendar an event is written to *)

(** X15. When [addWellnessEvent] is given a calendar id it writes there and
    does not look further.  Otherwise the calendar it picks is one that
    [findCalendars] returned, is never one whose [allowsModifications] is
    false, and is a primary one whenever some modifiable calendar is
    primary; if none is modifiable, or the enumeration throws, no calendar
    id is set. *)
Theorem targetCalendarId_is_modifiable (calendarId : option string)
    (calendars : option (list Calendar)) :
  (truthy calendarId = true ->
   targetCalendarId calendarId calendars = calendarId)
  /\ (truthy calendarId = false ->
      forall chosen,
        targetCalendarId calendarId calendars = Some chosen ->
        exists found cal,
          calendars = Some found /\ In cal found
          /\ calendar_id cal = chosen
          /\ modifiable cal = true
          /\ (primary cal = true
              \/ forall other,
                   In other found -> modifiable other = true ->
                   primary other = false))
  /\ (truthy calendarId = false ->
      (calendars = None
       \/ exists found,
            calendars = Some found
            /\ forall cal, In cal found -> modifiable cal = false) ->
      targetCalendarId calendarId calendars = None).
Proof.
  unfold targetCalendarId. split; [|split].
  - intros Hgiven. rewrite Hgiven, Hgiven. reflexivity.
  - intros Hnone chosen. rewrite Hnone.
    destruct calendars as [found|]; [|rewrite Hnone; discriminate].
    unfold writableCalendar.
    destruct (find (fun cal => modifiable cal && primary cal) found)
      as [cal|] eqn:Hprimary.
    + apply find_some in Hprimary as [Hin Hcal].
      apply andb_prop in Hcal as [Hmod Hprim].
      destruct (truthy (Some (calendar_id cal))); [|discriminate].
      intros [= <-]. exists found, cal. repeat split; auto.
    + destruct (find modifiable found) as [cal|] eqn:Hany;
        [|rewrite Hnone; discriminate].
      apply find_some in Hany as [Hin Hmod].
      destruct (truthy (Some (calendar_id cal))); [|discriminate].
      intros [= <-]. exists found, cal. repeat split; auto.
      right. intros other Hother Hm.
      pose proof (find_none _ _ Hprimary other Hother) as Hno.
      cbv beta in Hno. rewrite Hm in Hno. exact Hno.
  - intros Hnone Hcals. rewrite Hnone.
    destruct Hcals as [-> | (found & -> & Hall)]; [rewrite Hnone; reflexivity|].
    unfold writableCalendar.
    destruct (find (fun cal => modifiable cal && primary cal) found)
      as [cal|] eqn:Hprimary.
    { apply find_some in Hprimary as [Hin Hcal].
      apply andb_prop in Hcal as [Hmod _].
      rewrite (Hall cal Hin) in Hmod. discriminate. }
    destruct (find modifiable found) as [cal|] eqn:Hany.
    { apply find_some in Hany as [Hin Hmod].
      rewrite (Hall cal Hin) in Hmod. discriminate. }
    rewrite Hnone. reflexivity.
Qed.

(** ** Notes and metadata *)

Lemma startsWith_app (prefix rest : jsText) :
  startsWith prefix (prefix ++ rest) = true.
Proof.
  induction prefix as [|p prefix IH]; simpl; [reflexivity|].
  rewrite N.eqb_refl. exact IH.
Qed.

Lemma startsWith_app_l (needle text rest : jsText) :
  startsWith needle text = true -> startsWith needle (text ++ rest) = true.
Proof.
  revert text. induction needle as [|p needle IH]; intros [|c text]; simpl;
    try reflexivity; try discriminate.
  intros H. apply andb_prop in H as [Hpc Hrest].
  rewrite Hpc. simpl. apply IH. exact Hrest.
Qed.

Lemma includes_app_l (needle text rest : jsText) :
  includes needle text = true -> includes needle (text ++ rest) = true.
Proof.
  induction text as [|c text IH].
  - simpl. rewrite orb_false_r. intros H.
    destruct needle; [|discriminate]. destruct rest; reflexivity.
  - cbn [includes app]. intros H. apply orb_prop in H as [H|H].
    + pose proof (startsWith_app_l needle (c :: text) rest H) as E.
      cbn [app] in E. rewrite E. reflexivity.
    + rewrite (IH H). apply orb_true_r.
Qed.

Lemma replaceFirst_unfold (pattern replacement text : jsText) :
  replaceFirst pattern replacement text
  = if startsWith pattern text
    then (replacement ++ skipn (List.length pattern) text)%list
    else match text with
         | [] => []
         | c :: rest => c :: replaceFirst pattern replacement rest
         end.
Proof. destruct text; reflexivity. Qed.

Lemma replaceFirst_prefix (pattern rest : jsText) :
  replaceFirst pattern [] (pattern ++ rest) = rest.
Proof.
  rewrite replaceFirst_unfold, startsWith_app. cbn [app].
  induction pattern as [|p pattern IH]; [reflexivity | exact IH].
Qed.

Lemma splitLines_nonempty (text : jsText) : splitLines text <> [].
Proof.
  induction text as [|c text IH]; simpl; [discriminate|].
  destruct (N.eqb c LINE_FEED); [discriminate|].
  destruct (splitLines text); discriminate.
Qed.

Lemma splitLines_app (before after : jsText) :
  splitLines (before ++ LINE_FEED :: after)
  = (splitLines before ++ splitLines after)%list.
Proof.
  induction before as [|c before IH]; [reflexivity|].
  cbn [app splitLines]. rewrite IH.
  destruct (N.eqb c LINE_FEED); [reflexivity|].
  pose proof (splitLines_nonempty before) as Hne.
  destruct (splitLines before); [congruence | reflexivity].
Qed.

Lemma splitLines_single (text : jsText) :
  ~ In LINE_FEED text -> splitLines text = [text].
Proof.
  induction text as [|c text IH]; intros Hno; [reflexivity|].
  cbn [splitLines].
  destruct (N.eqb_spec c LINE_FEED) as [->|_];
    [exfalso; apply Hno; left; reflexivity|].
  rewrite IH; [reflexivity|]. intros Hin. apply Hno. right. exact Hin.
Qed.

Lemma find_app {A : Type} (f : A -> bool) (l1 l2 : list A) :
  find f (l1 ++ l2)
  = match find f l1 with Some x => Some x | None => find f l2 end.
Proof.
  induction l1 as [|x l1 IH]; simpl; [reflexivity|].
  destruct (f x); [reflexivity | exact IH].
Qed.

Lemma trim_bracketed (first last : N) (middle : jsText) :
  isWhiteSpace first = false -> isWhiteSpace last = false ->
  trim (first :: middle ++ [last]) = first :: middle ++ [last].
Proof.
  intros Hfirst Hlast. unfold trim. cbn [trimStart]. rewrite Hfirst.
  unfold trimEnd.
  replace (rev (first :: middle ++ [last]))
    with (last :: rev (first :: middle))
    by (cbn [rev]; rewrite rev_app_distr; reflexivity).
  cbn [trimStart]. rewrite Hlast.
  cbn [rev]. rewrite rev_app_distr, rev_involutive. reflexivity.
Qed.

(** ** Slots already in the calendar *)

Lemma getAdded_fold (key : string) (events : list FetchedEvent) :
  forall acc,
    getAdded
      (fold_left
         (fun acc event =>
            if isAppCreated (busyEvent event) && truthy (fetched_slotId event)
            then match fetched_slotId event with
                 | Some k => (k, event_id (busyEvent event)) :: acc
                 | None => acc
                 end
            else acc)
         events acc) key
    = match find (carriesSlot key) (rev events) with
      | Some event => Some (event_id (busyEvent event))
      | None => getAdded acc key
      end.
Proof.
  induction events as [|e events IH]; intros acc; [reflexivity|].
  cbn [fold_left rev]. rewrite IH, find_app.
  destruct (find (carriesSlot key) (rev events)); [reflexivity|].
  cbn [find]. unfold carriesSlot.
  destruct (isAppCreated (busyEvent e) && truthy (fetched_slotId e));
    [|reflexivity].
  destruct (fetched_slotId e) as [k|]; [|reflexivity].
  cbn [getAdded andb]. destruct (String.eqb key k); reflexivity.
Qed.

Lemma getAdded_last (key : string) (events : list FetchedEvent) :
  getAdded (addedEventIdsBySlot events) key
  = match find (carriesSlot key) (rev events) with
    | Some event => Some (event_id (busyEvent event))
    | None => None
    end.
Proof. unfold addedEventIdsBySlot. apply getAdded_fold. Qed.

(** A number is rendered with a digit or a minus sign in front. *)
Lemma showNumber_first (n : Z) :
  exists c rest,
    showNumber n = String c rest
    /\ In c ["0"; "1"; "2"; "3"; "4"; "5"; "6"; "7"; "8"; "9"; "-"]%char.
Proof.
  unfold showNumber.
  destruct (Z.to_int n) as [d|d]; destruct d; cbn;
    eexists _, _; (split; [reflexivity|]); cbn; tauto.
Qed.

(** No text with a digit or a minus sign in front names a property of
    [Object.prototype]. *)
Lemma numbered_id_not_inherited (n : Z) (suffix : string) :
  ~ In (showNumber n ++ suffix)%string OBJECT_PROTOTYPE_NAMES.
Proof.
  destruct (showNumber_first n) as (c & rest & -> & Hc).
  cbn [String.append]. intros Hin.
  assert (Hfirst : In c ["c"; "h"; "i"; "p"; "t"; "v"; "_"]%char).
  { cbn in Hin. cbn.
    repeat (destruct Hin as [Hin|Hin];
            [injection Hin as Hhead _; rewrite <- Hhead; tauto|]).
    contradiction. }
  cbn in Hc, Hfirst.
  repeat (destruct Hc as [<-|Hc];
          [repeat (destruct Hfirst as [Hfirst|Hfirst];
                   [discriminate|]); contradiction|]).
  contradiction.
Qed.

Lemma inherited_name_spec (key : string) :
  existsb (String.eqb key) OBJECT_PROTOTYPE_NAMES = true
  <-> In key OBJECT_PROTOTYPE_NAMES.
Proof.
  rewrite existsb_exists. split.
  - intros (name & Hin & Heq). apply String.eqb_eq in Heq. subst. exact Hin.
  - intros Hin. exists key. split; [exact Hin | apply String.eqb_refl].
Qed.

(** X18. Reading [addedEventIdsBySlot] at a key that is no property name of
    [Object.prototype] gives the id of the last event of the list that is
    app-created and carries that key as slot id (an empty slot id counts
    as none), and [undefined] exactly when there is no such event; the
    handlers' test of the value is then the test of the recorded id.  A key
    that names a property of [Object.prototype] never reads as
    [undefined]: ["__proto__"] reads as the prototype whatever was written,
    any other such name as the last id written under it, if any.  The ids
    [buildSlot] and the fallback give to slots name no such property. *)
Theorem addedEventIdsBySlot_last_wins (key : string)
    (events : list FetchedEvent) :
  (~ In key OBJECT_PROTOTYPE_NAMES ->
   readAdded events key
   = match find (carriesSlot key) (rev events) with
     | Some event => readId (event_id (busyEvent event))
     | None => readUndefined
     end
   /\ (readAdded events key <> readUndefined
       <-> exists event,
             In event events
             /\ isAppCreated (busyEvent event) = true
             /\ fetched_slotId event = Some key
             /\ key <> EmptyString)
   /\ truthyRead (readAdded events key)
      = truthy (getAdded (addedEventIdsBySlot events) key))
  /\ (In key OBJECT_PROTOTYPE_NAMES ->
      readAdded events key <> readUndefined
      /\ (key = "__proto__"%string -> readAdded events key = readInherited)
      /\ (key <> "__proto__"%string ->
          readAdded events key
          = match find (carriesSlot key) (rev events) with
            | Some event => readId (event_id (busyEvent event))
            | None => readInherited
            end))
  /\ (forall anchor duration now,
         key = id (buildSlot anchor duration)
         \/ key = id (fallbackSlot now duration) ->
         ~ In key OBJECT_PROTOTYPE_NAMES).
Proof.
  split; [|split].
  - intros Hown.
    assert (Hproto : String.eqb key "__proto__" = false).
    { apply String.eqb_neq. intros ->. apply Hown. cbn. tauto. }
    assert (Hnone : existsb (String.eqb key) OBJECT_PROTOTYPE_NAMES = false).
    { destruct (existsb (String.eqb key) OBJECT_PROTOTYPE_NAMES) eqn:E;
        [|reflexivity].
      apply inherited_name_spec in E. contradiction. }
    assert (Hread : readAdded events key
                    = match find (carriesSlot key) (rev events) with
                      | Some event => readId (event_id (busyEvent event))
                      | None => readUndefined
                      end).
    { unfold readAdded. rewrite Hproto, getAdded_last, Hnone.
      destruct (find (carriesSlot key) (rev events)); reflexivity. }
    split; [exact Hread|]. split.
    + rewrite Hread. split.
      * destruct (find (carriesSlot key) (rev events)) as [event|] eqn:Hfind;
          [|congruence].
        intros _. apply find_some in Hfind as [Hin Hcarries].
        apply in_rev in Hin. exists event. unfold carriesSlot in Hcarries.
        apply andb_prop in Hcarries as [Hcarries Hkey].
        apply andb_prop in Hcarries as [Happ Htruthy].
        destruct (fetched_slotId event) as [k|]; [|discriminate].
        apply String.eqb_eq in Hkey. subst k. repeat split; auto.
        cbn [truthy] in Htruthy. intros ->. discriminate.
      * intros (event & Hin & Happ & Hslot & Hkey).
        destruct (find (carriesSlot key) (rev events)) eqn:Hfind;
          [discriminate|].
        apply in_rev in Hin.
        pose proof (find_none _ _ Hfind event Hin) as Hno.
        unfold carriesSlot in Hno. rewrite Happ, Hslot in Hno.
        cbn [truthy andb] in Hno. rewrite String.eqb_refl in Hno.
        replace (String.eqb key EmptyString) with false in Hno
          by (symmetry; apply String.eqb_neq; exact Hkey).
        discriminate.
    + unfold readAdded. rewrite Hproto, Hnone.
      destruct (getAdded (addedEventIdsBySlot events) key); reflexivity.
  - intros Hinherited. apply inherited_name_spec in Hinherited.
    split; [|split].
    + unfold readAdded. rewrite Hinherited.
      destruct (String.eqb key "__proto__"); [discriminate|].
      destruct (getAdded (addedEventIdsBySlot events) key); discriminate.
    + intros ->. reflexivity.
    + intros Hkey. apply String.eqb_neq in Hkey.
      unfold readAdded. rewrite Hkey, getAdded_last, Hinherited.
      destruct (find (carriesSlot key) (rev events)); reflexivity.
  - intros anchor duration now [-> | ->]; cbn [id buildSlot fallbackSlot];
      apply numbered_id_not_inherited.
Qed.

Section JsonProperties.

Variable jsonStringify : WellnessMeta -> jsText.
Variable jsonParse : jsText -> option WellnessMeta.

(** What the code relies on from [JSON]: the text of an object is braced
    and holds no raw line feed, and parsing it gives the object back. *)
Definition jsonRoundTrips (meta : WellnessMeta) : Prop :=
  (exists body, jsonStringify meta = (123 :: body ++ [125])%N)
  /\ ~ In LINE_FEED (jsonStringify meta)
  /\ jsonParse (jsonStringify meta) = Some meta.

(** No line of the text, once trimmed, starts with the metadata prefix. *)
Definition noMetaLine (text : jsText) : Prop :=
  find (startsWith META_PREFIX) (map trim (splitLines text)) = None.

Lemma metaLine_trimmed (meta : WellnessMeta) :
  jsonRoundTrips meta ->
  trim (META_PREFIX ++ jsonStringify meta) = (META_PREFIX ++ jsonStringify meta)%list
  /\ trim (jsonStringify meta) = jsonStringify meta
  /\ splitLines (META_PREFIX ++ jsonStringify meta)
     = [(META_PREFIX ++ jsonStringify meta)%list].
Proof.
  intros ((body & Hshape) & Hlf & _). split; [|split].
  - rewrite Hshape.
    assert (Hprefix : exists rest, META_PREFIX = 87%N :: rest)
      by (eexists; reflexivity).
    destruct Hprefix as (rest & ->).
    replace ((87%N :: rest) ++ 123%N :: body ++ [125%N])%list
      with (87%N :: (rest ++ 123%N :: body) ++ [125%N])%list
      by (cbn [app]; rewrite <- app_assoc; reflexivity).
    apply trim_bracketed; reflexivity.
  - rewrite Hshape. apply trim_bracketed; reflexivity.
  - apply splitLines_single. intros Hin. apply in_app_or in Hin as [Hin|Hin].
    + revert Hin. unfold META_PREFIX, lit, LINE_FEED.
      cbn [list_ascii_of_string map In]. intuition discriminate.
    + contradiction.
Qed.

Lemma parseMeta_of_merged (base : jsText) (meta : WellnessMeta) :
  jsonRoundTrips meta -> noMetaLine base ->
  parseMeta jsonParse
    (Some (joinLines (definedTexts
                        [Some base; Some (META_PREFIX ++ jsonStringify meta)%list])))
  = Some meta.
Proof.
  intros Hjson Hbase.
  destruct (metaLine_trimmed meta Hjson) as (Htrim & Htrimjs & Hsplit).
  destruct Hjson as ((body & Hshape) & Hlf & Hparse).
  assert (Hline : forall text,
             text = (META_PREFIX ++ jsonStringify meta)%list ->
             find (startsWith META_PREFIX) (map trim (splitLines text))
             = Some text).
  { intros text ->. rewrite Hsplit. cbn [map find].
    rewrite Htrim, startsWith_app. reflexivity. }
  assert (Hpayload :
            jsonParse (trim (replaceFirst META_PREFIX []
                               (META_PREFIX ++ jsonStringify meta)))
            = Some meta).
  { rewrite replaceFirst_prefix, Htrimjs. exact Hparse. }
  assert (Hcons : exists c rest,
             (META_PREFIX ++ jsonStringify meta)%list = c :: rest).
  { unfold META_PREFIX, lit. cbn [list_ascii_of_string map app]. eauto. }
  destruct Hcons as (c & rest & Hcons).
  destruct base as [|b base].
  - cbn [definedTexts]. rewrite Hcons. cbn [definedTexts joinLines].
    rewrite <- Hcons. unfold parseMeta. rewrite Hcons at 1.
    rewrite (Hline _ eq_refl). exact Hpayload.
  - cbn [definedTexts]. rewrite Hcons. cbn [definedTexts joinLines].
    rewrite <- Hcons. unfold parseMeta. cbn [app].
    change (b :: (base ++ LINE_FEED :: META_PREFIX ++ jsonStringify meta)%list)
      with ((b :: base) ++ LINE_FEED :: META_PREFIX ++ jsonStringify meta)%list.
    rewrite splitLines_app, map_app, find_app.
    unfold noMetaLine in Hbase. rewrite Hbase.
    rewrite (Hline _ eq_refl). exact Hpayload.
Qed.

Lemma noMetaLine_default : noMetaLine EVENT_NOTES.
Proof. vm_compute. reflexivity. Qed.

Lemma noMetaLine_base (notes : option jsText) :
  (forall text, notes = Some text -> noMetaLine text) ->
  noMetaLine (match notes with Some text => text | None => EVENT_NOTES end).
Proof.
  intros Hnotes. destruct notes as [text|]; [apply Hnotes; reflexivity|].
  apply noMetaLine_default.
Qed.

Lemma mergedNotes_with_meta (notes : option jsText) (meta : WellnessMeta) :
  metaLine jsonStringify meta <> None ->
  mergedNotes jsonStringify notes meta
  = joinLines
      (definedTexts
         [Some (match notes with Some text => text | None => EVENT_NOTES end);
          Some (META_PREFIX ++ jsonStringify meta)%list]).
Proof.
  unfold mergedNotes, metaLine.
  destruct (truthy (meta_exercise meta) || truthy (meta_exerciseMood meta)
            || truthy (meta_slotId meta) || truthy (meta_userMood meta));
    [reflexivity | congruence].
Qed.

(** X16. Metadata written by [addWellnessEvent] is read back by
    [parseMeta]: when at least one of the four fields is set and no line of
    the notes passed in starts, once trimmed, with the metadata prefix (the
    default notes never do), parsing the merged notes gives the same
    metadata. *)
Theorem metadata_round_trip (notes : option jsText) (meta : WellnessMeta) :
  jsonRoundTrips meta ->
  metaLine jsonStringify meta <> None ->
  (forall text, notes = Some text -> noMetaLine text) ->
  parseMeta jsonParse (Some (mergedNotes jsonStringify notes meta))
  = Some meta.
Proof.
  intros Hjson Hset Hnotes.
  rewrite mergedNotes_with_meta by exact Hset.
  apply parseMeta_of_merged; [exact Hjson|].
  destruct notes as [text|]; [apply Hnotes; reflexivity|].
  apply noMetaLine_default.
Qed.

Lemma mergedNotes_default_includes (meta : WellnessMeta) :
  includes (lit "Wellness app") (mergedNotes jsonStringify None meta) = true.
Proof.
  unfold mergedNotes.
  assert (Hbase : includes (lit "Wellness app") EVENT_NOTES = true)
    by (vm_compute; reflexivity).
  assert (Hcons : exists c rest, EVENT_NOTES = c :: rest)
    by (eexists; eexists; reflexivity).
  destruct Hcons as (c & rest & Hcons). rewrite Hcons in *.
  cbn [definedTexts].
  destruct (metaLine jsonStringify meta) as [[|m line]|];
    cbn [definedTexts joinLines]; try exact Hbase.
  apply includes_app_l. exact Hbase.
Qed.

(** X17. An event saved by [addWellnessEvent] is recognised when it is
    fetched again, whatever its title has become: with metadata, whether
    the calendar returns the notes as [notes] or only as [description], it
    is marked app-created and carries the saved slot id, exercise and
    moods; with the default notes returned as [notes] it is marked
    app-created even without metadata. *)
Theorem saved_event_is_recognised (raw : CalendarEvent)
    (notes : option jsText) (meta : WellnessMeta) :
  (jsonRoundTrips meta ->
   metaLine jsonStringify meta <> None ->
   (forall text, notes = Some text -> noMetaLine text) ->
   raw_notes raw = Some (mergedNotes jsonStringify notes meta)
   \/ (raw_notes raw = None
       /\ raw_description raw = Some (mergedNotes jsonStringify notes meta)) ->
   let fetched := toBusyEvent jsonParse raw in
   isAppCreated (busyEvent fetched) = true
   /\ fetched_slotId fetched = meta_slotId meta
   /\ fetched_exercise fetched = meta_exercise meta
   /\ fetched_exerciseMood fetched = meta_exerciseMood meta
   /\ fetched_userMood fetched = meta_userMood meta
   /\ event_id (busyEvent fetched) = raw_id raw)
  /\ (raw_notes raw = Some (mergedNotes jsonStringify None meta) ->
      isAppCreated (busyEvent (toBusyEvent jsonParse raw)) = true).
Proof.
  split.
  - intros Hjson Hset Hnotes Hraw fetched.
    assert (Hparse : parseMeta jsonParse
                       (Some (mergedNotes jsonStringify notes meta))
                     = Some meta).
    { rewrite mergedNotes_with_meta by exact Hset.
      apply parseMeta_of_merged; [exact Hjson|].
      apply noMetaLine_base. exact Hnotes. }
    assert (Hmeta : parseMeta jsonParse
                      (match raw_notes raw with
                       | Some text => Some text
                       | None => raw_description raw
                       end) = Some meta).
    { destruct Hraw as [-> | [-> ->]]; exact Hparse. }
    unfold fetched, toBusyEvent. rewrite Hmeta.
    cbn [busyEvent isAppCreated fetched_slotId fetched_exercise
         fetched_exerciseMood fetched_userMood event_id].
    rewrite !orb_true_r. repeat split.
  - intros Hraw. unfold toBusyEvent. rewrite Hraw.
    cbn [busyEvent isAppCreated].
    rewrite mergedNotes_default_includes, orb_true_r. reflexivity.
Qed.

(** X19. Once a slot has been saved with its id as slot id, and the saved
    event is among the fetched ones with its notes, [handleAddSlot] answers
    "already added" for that slot, whatever else is on screen, provided the
    slot id is not empty and no fetched event has an empty id. *)
Theorem saved_slot_is_reported_already_added (raws : list CalendarEvent)
    (raw : CalendarEvent) (notes : option jsText) (meta : WellnessMeta)
    (slot : SuggestedSlot) (onScreen : list BusyEvent)
    (exercise : option string) (now : Z) :
  jsonRoundTrips meta ->
  (forall text, notes = Some text -> noMetaLine text) ->
  meta_slotId meta = Some (id slot) -> id slot <> EmptyString ->
  In raw raws ->
  raw_notes raw = Some (mergedNotes jsonStringify notes meta) ->
  Forall (fun r => raw_id r <> EmptyString) raws ->
  handleAddSlot
    (getAdded (addedEventIdsBySlot (map (toBusyEvent jsonParse) raws))
              (id slot))
    onScreen slot exercise now
  = alertAlreadyAdded.
Proof.
  intros Hjson Hnotes Hslot Hkey Hin Hraw Hids.
  assert (Hset : metaLine jsonStringify meta <> None).
  { unfold metaLine. rewrite Hslot. cbn [truthy].
    replace (String.eqb (id slot) EmptyString) with false
      by (symmetry; apply String.eqb_neq; exact Hkey).
    cbn [negb]. rewrite orb_true_r. cbn [orb]. discriminate. }
  assert (Hparse : parseMeta jsonParse
                     (Some (mergedNotes jsonStringify notes meta))
                   = Some meta).
  { rewrite mergedNotes_with_meta by exact Hset.
    apply parseMeta_of_merged; [exact Hjson|].
    apply noMetaLine_base. exact Hnotes. }
  set (events := map (toBusyEvent jsonParse) raws).
  assert (Hcarrier : In (toBusyEvent jsonParse raw) (rev events)
                     /\ carriesSlot (id slot) (toBusyEvent jsonParse raw)
                        = true).
  { split; [apply -> in_rev; apply in_map; exact Hin|].
    unfold carriesSlot, toBusyEvent. rewrite Hraw, Hparse, Hslot.
    cbn [busyEvent isAppCreated fetched_slotId truthy].
    rewrite String.eqb_refl, !orb_true_r.
    replace (String.eqb (id slot) EmptyString) with false
      by (symmetry; apply String.eqb_neq; exact Hkey).
    reflexivity. }
  rewrite getAdded_last.
  destruct (find (carriesSlot (id slot)) (rev events)) as [event|] eqn:Hfind.
  2:{ destruct Hcarrier as [Hc1 Hc2].
      rewrite (find_none _ _ Hfind _ Hc1) in Hc2. discriminate. }
  apply find_some in Hfind as [Hevent _].
  apply in_rev in Hevent. apply in_map_iff in Hevent as (r & <- & Hr).
  rewrite Forall_forall in Hids. specialize (Hids r Hr).
  unfold handleAddSlot. cbn [toBusyEvent busyEvent event_id truthy].
  replace (String.eqb (raw_id r) EmptyString) with false
    by (symmetry; apply String.eqb_neq; exact Hids).
  reflexivity.
Qed.

End JsonProperties.

End CalendarService.

(** * The theorems at concrete calendars (zone offset 0) *)

(** Closed comparisons and equations between numerals. *)
Ltac by_computation :=
  vm_compute;
  first [ reflexivity
        | discriminate
        | let H := fresh in intro H; discriminate H ].

Ltac each_event := repeat constructor; by_computation.

(** ** C1 *)

(** C1 fails as stated.  With the two meetings listed latest first the slot
    08:00-08:30 is offered across the 08:00-09:00 meeting; and a meeting
    that began the evening before and runs to 08:00 is not looked at when
    today is scanned, so 07:00-07:30 is offered across it. *)
Lemma slots_overlap_busy_counterexample :
  (exists slots s b,
      findFreeSlots 0 100 morningUnsorted CALENDAR_CONFIG (clockAt 7 0 0)
      = Some slots
      /\ In s slots /\ In b morningUnsorted
      /\ hasConflict [b] (startDate s) (endDate s) = true)
  /\ (exists slots s b,
         findFreeSlots 0 100 overnight CALENDAR_CONFIG (clockAt 7 0 0)
         = Some slots
         /\ In s slots /\ In b overnight
         /\ hasConflict [b] (startDate s) (endDate s) = true).
Proof.
  split.
  - eexists. exists (buildSlot (clockAt 8 0 0) 30).
    exists (meeting "a" (clockAt 8 0 0) (clockAt 9 0 0)).
    split; [vm_compute; reflexivity|].
    split; [vm_compute; tauto|].
    split; [vm_compute; tauto|].
    vm_compute. reflexivity.
  - eexists. exists (buildSlot (clockAt 7 0 0) 30).
    exists (meeting "night" (clockAt (-1) 0 0) (clockAt 8 0 0)).
    split; [vm_compute; reflexivity|].
    split; [vm_compute; tauto|].
    split; [vm_compute; tauto|].
    vm_compute. reflexivity.
Qed.

Lemma slots_clear_of_sorted_busy_witness :
  exists slots,
    findFreeSlots 0 100 morningSorted CALENDAR_CONFIG (clockAt 7 0 0)
    = Some slots
    /\ slots <> []
    /\ forall s b,
         In s slots -> In b morningSorted ->
         hasConflict [b] (startDate s) (endDate s) = false.
Proof.
  eexists. split; [vm_compute; reflexivity|].
  split; [discriminate|].
  apply (slots_clear_of_sorted_busy 0 100 morningSorted CALENDAR_CONFIG
           (clockAt 7 0 0)).
  - by_computation.
  - by_computation.
  - split; by_computation.
  - by_computation.
  - by_computation.
  - unfold sortedByStart, morningSorted. each_event.
  - unfold morningSorted. repeat constructor; by_computation.
  - unfold morningSorted, endsWithinStartDay. each_event.
  - vm_compute. reflexivity.
Defined.

(** The same overlap arises from rounding alone: [diffMinutes] rounds a gap
    of 14 min 33 s up to 15, so with the clock at 09:45:27 and a meeting at
    10:00 the slot 09:45:27-10:00:27 is offered; with the clock at 21:45:20
    and nothing busy the slot 21:45:20-22:00:20 runs past the window end. *)
Lemma diffMinutes_rounds_gap_up :
  diffMinutes (clockAt 9 45 27) (clockAt 10 0 0) = 15
  /\ (exists slots,
         findFreeSlots 0 100
           [meeting "m" (clockAt 10 0 0) (clockAt 11 0 0)]
           CALENDAR_CONFIG (clockAt 9 45 27) = Some slots
         /\ In (buildSlot (clockAt 9 45 27) 15) slots
         /\ hasConflict [meeting "m" (clockAt 10 0 0) (clockAt 11 0 0)]
                        (clockAt 9 45 27) (clockAt 10 0 27) = true)
  /\ findFreeSlots 0 100 [] CALENDAR_CONFIG (clockAt 21 45 20)
     = Some [buildSlot (clockAt 21 45 20) 15]
  /\ setHour 0 (startOfDay 0 (clockAt 21 45 20)) 22
     < endDate (buildSlot (clockAt 21 45 20) 15).
Proof.
  split; [reflexivity|].
  split.
  - eexists. split; [vm_compute; reflexivity|].
    split; [vm_compute; tauto | reflexivity].
  - split; [vm_compute; reflexivity | by_computation].
Qed.

(** ** C2 *)

Lemma hasConflict_half_open_overlap_witness :
  hasConflict [meeting "m" (clockAt 10 0 0) (clockAt 10 30 0)]
              (clockAt 10 30 0) (clockAt 11 0 0) = false
  /\ hasConflict [meeting "m" (clockAt 10 0 0) (clockAt 10 30 0)]
                 (clockAt 10 29 0) (clockAt 11 0 0) = true.
Proof.
  destruct hasConflict_half_open_overlap as (Hiff & Htouch & _).
  split.
  - apply Htouch. left. reflexivity.
  - apply Hiff. eexists. split; [left; reflexivity|].
    split; by_computation.
Defined.

(** ** C3 *)

(** C3 at a calendar with a meeting at 23:00, the window 07:00-22:00 and
    the clock at 21:00: the gap before the meeting is carved up to 23:00,
    so the slots 22:00-22:30 and 22:30-23:00 lie after the window end. *)
Theorem slots_past_window_end :
  findFreeSlots 0 100 lateEvening CALENDAR_CONFIG (clockAt 21 0 0)
  = Some [buildSlot (clockAt 21 0 0) 30; buildSlot (clockAt 21 30 0) 30;
          buildSlot (clockAt 22 0 0) 30; buildSlot (clockAt 22 30 0) 30]
  /\ setHour 0 (startOfDay 0 (addDays (clockAt 21 0 0) 0))
             (dayEndHour CALENDAR_CONFIG) = clockAt 22 0 0
  /\ clockAt 22 0 0 <= startDate (buildSlot (clockAt 22 30 0) 30)
  /\ clockAt 22 0 0 < endDate (buildSlot (clockAt 22 30 0) 30).
Proof.
  split; [vm_compute; reflexivity|].
  split; [vm_compute; reflexivity|].
  split; by_computation.
Qed.

(** ** C4 *)

(** C4. A gap shorter than [minMinutes] is to yield nothing, and only a gap
    of [maxMinutes] or more a maximal slot.  The loop measures what is left
    of a gap with [diffMinutes], which rounds to the nearest minute: with
    nothing busy, 15 and 30 minutes and the window 07:00-22:00, the 14 min
    40 s left at 21:45:20 yield the 15-minute slot 21:45:20-22:00:20, and
    the 29 min 40 s left at 21:30:20 yield the 30-minute slot
    21:30:20-22:00:20. *)
Theorem gap_below_minimum_yields_slot :
  setHour 0 (startOfDay 0 (addDays (clockAt 21 45 20) 0))
          (dayEndHour CALENDAR_CONFIG) = clockAt 22 0 0
  /\ clockAt 22 0 0 - clockAt 21 45 20
     < minMinutes CALENDAR_CONFIG * MS_PER_MINUTE
  /\ findFreeSlots 0 100 [] CALENDAR_CONFIG (clockAt 21 45 20)
     = Some [buildSlot (clockAt 21 45 20) (minMinutes CALENDAR_CONFIG)]
  /\ setHour 0 (startOfDay 0 (addDays (clockAt 21 30 20) 0))
             (dayEndHour CALENDAR_CONFIG) = clockAt 22 0 0
  /\ clockAt 22 0 0 - clockAt 21 30 20
     < maxMinutes CALENDAR_CONFIG * MS_PER_MINUTE
  /\ findFreeSlots 0 100 [] CALENDAR_CONFIG (clockAt 21 30 20)
     = Some [buildSlot (clockAt 21 30 20) (maxMinutes CALENDAR_CONFIG)].
Proof.
  split; [vm_compute; reflexivity|].
  split; [by_computation|].
  split; [vm_compute; reflexivity|].
  split; [vm_compute; reflexivity|].
  split; [by_computation|].
  vm_compute. reflexivity.
Qed.

(** ** C5 *)

(** C5 fails as stated: the caller passes the busy list and the
    configuration only, and two calls with the same two, made at 07:00 and
    at 08:00, return different lists. *)
Lemma findFreeSlots_depends_on_clock :
  exists slots1 slots2,
    findFreeSlots 0 100 [] CALENDAR_CONFIG (clockAt 7 0 0) = Some slots1
    /\ findFreeSlots 0 100 [] CALENDAR_CONFIG (clockAt 8 0 0) = Some slots2
    /\ slots1 <> slots2.
Proof.
  eexists. eexists.
  split; [vm_compute; reflexivity|].
  split; [vm_compute; reflexivity|].
  discriminate.
Qed.

Lemma findFreeSlots_deterministic_in_clock_witness :
  exists slots1 slots2,
    findFreeSlots 0 100 morningSorted CALENDAR_CONFIG (clockAt 7 0 0)
    = Some slots1
    /\ findFreeSlots 0 200 [] DEFAULT_FREE_SLOT_CONFIG (clockAt 6 0 0)
       = Some slots2
    /\ In (buildSlot (clockAt 7 0 0) 30) slots1
    /\ In (buildSlot (clockAt 7 0 0) 30) slots2
    /\ forall s1 s2,
         In s1 slots1 -> In s2 slots2 ->
         startDate s1 = startDate s2 ->
         durationMinutes s1 = durationMinutes s2 ->
         id s1 = id s2.
Proof.
  eexists. eexists.
  split; [vm_compute; reflexivity|].
  split; [vm_compute; reflexivity|].
  split; [vm_compute; tauto|].
  split; [vm_compute; tauto|].
  apply (findFreeSlots_deterministic_in_clock 0 100 200 morningSorted []
           CALENDAR_CONFIG DEFAULT_FREE_SLOT_CONFIG
           (clockAt 7 0 0) (clockAt 6 0 0)).
  - vm_compute. reflexivity.
  - vm_compute. reflexivity.
Defined.

(** ** C6 *)

(** C6 fails as stated: the two meetings listed latest first give another
    result than the same meetings in start order. *)
Lemma findFreeSlots_order_sensitive :
  sortByStart morningUnsorted = morningSorted
  /\ exists slots1 slots2,
       findFreeSlots 0 100 morningUnsorted CALENDAR_CONFIG (clockAt 7 0 0)
       = Some slots1
       /\ findFreeSlots 0 100 (sortByStart morningUnsorted) CALENDAR_CONFIG
                        (clockAt 7 0 0) = Some slots2
       /\ slots1 <> slots2.
Proof.
  split; [vm_compute; reflexivity|].
  eexists. eexists.
  split; [vm_compute; reflexivity|].
  split; [vm_compute; reflexivity|].
  discriminate.
Qed.

(** Tomorrow's meeting listed before today's two: every day's events are
    in start order, the list as a whole is not. *)
Lemma findFreeSlots_sorted_days_invariant_witness :
  let busy :=
    meeting "c" (clockAt 33 0 0) (clockAt 34 0 0) :: morningSorted in
  sortByStart busy <> busy
  /\ findFreeSlots 0 100 (sortByStart busy) DEFAULT_FREE_SLOT_CONFIG
                   (clockAt 7 0 0)
     = findFreeSlots 0 100 busy DEFAULT_FREE_SLOT_CONFIG (clockAt 7 0 0).
Proof.
  intros busy. split; [vm_compute; discriminate|].
  apply (findFreeSlots_sorted_days_invariant 0 100 busy
           DEFAULT_FREE_SLOT_CONFIG (clockAt 7 0 0)).
  intros dayOffset Hoff. change (days DEFAULT_FREE_SLOT_CONFIG) with 3 in Hoff.
  assert (Hcases : dayOffset = 0 \/ dayOffset = 1 \/ dayOffset = 2) by lia.
  unfold sortedByStart.
  destruct Hcases as [-> | [-> | ->]]; vm_compute; repeat constructor;
    let H := fresh in intro H; discriminate H.
Defined.

(** ** C7 *)

(** The clock at 09:10 with the two morning meetings: the slot that would
    start at 09:00 is in the past and the first slot offered is at 09:10. *)
Lemma past_time_never_offered_witness :
  initialCursor (clockAt 9 10 0) (clockAt 7 0 0) 0 = clockAt 9 10 0
  /\ initialCursor (clockAt 9 10 0) (clockAt 31 0 0) 1 = clockAt 31 0 0
  /\ exists slots,
       findFreeSlots 0 100 morningSorted DEFAULT_FREE_SLOT_CONFIG
                     (clockAt 9 10 0) = Some slots
       /\ slots <> []
       /\ forall slot, In slot slots -> clockAt 9 10 0 <= startDate slot.
Proof.
  destruct (past_time_never_offered 0 100 morningSorted
              DEFAULT_FREE_SLOT_CONFIG (clockAt 9 10 0))
    as (_ & Hzero & Hlater & Hslots).
  split; [rewrite Hzero; reflexivity|].
  split; [apply Hlater; discriminate|].
  eexists. split; [vm_compute; reflexivity|].
  split; [discriminate|].
  apply Hslots. vm_compute. reflexivity.
Defined.

(** ** C8 *)

(** Three empty days hold far more than ten slots. *)
Lemma findFreeSlots_at_most_ten_witness :
  exists slots,
    findFreeSlots 0 100 [] DEFAULT_FREE_SLOT_CONFIG (clockAt 7 0 0)
    = Some slots
    /\ List.length slots = 10%nat
    /\ (List.length slots <= 10)%nat.
Proof.
  eexists. split; [vm_compute; reflexivity|].
  split; [reflexivity|].
  apply (findFreeSlots_at_most_ten 0 100 [] DEFAULT_FREE_SLOT_CONFIG
           (clockAt 7 0 0)).
  vm_compute. reflexivity.
Defined.

(** ** C9 *)

Lemma findFreeSlots_total_witness :
  WellFormed DEFAULT_FREE_SLOT_CONFIG
  /\ exists fuel slots,
       findFreeSlots 0 fuel morningSorted DEFAULT_FREE_SLOT_CONFIG
                     (clockAt 9 10 0) = Some slots.
Proof.
  assert (Hwf : WellFormed DEFAULT_FREE_SLOT_CONFIG).
  { repeat split; by_computation. }
  split; [exact Hwf|].
  destruct (findFreeSlots_total 0 morningSorted DEFAULT_FREE_SLOT_CONFIG
              (clockAt 9 10 0) Hwf)
    as ((fuel & slots & Hrun & _) & _).
  exists fuel, slots. exact Hrun.
Defined.

(** ** C10 *)

(** C10 fails as stated: at 10:00 with no slot left the synthesized slot
    runs from 10:15 to 10:45, not to the end of the day. *)
Lemma fallback_not_to_end_of_day :
  filterToday 0 [] (clockAt 10 0 0) = []
  /\ 15 <= (endOfToday 0 (clockAt 10 0 0) - minStartOf (clockAt 10 0 0)) / 60000
  /\ selectTodaysSlots 0 [] (clockAt 10 0 0)
     = [fallbackSlot (clockAt 10 0 0) 30]
  /\ endDate (fallbackSlot (clockAt 10 0 0) 30) = clockAt 10 45 0
  /\ endOfToday 0 (clockAt 10 0 0) = clockAt 23 59 59 + 999
  /\ ~ (exists slot,
           selectTodaysSlots 0 [] (clockAt 10 0 0) = [slot]
           /\ startDate slot = minStartOf (clockAt 10 0 0)
           /\ endDate slot = endOfToday 0 (clockAt 10 0 0)).
Proof.
  split; [reflexivity|].
  split; [by_computation|].
  split; [vm_compute; reflexivity|].
  split; [vm_compute; reflexivity|].
  split; [vm_compute; reflexivity|].
  intros (slot & Hsel & _ & Hend).
  vm_compute in Hsel. injection Hsel as <-.
  vm_compute in Hend. discriminate Hend.
Qed.

Lemma fallback_slot_capped_witness :
  (exists slot,
      selectTodaysSlots 0 [buildSlot (clockAt 10 10 0) 30] (clockAt 10 0 0)
      = [slot]
      /\ startDate slot = clockAt 10 15 0
      /\ durationMinutes slot = 30
      /\ endDate slot = clockAt 10 45 0)
  /\ (exists slot,
         selectTodaysSlots 0 [] (clockAt 23 25 0) = [slot]
         /\ startDate slot = clockAt 23 40 0
         /\ durationMinutes slot = 19
         /\ endDate slot = clockAt 23 59 0)
  /\ selectTodaysSlots 0 [] (clockAt 23 40 0) = [].
Proof.
  split; [|split].
  - destruct (fallback_slot_capped 0 [buildSlot (clockAt 10 10 0) 30]
                (clockAt 10 0 0) eq_refl)
      as [Hsome _].
    destruct Hsome as (slot & Hsel & Hstart & Hdur & Hend & _);
      [by_computation|].
    exists slot. rewrite Hend, Hstart, Hdur.
    repeat split; first [exact Hsel | vm_compute; reflexivity].
  - destruct (fallback_slot_capped 0 [] (clockAt 23 25 0) eq_refl)
      as [Hsome _].
    destruct Hsome as (slot & Hsel & Hstart & Hdur & Hend & _);
      [by_computation|].
    exists slot. rewrite Hend, Hstart, Hdur.
    repeat split; first [exact Hsel | vm_compute; reflexivity].
  - destruct (fallback_slot_capped 0 [] (clockAt 23 40 0) eq_refl)
      as [_ Hnone].
    apply Hnone. by_computation.
Defined.

(** * The further properties at concrete calendars (zone offset 0) *)

Lemma slots_start_after_a_window_start_witness :
  exists slots,
    findFreeSlots 0 100 morningSorted DEFAULT_FREE_SLOT_CONFIG
                  (clockAt 9 10 27) = Some slots
    /\ slots <> []
    /\ forall s,
         In s slots ->
         exists dayOffset,
           0 <= dayOffset < 3
           /\ setHour 0 (startOfDay 0 (addDays (clockAt 9 10 27) dayOffset)) 7
              <= startDate s.
Proof.
  eexists. split; [vm_compute; reflexivity|].
  split; [discriminate|].
  apply (slots_start_after_a_window_start 0 100 morningSorted
           DEFAULT_FREE_SLOT_CONFIG (clockAt 9 10 27)).
  - by_computation.
  - by_computation.
  - vm_compute. reflexivity.
Defined.

Lemma slots_within_window_witness :
  exists slots,
    findFreeSlots 0 100 morningUnsorted DEFAULT_FREE_SLOT_CONFIG
                  (clockAt 9 10 0) = Some slots
    /\ slots <> []
    /\ forall s,
         In s slots ->
         exists dayOffset,
           0 <= dayOffset < 3
           /\ setHour 0 (startOfDay 0 (addDays (clockAt 9 10 0) dayOffset)) 7
              <= startDate s
           /\ startDate s < endDate s
           /\ endDate s
              <= setHour 0 (startOfDay 0 (addDays (clockAt 9 10 0) dayOffset))
                         21.
Proof.
  eexists. split; [vm_compute; reflexivity|].
  split; [discriminate|].
  apply (slots_within_window 0 100 morningUnsorted DEFAULT_FREE_SLOT_CONFIG
           (clockAt 9 10 0)).
  - by_computation.
  - by_computation.
  - by_computation.
  - by_computation.
  - unfold morningUnsorted. repeat constructor; by_computation.
  - unfold morningUnsorted, startsByWindowEnd. each_event.
  - vm_compute. reflexivity.
Defined.

Lemma slots_do_not_overlap_each_other_witness :
  exists slots,
    findFreeSlots 0 100 morningUnsorted CALENDAR_CONFIG (clockAt 7 0 0)
    = Some slots
    /\ List.length slots = 10%nat
    /\ StronglySorted (fun a b => endDate a <= startDate b) slots
    /\ Forall (fun s => startDate s < endDate s) slots.
Proof.
  eexists. split; [vm_compute; reflexivity|].
  split; [reflexivity|].
  apply (slots_do_not_overlap_each_other 0 100 morningUnsorted CALENDAR_CONFIG
           (clockAt 7 0 0)).
  - by_computation.
  - by_computation.
  - split; by_computation.
  - by_computation.
  - by_computation.
  - unfold morningUnsorted. repeat constructor; by_computation.
  - vm_compute. reflexivity.
Defined.

Lemma hasConflict_order_and_shrinking_witness :
  hasConflict morningSorted (clockAt 8 30 0) (clockAt 9 30 0)
  = hasConflict morningUnsorted (clockAt 8 30 0) (clockAt 9 30 0)
  /\ hasConflict morningUnsorted (clockAt 9 15 0) (clockAt 9 45 0) = false.
Proof.
  split.
  - apply (proj1 (hasConflict_order_and_shrinking morningUnsorted
                    (clockAt 8 30 0) (clockAt 9 30 0))).
    unfold morningUnsorted, morningSorted. apply perm_swap.
  - apply (proj2 (proj2 (hasConflict_order_and_shrinking morningUnsorted
                           (clockAt 9 0 0) (clockAt 10 0 0)))).
    + by_computation.
    + by_computation.
    + vm_compute. reflexivity.
Defined.

Lemma condense_keeps_two_per_daypart_witness :
  condense 0 [buildSlot (clockAt 7 0 0) 30; buildSlot (clockAt 7 30 0) 30;
              buildSlot (clockAt 9 0 0) 30; buildSlot (clockAt 12 0 0) 30]
  = [buildSlot (clockAt 7 0 0) 30; buildSlot (clockAt 7 30 0) 30;
     buildSlot (clockAt 12 0 0) 30]
  /\ condense 0 [buildSlot (clockAt 19 0 0) 15] <> [].
Proof.
  split; [vm_compute; reflexivity|].
  apply (proj2 (proj2 (proj2 (condense_keeps_two_per_daypart 0
                                [buildSlot (clockAt 19 0 0) 15])))).
  discriminate.
Defined.

(** A sync at 07:00 whose filter reads the clock a minute later, with the
    two morning meetings fetched latest first. *)
Lemma synced_slots_are_ahead_today_and_short_witness :
  exists slots,
    syncCalendarSlots 0 100 morningUnsorted (clockAt 7 0 0) (clockAt 7 1 0)
    = Some slots
    /\ slots <> []
    /\ forall s,
         In s slots ->
         clockAt 7 1 0 + 15 * MS_PER_MINUTE <= startDate s
         /\ startOfToday 0 (clockAt 7 1 0) <= startDate s
         /\ endDate s <= endOfToday 0 (clockAt 7 1 0)
         /\ 15 <= durationMinutes s <= 30
         /\ endDate s = startDate s + durationMinutes s * MS_PER_MINUTE.
Proof.
  eexists. split; [vm_compute; reflexivity|].
  split; [discriminate|].
  apply (synced_slots_are_ahead_today_and_short 0 100 morningUnsorted
           (clockAt 7 0 0) (clockAt 7 1 0)).
  vm_compute. reflexivity.
Defined.

(** At 22:30 the window is over and the scan finds nothing; the fallback
    slot is shown. *)
Lemma sync_shows_a_slot_while_time_remains_witness :
  findFreeSlots 0 100 [] CALENDAR_CONFIG (clockAt 22 30 0) = Some []
  /\ exists fuel outcome,
       (forall fuel',
           (fuel <= fuel')%nat ->
           syncCalendar 0 fuel' (Some true) (Some []) (clockAt 22 30 0)
                        (clockAt 22 30 1) = Some outcome)
       /\ exists slots, outcome = slotsSet slots /\ slots <> [].
Proof.
  split; [vm_compute; reflexivity|].
  destruct (sync_shows_a_slot_while_time_remains 0 (Some true) (Some [])
              (clockAt 22 30 0) (clockAt 22 30 1))
    as (fuel & outcome & Hruns & slots & Hset & Hshown).
  exists fuel, outcome. split; [exact Hruns|].
  exists slots. split; [exact Hset|].
  apply Hshown. by_computation.
Defined.

Lemma synced_slots_clear_unless_fallback_witness :
  exists slots,
    syncCalendarSlots 0 100 morningUnsorted (clockAt 7 0 0) (clockAt 7 1 0)
    = Some slots
    /\ slots <> []
    /\ forall s,
         In s slots ->
         (forall b,
             In b morningUnsorted ->
             hasConflict [b] (startDate s) (endDate s) = false)
         \/ s = fallbackSlot (clockAt 7 1 0) (durationMinutes s).
Proof.
  eexists. split; [vm_compute; reflexivity|].
  split; [discriminate|].
  apply (synced_slots_clear_unless_fallback 0 100 morningUnsorted
           (clockAt 7 0 0) (clockAt 7 1 0)).
  - by_computation.
  - by_computation.
  - unfold morningUnsorted. repeat constructor; by_computation.
  - unfold morningUnsorted, endsWithinStartDay. each_event.
  - vm_compute. reflexivity.
Defined.

Lemma diffMinutes_within_half_minute_witness :
  diffMinutes (clockAt 9 45 27) (clockAt 10 0 0) = 15
  /\ - 30000
     < diffMinutes (clockAt 9 45 27) (clockAt 10 0 0) * 60000
       - (clockAt 10 0 0 - clockAt 9 45 27)
     <= 30000
  /\ diffMinutes (clockAt 10 0 0) (clockAt 9 0 0) = 0.
Proof.
  destruct (diffMinutes_within_half_minute (clockAt 9 45 27) (clockAt 10 0 0))
    as (_ & _ & Hforward).
  destruct (diffMinutes_within_half_minute (clockAt 10 0 0) (clockAt 9 0 0))
    as (_ & Hback & _).
  split; [reflexivity|].
  split; [apply Hforward; by_computation | apply Hback; by_computation].
Defined.

Lemma handleAddSlot_writes_only_valid_slots_witness :
  handleAddSlot 0 None morningSorted (buildSlot (clockAt 9 0 0) 30)
                (Some "Breathwork"%string) (clockAt 7 0 0)
  = callAddWellnessEvent
  /\ forall b,
       In b morningSorted -> clearOf (buildSlot (clockAt 9 0 0) 30) b.
Proof.
  assert (Hcall : handleAddSlot 0 None morningSorted
                    (buildSlot (clockAt 9 0 0) 30)
                    (Some "Breathwork"%string) (clockAt 7 0 0)
                  = callAddWellnessEvent) by (vm_compute; reflexivity).
  split; [exact Hcall|].
  apply (proj1 (handleAddSlot_writes_only_valid_slots 0 None morningSorted
                  (buildSlot (clockAt 9 0 0) 30) (Some "Breathwork"%string)
                  (clockAt 7 0 0))) in Hcall.
  apply Hcall.
Defined.

Lemma synced_slot_stays_addable_witness :
  exists slots,
    syncCalendarSlots 0 100 morningUnsorted (clockAt 7 0 0) (clockAt 7 1 0)
    = Some slots
    /\ In (buildSlot (clockAt 7 30 0) 30) slots
    /\ handleAddSlot 0 None morningUnsorted
         (withDuration (buildSlot (clockAt 7 30 0) 30) 15)
         (Some "Breathwork"%string) (clockAt 7 10 0)
       = callAddWellnessEvent
    /\ handleAddSlot 0 (Some "event-1"%string) morningUnsorted
         (withDuration (buildSlot (clockAt 7 30 0) 30) 15)
         (Some "Breathwork"%string) (clockAt 7 10 0)
       = alertAlreadyAdded.
Proof.
  eexists. split; [vm_compute; reflexivity|].
  split; [vm_compute; tauto|].
  split.
  - erewrite (synced_slot_stays_addable 0 100 morningUnsorted (clockAt 7 0 0)
                (clockAt 7 1 0) (clockAt 7 10 0) _
                (buildSlot (clockAt 7 30 0) 30) None morningUnsorted
                "Breathwork"%string).
    + vm_compute. reflexivity.
    + vm_compute. reflexivity.
    + vm_compute. tauto.
    + by_computation.
    + vm_compute. reflexivity.
    + discriminate.
  - erewrite (synced_slot_stays_addable 0 100 morningUnsorted (clockAt 7 0 0)
                (clockAt 7 1 0) (clockAt 7 10 0) _
                (buildSlot (clockAt 7 30 0) 30) (Some "event-1"%string)
                morningUnsorted "Breathwork"%string).
    + vm_compute. reflexivity.
    + vm_compute. reflexivity.
    + vm_compute. tauto.
    + by_computation.
    + vm_compute. reflexivity.
    + discriminate.
Defined.

(** The 09:00 slot moved to 16:13, the time of day of the picked date. *)
Lemma handleTimePicked_moves_within_the_day_witness :
  handleTimePicked 0 (Some (buildSlot (clockAt 9 0 0) 30))
    (Some (clockAt 40 13 27)) None morningSorted
    [buildSlot (clockAt 7 0 0) 30; buildSlot (clockAt 9 0 0) 30]
    (clockAt 7 0 0)
  = slotsUpdated
      [buildSlot (clockAt 7 0 0) 30;
       {| id := id (buildSlot (clockAt 9 0 0) 30);
          startDate := clockAt 16 13 0; endDate := clockAt 16 43 0;
          durationMinutes := 30; status := available |}]
  /\ exists moved,
       [buildSlot (clockAt 7 0 0) 30;
        {| id := id (buildSlot (clockAt 9 0 0) 30);
           startDate := clockAt 16 13 0; endDate := clockAt 16 43 0;
           durationMinutes := 30; status := available |}]
       = map (fun s => if String.eqb (id s) (id (buildSlot (clockAt 9 0 0) 30))
                       then moved else s)
             [buildSlot (clockAt 7 0 0) 30; buildSlot (clockAt 9 0 0) 30]
       /\ getHours 0 (startDate moved) = getHours 0 (clockAt 40 13 27)
       /\ getMinutes 0 (startDate moved) = getMinutes 0 (clockAt 40 13 27)
       /\ clockAt 7 0 0 <= startDate moved.
Proof.
  split; [vm_compute; reflexivity|].
  destruct (handleTimePicked_moves_within_the_day 0
              (buildSlot (clockAt 9 0 0) 30) (clockAt 40 13 27) None
              morningSorted
              [buildSlot (clockAt 7 0 0) 30; buildSlot (clockAt 9 0 0) 30]
              [buildSlot (clockAt 7 0 0) 30;
               {| id := id (buildSlot (clockAt 9 0 0) 30);
                  startDate := clockAt 16 13 0; endDate := clockAt 16 43 0;
                  durationMinutes := 30; status := available |}]
              (clockAt 7 0 0))
    as (moved & Hmap & _ & _ & _ & _ & _ & _ & Hh & Hm & _ & _ & Hnow & _).
  - vm_compute. reflexivity.
  - exists moved. repeat split; assumption.
Defined.

Lemma exercise_maps_back_to_its_mood_witness :
  moodForExercise Calm (Some "Dance Break"%string) = Energetic
  /\ deriveMoodFromExercise Calm (Some "Slow Walk"%string) (Some Energetic)
     = Stressed
  /\ moodForExercise Stressed (Some "Yoga"%string) = Stressed.
Proof.
  destruct (exercise_maps_back_to_its_mood Calm (Some Energetic))
    as (Hlisted & _).
  destruct (exercise_maps_back_to_its_mood Stressed None)
    as (_ & Hunknown & _).
  split; [apply Hlisted; vm_compute; tauto|].
  split; [apply Hlisted; vm_compute; tauto|].
  apply Hunknown. intros key. destruct key; vm_compute;
    intuition discriminate.
Defined.

Lemma targetCalendarId_is_modifiable_witness :
  let readOnly := mkCalendar "1" (Some false) (Some true) in
  let local := mkCalendar "2" None None in
  let work := mkCalendar "3" (Some true) (Some true) in
  targetCalendarId None (Some [readOnly; local; work]) = Some "3"%string
  /\ targetCalendarId (Some "9"%string) (Some [readOnly; local; work])
     = Some "9"%string
  /\ targetCalendarId None (Some [readOnly]) = None.
Proof.
  intros readOnly local work.
  split; [vm_compute; reflexivity|]. split.
  - apply (proj1 (targetCalendarId_is_modifiable (Some "9"%string)
                    (Some [readOnly; local; work]))).
    reflexivity.
  - apply (proj2 (proj2 (targetCalendarId_is_modifiable None
                           (Some [readOnly])))); [reflexivity|].
    right. exists [readOnly]. split; [reflexivity|].
    intros cal [<- | []]. reflexivity.
Defined.

Lemma exampleJson_round_trips :
  jsonRoundTrips exampleStringify exampleParse exampleMeta.
Proof.
  split; [|split].
  - exists (removelast (tl exampleJson)). vm_compute. reflexivity.
  - vm_compute. intuition discriminate.
  - vm_compute. reflexivity.
Qed.

Lemma metadata_round_trip_witness :
  parseMeta exampleParse (Some (mergedNotes exampleStringify None exampleMeta))
  = Some exampleMeta
  /\ parseMeta exampleParse
       (Some (mergedNotes exampleStringify (Some (lit "Stretch by the window"))
                          exampleMeta))
     = Some exampleMeta.
Proof.
  split.
  - apply (metadata_round_trip exampleStringify exampleParse None exampleMeta).
    + exact exampleJson_round_trips.
    + discriminate.
    + intros text H. discriminate H.
  - apply (metadata_round_trip exampleStringify exampleParse
             (Some (lit "Stretch by the window")) exampleMeta).
    + exact exampleJson_round_trips.
    + discriminate.
    + intros text [= <-]. vm_compute. reflexivity.
Defined.

(** The saved event comes back renamed, with its notes under
    [description] only. *)
Lemma saved_event_is_recognised_witness :
  let raw :=
    {| raw_id := "ev-1"; raw_startDate := clockAt 7 0 0;
       raw_endDate := Some (clockAt 7 30 0); raw_title := lit "Stretching";
       raw_notes := None;
       raw_description :=
         Some (mergedNotes exampleStringify None exampleMeta) |} in
  isAppCreated (busyEvent (toBusyEvent exampleParse raw)) = true
  /\ fetched_slotId (toBusyEvent exampleParse raw)
     = Some "1767250800000-30"%string.
Proof.
  intros raw.
  destruct (proj1 (saved_event_is_recognised exampleStringify exampleParse
                     raw None exampleMeta))
    as (Happ & Hslot & _).
  - exact exampleJson_round_trips.
  - discriminate.
  - intros text H. discriminate H.
  - right. split; reflexivity.
  - split; [exact Happ | exact Hslot].
Defined.

Lemma addedEventIdsBySlot_last_wins_witness :
  let first :=
    {| busyEvent := {| event_id := "ev-1"; event_startDate := clockAt 7 0 0;
                       event_endDate := clockAt 7 30 0;
                       isAppCreated := true |};
       fetched_slotId := Some "1767250800000-30"%string;
       fetched_exercise := None; fetched_exerciseMood := None;
       fetched_userMood := None |} in
  let second :=
    {| busyEvent := {| event_id := "ev-2"; event_startDate := clockAt 7 0 0;
                       event_endDate := clockAt 7 15 0;
                       isAppCreated := true |};
       fetched_slotId := Some "1767250800000-30"%string;
       fetched_exercise := None; fetched_exerciseMood := None;
       fetched_userMood := None |} in
  let third :=
    {| busyEvent := {| event_id := "ev-3"; event_startDate := clockAt 8 0 0;
                       event_endDate := clockAt 8 15 0;
                       isAppCreated := true |};
       fetched_slotId := Some "__proto__"%string;
       fetched_exercise := None; fetched_exerciseMood := None;
       fetched_userMood := None |} in
  ~ In "1767250800000-30"%string OBJECT_PROTOTYPE_NAMES
  /\ readAdded [first; second; third] "1767250800000-30" = readId "ev-2"
  /\ readAdded [first; second; third] "1767250800000-30" <> readUndefined
  /\ In "__proto__"%string OBJECT_PROTOTYPE_NAMES
  /\ readAdded [first; second; third] "__proto__" = readInherited
  /\ In "constructor"%string OBJECT_PROTOTYPE_NAMES
  /\ readAdded [first; second; third] "constructor" <> readUndefined.
Proof.
  intros first second third.
  assert (Hown : ~ In "1767250800000-30"%string OBJECT_PROTOTYPE_NAMES).
  { cbn. intuition discriminate. }
  assert (Hproto : In "__proto__"%string OBJECT_PROTOTYPE_NAMES)
    by (cbn; tauto).
  assert (Hconstructor : In "constructor"%string OBJECT_PROTOTYPE_NAMES)
    by (cbn; tauto).
  destruct (addedEventIdsBySlot_last_wins "1767250800000-30"
              [first; second; third]) as (Hread & _ & _).
  destruct (Hread Hown) as (Hlast & Hiff & _).
  destruct (addedEventIdsBySlot_last_wins "__proto__"
              [first; second; third]) as (_ & Hinherited & _).
  destruct (Hinherited Hproto) as (_ & Hswallowed & _).
  destruct (addedEventIdsBySlot_last_wins "constructor"
              [first; second; third]) as (_ & Hnamed & _).
  destruct (Hnamed Hconstructor) as (Hdefined & _).
  split; [exact Hown|].
  split; [rewrite Hlast; reflexivity|].
  split.
  { apply Hiff. exists first.
    split; [left; reflexivity|]. repeat split. discriminate. }
  split; [exact Hproto|].
  split; [apply Hswallowed; reflexivity|].
  split; [exact Hconstructor | exact Hdefined].
Defined.

Lemma saved_slot_is_reported_already_added_witness :
  let raw :=
    {| raw_id := "ev-1"; raw_startDate := clockAt 7 0 0;
       raw_endDate := Some (clockAt 7 30 0); raw_title := EVENT_TITLE;
       raw_notes := Some (mergedNotes exampleStringify None exampleMeta);
       raw_description := None |} in
  handleAddSlot 0
    (getAdded (addedEventIdsBySlot (map (toBusyEvent exampleParse) [raw]))
              (id (buildSlot (clockAt 7 0 0) 30)))
    [] (buildSlot (clockAt 7 0 0) 30) (Some "Breathwork"%string)
    (clockAt 6 0 0)
  = alertAlreadyAdded.
Proof.
  intros raw.
  apply (saved_slot_is_reported_already_added 0 exampleStringify exampleParse
           [raw] raw None exampleMeta).
  - exact exampleJson_round_trips.
  - intros text H. discriminate H.
  - vm_compute. reflexivity.
  - vm_compute. discriminate.
  - left. reflexivity.
  - reflexivity.
  - repeat constructor. discriminate.
Defined.
